(** * inquirer/questions.py: question types, property resolution and
      validation, as a shallow embedding *)

From Stdlib Require Import ZArith Ascii String DecimalString List Lia.
From stdpp Require Import base option gmap strings list.

Set Warnings "-register-all".

Local Open Scope string_scope.

(** ** Python values

    The objects the module handles: the data values found in an answers
    dictionary and in question specifications, instances of [TaggedValue],
    and callables.  A callable is a reference [VFun f] into the table of
    functions of the running program (see [Runtime]).  Strings are taken
    over the code points below 256; floats, bytes, dicts and sets are not
    part of the embedding. *)

Inductive pyval : Type :=
| VNone
| VBool (b : bool)
| VInt (z : Z)
| VStr (s : string)
| VTuple (items : list pyval)
| VList (items : list pyval)
| VTagged (label value : pyval)
| VFun (f : nat).

(** Modelled from the spec: the module [errors] of the package is not among
    the sources; [ValidationError] carries the rejected value and
    [UnknownQuestionTypeError] carries nothing.  The other constructors are
    the built-in exceptions the module can meet.  [NonException] stands for
    the exceptions that derive from [BaseException] but not from [Exception]
    ([KeyboardInterrupt], [SystemExit]); [OSError] keeps the two attributes
    the module reads, with [winerror = None] when the attribute is absent. *)
Inductive exn : Type :=
| ValidationError (value : pyval)
| UnknownQuestionTypeError
| KeyError (key : string)
| IndexError (msg : string)
| ValueError (msg : string)
| TypeError (msg : string)
| AssertionError
| OSError (winerror : option Z) (errno : Z)
| OtherException (name : string)
| NonException (name : string).

(** [isinstance(e, Exception)] *)
Definition is_Exception (e : exn) : bool :=
  match e with
  | NonException _ => false
  | _ => true
  end.

(** [isinstance(e, errors.ValidationError)] *)
Definition is_ValidationError (e : exn) : bool :=
  match e with
  | ValidationError _ => true
  | _ => false
  end.

(** ** Results: a value or a raised exception *)

Inductive outcome (A : Type) : Type :=
| Ok (a : A)
| Raise (e : exn).

Arguments Ok {A} a.
Arguments Raise {A} e.

#[global] Instance outcome_ret : MRet outcome := fun A a => Ok a.

#[global] Instance outcome_bind : MBind outcome :=
  fun A B f m => match m with Ok a => f a | Raise e => Raise e end.

(** [try: body / except ...]: [handler e = None] when no clause matches [e]. *)
Definition try_except {A} (body : outcome A) (handler : exn -> option (outcome A)) : outcome A :=
  match body with
  | Ok a => Ok a
  | Raise e => match handler e with Some r => r | None => Raise e end
  end.

(** ** Built-in operations on values *)

(** [bool(v)]; a [TaggedValue] defines neither [__bool__] nor [__len__]. *)
Definition truthy (v : pyval) : bool :=
  match v with
  | VNone => false
  | VBool b => b
  | VInt z => negb (z =? 0)%Z
  | VStr s => negb (String.eqb s "")
  | VTuple l | VList l => negb (Nat.eqb (length l) 0)
  | VTagged _ _ => true
  | VFun _ => true
  end.

Definition callable (v : pyval) : bool :=
  match v with
  | VFun _ => true
  | _ => false
  end.

(** [v is None] *)
Definition is_None (v : pyval) : bool :=
  match v with
  | VNone => true
  | _ => false
  end.

Fixpoint size (v : pyval) : nat :=
  match v with
  | VTuple l | VList l => S (list_sum (List.map size l))
  | VTagged l x => S (size l + size x)
  | _ => 1
  end.

(** [bool] is a subclass of [int]: [True == 1]. *)
Definition as_int (v : pyval) : option Z :=
  match v with
  | VBool b => Some (Z.b2z b)
  | VInt z => Some z
  | _ => None
  end.

(** The items of two sequences compared from the left with [eq], up to the
    first pair that is not equal. *)
Fixpoint seq_eq (eq : pyval -> pyval -> option bool) (l m : list pyval) : option bool :=
  match l, m with
  | x :: l', y :: m' =>
      match eq x y with
      | Some true => seq_eq eq l' m'
      | r => r
      end
  | _, _ => Some true
  end.

(** [a == b], following the dispatch of the comparison: [TaggedValue.__eq__]
    (lines 67-70) when the left operand is a [TaggedValue]; the reflected
    [TaggedValue.__eq__] when only the right one is, since the built-in left
    operand answers [NotImplemented]; the built-in comparison otherwise.
    Sequences of different lengths are unequal whatever their items.  The
    recursion follows the nesting of the values, counted down by [n]. *)
Fixpoint eq_fuel (n : nat) (a b : pyval) {struct n} : option bool :=
  match n with
  | O => None
  | S n =>
    match a, b with
    | VTagged _ v, VTagged _ w => eq_fuel n v w
    | VTagged _ v, _ => eq_fuel n v b
    | _, VTagged _ w => eq_fuel n w a
    | VNone, VNone => Some true
    | (VBool _ | VInt _), (VBool _ | VInt _) => Some (bool_decide (as_int a = as_int b))
    | VStr s, VStr t => Some (String.eqb s t)
    | VTuple l, VTuple m | VList l, VList m =>
        if Nat.eqb (length l) (length m) then seq_eq (eq_fuel n) l m else Some false
    | VFun f, VFun g => Some (Nat.eqb f g)
    | _, _ => Some false
    end
  end.

Definition py_eq (a b : pyval) : bool :=
  match eq_fuel (size a + size b) a b with
  | Some r => r
  | None => false
  end.

(** [a != b]: [TaggedValue.__ne__] (lines 72-73) negates [__eq__]; so do the
    built-in types, and the reflected call when only [b] is a [TaggedValue]. *)
Definition py_ne (a b : pyval) : bool :=
  match a, b with
  | VTagged _ _, _ => negb (py_eq a b)
  | _, VTagged _ _ => negb (py_eq b a)
  | _, _ => negb (py_eq a b)
  end.

(** The value that a [TaggedValue], or a nest of them, finally holds. *)
Fixpoint untag (v : pyval) : pyval :=
  match v with
  | VTagged _ x => untag x
  | _ => v
  end.

(** ** The running program and its platform

    What the module reads from outside itself: the function objects that
    specifications refer to, and the parts of [sys], [os], [os.path] and
    [errno] it calls.  [os_lstat] raises as [os.lstat] does; the predicates
    of [os.path] answer [False] instead of raising.  [format_extended]
    stands for the part of [str.format] that is not embedded here: the
    rendering of a field that has an attribute or index lookup, a conversion
    or a format specification, given the object found under the first name
    of the field. *)
Class Runtime : Type := {
  call : nat -> gmap string pyval -> list pyval -> outcome pyval;
  fun_repr : nat -> string;
  format_extended : pyval -> string -> option ascii -> string -> gmap string pyval -> outcome string;
  PY_SSIZE_T_MAX : Z;
  sys_platform : string;
  os_environ : gmap string string;
  os_path_sep : ascii;
  errno_ENAMETOOLONG : Z;
  errno_ERANGE : Z;
  os_lstat : string -> outcome unit;
  os_path_splitdrive : string -> string * string;
  os_path_basename : string -> string;
  os_path_isdir : string -> bool;
  os_path_isfile : string -> bool;
  os_path_exists : string -> bool;
  os_path_expanduser : string -> string;
  os_path_abspath : string -> string
}.

(** ** [str] and [repr] *)

Definition type_name (v : pyval) : string :=
  match v with
  | VNone => "NoneType"
  | VBool _ => "bool"
  | VInt _ => "int"
  | VStr _ => "str"
  | VTuple _ => "tuple"
  | VList _ => "list"
  | VTagged _ _ => "TaggedValue"
  | VFun _ => "function"
  end.

(** Decimal form of an integer (the limit on the number of digits that
    Python 3.11 introduced is a setting of the interpreter, taken as off). *)
Definition int_str (z : Z) : string := NilZero.string_of_int (Z.to_int z).

Definition hexdigit (n : N) : ascii :=
  ascii_of_N (if (n <? 10)%N then 48 + n else 87 + n).

Definition hex_escape (c : ascii) : string :=
  let n := N_of_ascii c in
  String "\" (String "x" (String (hexdigit (n / 16)) (String (hexdigit (n mod 16)) ""))).

Definition dquote : ascii := ascii_of_N 34.

(** One character of the [repr] of a string. Among the code points from
    128 to 255 the controls, the no-break space and the soft hyphen are
    not printable. *)
Definition repr_char (quote c : ascii) : string :=
  let n := N_of_ascii c in
  if Ascii.eqb c quote || Ascii.eqb c "\" then String "\" (String c "")
  else if (n =? 9)%N then "\t"
  else if (n =? 10)%N then "\n"
  else if (n =? 13)%N then "\r"
  else if (n <? 32)%N || (n =? 127)%N then hex_escape c
  else if (n <? 127)%N then String c ""
  else if (n <? 161)%N || (n =? 173)%N then hex_escape c
  else String c "".

Definition str_repr (s : string) : string :=
  let cs := list_ascii_of_string s in
  let has c := existsb (Ascii.eqb c) cs in
  let quote := if has "'"%char && negb (has dquote) then dquote else "'"%char in
  String quote (String.concat "" (List.map (repr_char quote) cs) ++ String quote "").

Section Builtins.
Context `{Runtime}.

(** [repr(v)]; [TaggedValue.__repr__] (lines 64-65) returns the value, which
    the interpreter refuses unless it is a string. *)
Fixpoint py_repr (v : pyval) : outcome string :=
  let reprs :=
    fix reprs (l : list pyval) : outcome (list string) :=
      match l with
      | [] => Ok []
      | x :: l' => s ← py_repr x; ss ← reprs l'; Ok (s :: ss)
      end in
  match v with
  | VNone => Ok "None"
  | VBool b => Ok (if b then "True" else "False")
  | VInt z => Ok (int_str z)
  | VStr s => Ok (str_repr s)
  | VTuple [] => Ok "()"
  | VTuple [x] => s ← py_repr x; Ok ("(" ++ s ++ ",)")
  | VTuple l => ss ← reprs l; Ok ("(" ++ String.concat ", " ss ++ ")")
  | VList l => ss ← reprs l; Ok ("[" ++ String.concat ", " ss ++ "]")
  | VTagged _ (VStr s) => Ok s
  | VTagged _ value =>
      Raise (TypeError ("__repr__ returned non-string (type " ++ type_name value ++ ")"))
  | VFun f => Ok (fun_repr f)
  end.

(** [str(v)], which is also [format(v, "")]; [TaggedValue.__str__]
    (lines 61-62) returns the label. *)
Definition py_str (v : pyval) : outcome string :=
  match v with
  | VStr s => Ok s
  | VTagged (VStr s) _ => Ok s
  | VTagged label _ =>
      Raise (TypeError ("__str__ returned non-string (type " ++ type_name label ++ ")"))
  | _ => py_repr v
  end.

End Builtins.

(** ** [str.format] called with keyword arguments only

    The format string is read from the left, one character at a time; the
    state says where in the markup the reader stands.  A field is rendered as
    soon as it is closed, so the first failure from the left is the one that
    is raised. *)

Inductive fmt_state : Type :=
| InText
| InName (name : string) (bracket : bool)
| AfterBang (name : string)
| AfterConv (name : string) (conv : ascii)
| InSpec (name : string) (conv : option ascii) (spec : string) (depth : nat).

(** The first name of a field: up to the first [.] or [[]. *)
Fixpoint split_first (s : string) : string * string :=
  match s with
  | "" => ("", "")
  | String c s' =>
      if Ascii.eqb c "." || Ascii.eqb c "[" then ("", s)
      else let '(a, b) := split_first s' in (String c a, b)
  end.

Definition conv_of (c : ascii) : option ascii :=
  if Ascii.eqb c Ascii.zero then None else Some c.

Section Format.
Context `{Runtime}.

(** The first name read as a positional index: [None] when some character is
    not a decimal digit. *)
Fixpoint get_integer (acc : Z) (s : string) : outcome (option Z) :=
  match s with
  | "" => Ok (Some acc)
  | String c s' =>
      let n := Z.of_N (N_of_ascii c) in
      if (48 <=? n)%Z && (n <=? 57)%Z then
        let d := (n - 48)%Z in
        if (acc >? (PY_SSIZE_T_MAX - d) / 10)%Z
        then Raise (ValueError "Too many decimal digits in format string")
        else get_integer (acc * 10 + d)%Z s'
      else Ok None
  end.

(** One replacement field.  There are no positional arguments, so an empty or
    numeric first name is out of range; any other first name is looked up in
    the keyword arguments. *)
Definition output_markup (kw : gmap string pyval) (name : string)
    (conv : option ascii) (spec : string) : outcome string :=
  let '(first, rest) := split_first name in
  if String.eqb first "" then
    Raise (IndexError "Replacement index 0 out of range for positional args tuple")
  else
    idx ← get_integer 0 first;
    match idx with
    | Some i =>
        Raise (IndexError ("Replacement index " ++ int_str i
                           ++ " out of range for positional args tuple"))
    | None =>
        match kw !! first with
        | None => Raise (KeyError first)
        | Some obj =>
            if String.eqb rest "" && bool_decide (conv = None) && String.eqb spec ""
            then py_str obj
            else format_extended obj rest conv spec kw
        end
    end.

Fixpoint format_run (kw : gmap string pyval) (st : fmt_state) (s : string) {struct s}
    : outcome string :=
  match s with
  | "" =>
      match st with
      | InText => Ok ""
      | InName _ _ => Raise (ValueError "expected '}' before end of string")
      | AfterBang _ =>
          Raise (ValueError "end of string while looking for conversion specifier")
      | AfterConv _ _ | InSpec _ _ _ _ => Raise (ValueError "unmatched '{' in format spec")
      end
  | String c s' =>
      match st with
      | InText =>
          if Ascii.eqb c "{" then
            match s' with
            | "" => Raise (ValueError "Single '{' encountered in format string")
            | String c' s'' =>
                if Ascii.eqb c' "{" then t ← format_run kw InText s''; Ok (String "{" t)
                else format_run kw (InName "" false) s'
            end
          else if Ascii.eqb c "}" then
            match s' with
            | "" => Raise (ValueError "Single '}' encountered in format string")
            | String c' s'' =>
                if Ascii.eqb c' "}" then t ← format_run kw InText s''; Ok (String "}" t)
                else Raise (ValueError "Single '}' encountered in format string")
            end
          else t ← format_run kw InText s'; Ok (String c t)
      | InName name true =>
          format_run kw (InName (name ++ String c "") (negb (Ascii.eqb c "]"))) s'
      | InName name false =>
          if Ascii.eqb c "{" then Raise (ValueError "unexpected '{' in field name")
          else if Ascii.eqb c "[" then format_run kw (InName (name ++ "[") true) s'
          else if Ascii.eqb c "}" then
            out ← output_markup kw name None ""; t ← format_run kw InText s'; Ok (out ++ t)
          else if Ascii.eqb c ":" then format_run kw (InSpec name None "" 0) s'
          else if Ascii.eqb c "!" then format_run kw (AfterBang name) s'
          else format_run kw (InName (name ++ String c "") false) s'
      | AfterBang name => format_run kw (AfterConv name c) s'
      | AfterConv name conv =>
          if Ascii.eqb c "}" then
            out ← output_markup kw name (conv_of conv) "";
            t ← format_run kw InText s'; Ok (out ++ t)
          else if Ascii.eqb c ":" then format_run kw (InSpec name (conv_of conv) "" 0) s'
          else Raise (ValueError "expected ':' after conversion specifier")
      | InSpec name conv spec depth =>
          if Ascii.eqb c "{" then
            format_run kw (InSpec name conv (spec ++ "{") (S depth)) s'
          else if Ascii.eqb c "}" then
            match depth with
            | O => out ← output_markup kw name conv spec;
                   t ← format_run kw InText s'; Ok (out ++ t)
            | S d => format_run kw (InSpec name conv (spec ++ "}") d) s'
            end
          else format_run kw (InSpec name conv (spec ++ String c "") depth) s'
      end
  end.

(** [s.format] applied to the keyword arguments [kw] *)
Definition py_format (s : string) (kw : gmap string pyval) : outcome string :=
  format_run kw InText s.

End Format.

(** ** Dictionaries shared by reference

    An answers dictionary is an object on the heap: a question holds its
    address, and the questions of one session hold the same address. *)

Abbreviation dict := (gmap string pyval).
Abbreviation heap := (gmap nat (gmap string pyval)).

Definition deref (h : heap) (l : nat) : dict := default ∅ (h !! l).

(** [d[k] = v] on the dictionary at address [l] *)
Definition setitem (h : heap) (l : nat) (k : string) (v : pyval) : heap :=
  <[l := <[k := v]> (deref h l)]> h.

(** Iterating over a value to its end. *)
Definition py_iter (v : pyval) : outcome (list pyval) :=
  match v with
  | VTuple l | VList l => Ok l
  | VStr s => Ok (List.map (fun c => VStr (String c "")) (list_ascii_of_string s))
  | _ => Raise (TypeError ("'" ++ type_name v ++ "' object is not iterable"))
  end.

(** ** class Question (lines 76-125) *)

Module Question.

Record t : Type := mk {
  name : string;
  _message : pyval;
  _choices : pyval;
  _default : pyval;
  _ignore : pyval;
  _validate : pyval;
  answers : nat;
  show_default : pyval
}.

(** [__init__] (lines 79-87); the caller passes [""], [None], [None],
    [False], [True] and [False] for the arguments it leaves out.  The new
    question gets an empty dictionary of its own. *)
Definition __init__ (h : heap) (name : string)
    (message choices default ignore validate show_default : pyval) : t * heap :=
  let l := fresh (dom h) in
  (mk name message (if truthy choices then choices else VList []) default ignore validate
      l show_default,
   <[l := ∅]> h).

(** [question.answers = answers]: the driver hands the session's dictionary
    to the question. *)
Definition set_answers (self : t) (l : nat) : t :=
  mk (name self) (_message self) (_choices self) (_default self) (_ignore self)
     (_validate self) l (show_default self).

Section Methods.
Context `{Runtime}.

(** [_solve] (lines 120-125) *)
Definition _solve (h : heap) (self : t) (prop : pyval) (args : list pyval) : outcome pyval :=
  match prop with
  | VFun f => call f (deref h (answers self)) args
  | VStr s => r ← py_format s (deref h (answers self)); Ok (VStr r)
  | _ => Ok prop
  end.

(** [ignore] (lines 89-91) *)
Definition ignore (h : heap) (self : t) : outcome bool :=
  v ← _solve h self (_ignore self) []; Ok (truthy v).

(** [message] (lines 93-95) *)
Definition message (h : heap) (self : t) : outcome pyval :=
  _solve h self (_message self) [].

(** [default] (lines 97-99): [dict.get] answers [None] for a missing key, and
    [or] evaluates its right operand only when the left one is falsy. *)
Definition default (h : heap) (self : t) : outcome pyval :=
  let recorded :=
    match deref h (answers self) !! name self with
    | Some v => v
    | None => VNone
    end in
  if truthy recorded then Ok recorded else _solve h self (_default self) [].

(** One step of the generator's loop (line 104). *)
Definition tag_choice (choice : pyval) : pyval :=
  match choice with
  | VTuple [label; value] => VTagged label value
  | _ => choice
  end.

(** [choices_generator] (lines 101-104), run to its end. *)
Definition choices_generator (h : heap) (self : t) : outcome (list pyval) :=
  v ← _solve h self (_choices self) [];
  items ← py_iter v;
  Ok (List.map tag_choice items).

(** [choices] (lines 106-108) *)
Definition choices (h : heap) (self : t) : outcome (list pyval) :=
  choices_generator h self.

(** [validate] (lines 110-118).  The body of [try] answers whether it
    returned; [except Exception: pass] falls through to the final [raise]. *)
Definition validate (h : heap) (self : t) (current : pyval) : outcome unit :=
  returned ← try_except
    (v ← _solve h self (_validate self) [current]; Ok (truthy v))
    (fun e =>
       if is_ValidationError e then Some (Raise e)
       else if is_Exception e then Some (Ok false)
       else None);
  if returned : bool then Ok tt else Raise (ValidationError current).

End Methods.
End Question.

(** ** class Text and its subclasses Password and Editor (lines 128-146) *)

Module Text.
Section Methods.
Context `{Runtime}.

(** [__init__] (lines 131-134) *)
Definition __init__ (h : heap) (name : string)
    (message default choices ignore validate show_default : pyval)
    : outcome (Question.t * heap) :=
  d ← (if truthy default && negb (callable default)
       then s ← py_str default; Ok (VStr s)
       else Ok default);
  Ok (Question.__init__ h name message choices d ignore validate show_default).

End Methods.
End Text.

Module Password.

Record t : Type := mk { base : Question.t; echo : pyval }.

Section Methods.
Context `{Runtime}.

(** [__init__] (lines 140-142) *)
Definition __init__ (h : heap) (name : string) (echo : pyval)
    (message default choices ignore validate show_default : pyval) : outcome (t * heap) :=
  '(q, h') ← Text.__init__ h name message default choices ignore validate show_default;
  Ok (mk q echo, h').

End Methods.
End Password.

Module Editor.
Section Methods.
Context `{Runtime}.

(** [Editor] inherits [Text.__init__]. *)
Definition __init__ := Text.__init__.

End Methods.
End Editor.

(** ** Pathname validity (lines 169-202) *)

Definition ERROR_INVALID_NAME : Z := 123.

(** [s.split(c)] for a separator of one character *)
Fixpoint split (c : ascii) (s : string) : list string :=
  match s with
  | "" => [""]
  | String a s' =>
      if Ascii.eqb a c then "" :: split c s'
      else match split c s' with
           | part :: parts => String a part :: parts
           | [] => [String a ""]
           end
  end.

(** [s.rstrip(c)] for one character *)
Fixpoint rstrip (c : ascii) (s : string) : string :=
  match s with
  | "" => ""
  | String a s' =>
      match rstrip c s' with
      | "" => if Ascii.eqb a c then "" else String a ""
      | r => String a r
      end
  end.

Section Pathname.
Context `{Runtime}.

(** The handler of lines 193-198: does this [OSError] make the pathname
    invalid? *)
Definition invalid_name_error (winerror : option Z) (errno : Z) : bool :=
  match winerror with
  | Some w => (w =? ERROR_INVALID_NAME)%Z
  | None => (errno =? errno_ENAMETOOLONG)%Z || (errno =? errno_ERANGE)%Z
  end.

(** The loop of lines 190-198; [Ok false] is the [return False] inside it,
    [Ok true] the [else] clause of the outer [try]. *)
Fixpoint probe_parts (root_dirname : string) (parts : list string) : outcome bool :=
  match parts with
  | [] => Ok true
  | pathname_part :: parts' =>
      match os_lstat (root_dirname ++ pathname_part) with
      | Ok _ => probe_parts root_dirname parts'
      | Raise (OSError winerror errno) =>
          if invalid_name_error winerror errno then Ok false
          else probe_parts root_dirname parts'
      | Raise e => Raise e
      end
  end.

(** Line 185 *)
Definition platform_root : string :=
  if String.eqb sys_platform "win32"
  then match os_environ !! "HOMEDRIVE" with Some d => d | None => "C:" end
  else String os_path_sep "".

(** Line 188 *)
Definition probe_root : string :=
  rstrip os_path_sep platform_root ++ String os_path_sep "".

(** [is_pathname_valid] (lines 174-202) *)
Definition is_pathname_valid (pathname : pyval) : outcome bool :=
  try_except
    match pathname with
    | VStr s =>
        if negb (truthy pathname) then Ok false
        else
          let '(_, pathname) := os_path_splitdrive s in
          if negb (os_path_isdir platform_root) then Raise AssertionError
          else probe_parts probe_root (split os_path_sep pathname)
    | _ => Ok false
    end
    (fun e =>
       match e with
       | ValueError _ | TypeError _ => Some (Ok false)
       | _ => None
       end).

(** What the probe of one part of the pathname says: [true] when it makes
    the pathname invalid. *)
Definition probe_fault (pathname_part : string) : bool :=
  match os_lstat (probe_root ++ pathname_part) with
  | Raise (OSError winerror errno) => invalid_name_error winerror errno
  | Raise (ValueError _ | TypeError _) => true
  | _ => false
  end.

(** The exceptions [os.lstat] raises on a string. *)
Definition lstat_error (e : exn) : bool :=
  match e with
  | OSError _ _ | ValueError _ | TypeError _ => true
  | _ => false
  end.

End Pathname.

(** ** class Path (lines 205-265) *)

(** The values of the embedding that are none of [str], [bytes] and
    [os.PathLike]: [None], the instances of [bool], [int], [tuple] and
    [list], the [TaggedValue]s, which define no [__fspath__], and the
    functions.  [os.fspath], to which [os.path.expanduser] hands its
    argument, raises [TypeError] on them. *)
Definition not_a_path (value : pyval) : bool :=
  match value with
  | VNone | VBool _ | VInt _ | VTuple _ | VList _ | VTagged _ _ | VFun _ => true
  | VStr _ => false
  end.

Module Path.

Record t : Type := mk {
  base : Question.t;
  _path_type : pyval;
  _exists : pyval;
  _normalize_to_absolute_path : pyval
}.

Section Methods.
Context `{Runtime}.

(** [normalize_value] (lines 259-265).  [os.path.expanduser] takes a
    [str], [bytes] or an [os.PathLike] object; the values of the embedding
    have neither of the last two, so that a value other than a string is
    one that [os.fspath] refuses. *)
Definition normalize_value (self : t) (value : pyval) : outcome pyval :=
  match value with
  | VStr s =>
      let value := os_path_expanduser s in
      Ok (VStr (if truthy (_normalize_to_absolute_path self)
                then os_path_abspath value else value))
  | _ =>
      Raise (TypeError ("expected str, bytes or os.PathLike object, not " ++ type_name value))
  end.

(** The branches of lines 238-257 on the normalized path. *)
Definition check_existence (self : t) (current : string) : outcome unit :=
  let exists_ := _exists self in
  let fail : outcome unit := Raise (ValidationError (VStr current)) in
  if py_eq (_path_type self) (VStr "file") then
    if is_None exists_ && String.eqb (os_path_basename current) "" then fail
    else if truthy exists_ && negb (os_path_isfile current) then fail
    else if negb (is_None exists_) && negb (truthy exists_) && os_path_isfile current then fail
    else Ok tt
  else if py_eq (_path_type self) (VStr "directory") then
    if is_None exists_ && negb (String.eqb (os_path_basename current) "") then fail
    else if truthy exists_ && negb (os_path_isdir current) then fail
    else if negb (is_None exists_) && negb (truthy exists_) && os_path_isdir current then fail
    else Ok tt
  else if truthy exists_ && negb (os_path_exists current) then fail
  else if negb (is_None exists_) && negb (truthy exists_) && os_path_exists current then fail
  else Ok tt.

(** [validate] (lines 225-257) *)
Definition validate (h : heap) (self : t) (current : pyval) : outcome unit :=
  _ ← Question.validate h (base self) current;
  if is_None current then Raise (ValidationError current)
  else
    current ← normalize_value self current;
    valid ← is_pathname_valid current;
    if negb valid then Raise (ValidationError current)
    else
      match current with
      | VStr p => check_existence self p
      | _ => Ok tt
      end.

(** [__init__] (lines 212-223); the caller passes [None], ["any"], [None]
    and [False] for the arguments it leaves out. *)
Definition __init__ (h : heap) (name : string)
    (default path_type exists_ normalize_to_absolute_path : pyval)
    (message choices ignore validate_ show_default : pyval) : outcome (t * heap) :=
  '(q, h') ← Text.__init__ h name message default choices ignore validate_ show_default;
  let self := mk q path_type exists_ normalize_to_absolute_path in
  if negb (is_None default) then
    _ ← try_except (validate h' self default)
          (fun e =>
             if is_ValidationError e then
               Some (s ← py_str default;
                     Raise (ValueError ("Default value '" ++ s
                                        ++ "' is not valid based on your Path's criteria")))
             else None);
    Ok (self, h')
  else Ok (self, h').

End Methods.
End Path.

(** ** A POSIX platform

    An instance of [Runtime] after [posixpath] and a file system given as a
    table from absolute normalized paths to whether the entry is a directory
    (there are no symbolic links); [home] answers the home directory of a
    user, the empty name standing for the current user. *)

(** [s] cut at the first [c]: what is before, and the rest from [c] on. *)
Fixpoint break_at (c : ascii) (s : string) : string * string :=
  match s with
  | "" => ("", "")
  | String a s' =>
      if Ascii.eqb a c then ("", s)
      else let '(x, y) := break_at c s' in (String a x, y)
  end.

Definition startswith (p s : string) : bool := String.prefix p s.

(** [posixpath.basename]: what follows the last slash. *)
Definition posix_basename (p : string) : string :=
  List.last (split "/" p) "".

(** [posixpath.expanduser] *)
Definition posix_expanduser (home : string -> option string) (path : string) : string :=
  match path with
  | String "~" rest =>
      let '(user, tail) := break_at "/" rest in
      match home user with
      | None => path
      | Some userhome =>
          let r := rstrip "/" userhome ++ tail in
          if String.eqb r "" then "/" else r
      end
  | _ => path
  end.

(** [posixpath.normpath] *)
Definition posix_normpath (path : string) : string :=
  if String.eqb path "" then "."
  else
    let initial_slashes :=
      if startswith "/" path
      then if startswith "//" path && negb (startswith "///" path) then 2 else 1
      else 0 in
    let step (new_comps : list string) (comp : string) : list string :=
      if String.eqb comp "" || String.eqb comp "." then new_comps
      else if negb (String.eqb comp "..")
              || (Nat.eqb initial_slashes 0 && Nat.eqb (length new_comps) 0)
              || (negb (Nat.eqb (length new_comps) 0)
                  && String.eqb (List.last new_comps "") "..")
           then (new_comps ++ [comp])%list
           else List.removelast new_comps in
    let comps := fold_left step (split "/" path) [] in
    let path := String.concat "" (repeat "/" initial_slashes) ++ String.concat "/" comps in
    if String.eqb path "" then "." else path.

(** [posixpath.abspath] in the working directory [cwd]; the path is joined
    to [cwd] unless it is absolute. *)
Definition posix_abspath (cwd path : string) : string :=
  if startswith "/" path then posix_normpath path
  else if String.eqb cwd "" || String.eqb (rstrip "/" cwd) cwd
       then posix_normpath (cwd ++ (if String.eqb cwd "" then "" else "/") ++ path)
       else posix_normpath (cwd ++ path).

Definition contains_nul (s : string) : bool :=
  existsb (Ascii.eqb Ascii.zero) (list_ascii_of_string s).

Definition NAME_MAX : nat := 255.
Definition ENOENT : Z := 2.

Section Posix.
Variable funs : nat -> gmap string pyval -> list pyval -> outcome pyval.
Variable extended : pyval -> string -> option ascii -> string -> gmap string pyval -> outcome string.
Variable home : string -> option string.
Variable cwd : string.
Variable files : list (string * bool).

(** The entry a path leads to: [Some true] for a directory, [Some false]
    for a regular file. *)
Definition posix_lookup (p : string) : option bool :=
  if String.eqb p "" || contains_nul p then None
  else
    let a := posix_abspath cwd p in
    if String.eqb a "/" then Some true
    else snd <$> List.find (fun e => String.eqb (fst e) a) files.

(** [os.lstat]: a null character is refused before the system is asked; a
    component longer than [NAME_MAX] is refused by the system. *)
Definition posix_lstat (p : string) : outcome unit :=
  if contains_nul p then Raise (ValueError "embedded null byte")
  else if existsb (fun part => Nat.ltb NAME_MAX (String.length part)) (split "/" p)
       then Raise (OSError None 36)
       else match posix_lookup p with
            | Some _ => Ok tt
            | None => Raise (OSError None ENOENT)
            end.

Definition posix : Runtime := {|
  call := funs;
  fun_repr := fun f => "<function f" ++ int_str (Z.of_nat f) ++ ">";
  format_extended := extended;
  PY_SSIZE_T_MAX := 9223372036854775807;
  sys_platform := "linux";
  os_environ := ∅;
  os_path_sep := "/";
  errno_ENAMETOOLONG := 36;
  errno_ERANGE := 34;
  os_lstat := posix_lstat;
  os_path_splitdrive := fun p => ("", p);
  os_path_basename := posix_basename;
  os_path_isdir := fun p => bool_decide (posix_lookup p = Some true);
  os_path_isfile := fun p => bool_decide (posix_lookup p = Some false);
  os_path_exists := fun p => bool_decide (is_Some (posix_lookup p));
  os_path_expanduser := posix_expanduser home;
  os_path_abspath := posix_abspath cwd
|}.

End Posix.

(** *** A session used in the examples

    Function 0 is a validator that accepts the non-empty strings, function 1
    one that raises its own [ValidationError], function 2 one that fails
    with a [TypeError], function 3 one that is interrupted from the
    keyboard; function 4 computes the choices from the answer recorded
    under ["mode"]. *)
Definition sample_funs (f : nat) (answers : gmap string pyval) (args : list pyval)
    : outcome pyval :=
  match f, args with
  | 0, [VStr s] => Ok (VBool (negb (String.eqb s "")))
  | 0, [_] => Ok (VBool false)
  | 1, [_] => Raise (ValidationError (VStr "refused"))
  | 2, [_] => Raise (TypeError "unsupported operand")
  | 3, [_] => Raise (NonException "KeyboardInterrupt")
  | 4, [] =>
      match answers !! "mode" with
      | Some (VStr "full") => Ok (VList [VTuple [VStr "Yes"; VInt 1]; VTuple [VStr "No"; VInt 0]; VInt 2])
      | _ => Ok (VList [VTuple [VStr "Yes"; VInt 1]])
      end
  | _, _ => Raise (TypeError "wrong number of arguments")
  end.

Definition sample_extended (obj : pyval) (rest : string) (conv : option ascii)
    (spec : string) (kw : gmap string pyval) : outcome string :=
  Raise (ValueError "Invalid format specifier").

Definition sample_home (user : string) : option string :=
  if String.eqb user "" then Some "/home/u" else None.

Definition sample_files : list (string * bool) :=
  [("/home", true); ("/home/u", true); ("/home/u/notes.txt", false); ("/tmp", true)].

Definition sample : Runtime :=
  posix sample_funs sample_extended sample_home "/home/u" sample_files.



(** ** Faults of a probe, in the words of the specification

    The specification names two faults that the system reports on a probe:
    a name that is too long, and the code of the platform for an invalid
    name.  [named_fault] is that reading: the error number of the first,
    the Windows error code of the second.  [rejecting_probe] is what
    decides in the end, written out case by case: where the [OSError]
    carries a Windows error code, that code alone, which must be 123;
    elsewhere the error number, which may be that of a name too long or that
    of a result out of range; and a [ValueError] or a [TypeError], which
    the outer handler turns into [False]. *)
Section Faults.
Context `{Runtime}.





End Faults.

(** ** Templates, in the words of the specification

    A template is literal text with named placeholders.  [template_text] is
    the format string that writes it down, a literal brace being doubled;
    [substitute_spec] is the substitution the specification describes:
    each placeholder is replaced by the string form of the value found under
    its name, and a name that is not in the context is a failure. *)

Inductive piece : Type :=
| Lit (c : ascii)
| Field (name : string).

Definition is_brace (c : ascii) : bool := Ascii.eqb c "{" || Ascii.eqb c "}".

Fixpoint template_text (ps : list piece) : string :=
  match ps with
  | [] => ""
  | Lit c :: ps' =>
      if is_brace c then String c (String c (template_text ps'))
      else String c (template_text ps')
  | Field name :: ps' => String "{" (name ++ String "}" (template_text ps'))
  end.

(** The characters that end or structure a field name in a format string. *)
Definition markup_char (c : ascii) : bool :=
  existsb (Ascii.eqb c) (list_ascii_of_string "{}[].!:").

Section Templates.
Context `{Runtime}.

(** A name as opposed to an index: not empty, free of markup, and not a
    decimal number. *)
Definition placeholder_name (name : string) : bool :=
  negb (String.eqb name "")
  && forallb (fun c => negb (markup_char c)) (list_ascii_of_string name)
  && match get_integer 0 name with Ok None => true | _ => false end.

Definition well_formed (ps : list piece) : bool :=
  forallb (fun p => match p with Lit _ => true | Field name => placeholder_name name end) ps.

Fixpoint substitute_spec (context : gmap string pyval) (ps : list piece) : outcome string :=
  match ps with
  | [] => Ok ""
  | Lit c :: ps' => t ← substitute_spec context ps'; Ok (String c t)
  | Field name :: ps' =>
      match context !! name with
      | None => Raise (KeyError name)
      | Some v => s ← py_str v; t ← substitute_spec context ps'; Ok (s ++ t)
      end
  end.

End Templates.

(** *** Replacement fields

    A string need not be the text of a template as above: a replacement
    field can also carry lookups after its name ([{name.attr}],
    [{name[key]}]), a conversion ([{name!r}]) and a format specification
    ([{name:>5}]), in which braces nest.  [parse_field st body] reads
    [body], the text between the braces of one field, from the state [st]
    on, and gives the name, the conversion and the format specification of
    the field; [None] when [body] is not the text of one field up to its
    closing brace (a brace in the name, a closing brace that ends the field
    before the end of [body], a conversion without its character or
    followed by something other than [:], a format specification whose
    braces are not matched). *)
Fixpoint parse_field (st : fmt_state) (body : string)
    : option (string * option ascii * string) :=
  match body with
  | "" =>
      match st with
      | InName name false => Some (name, None, "")
      | AfterConv name conv => Some (name, conv_of conv, "")
      | InSpec name conv spec 0 => Some (name, conv, spec)
      | _ => None
      end
  | String c body' =>
      match st with
      | InText => None
      | InName name true =>
          parse_field (InName (name ++ String c "") (negb (Ascii.eqb c "]"))) body'
      | InName name false =>
          if Ascii.eqb c "{" || Ascii.eqb c "}" then None
          else if Ascii.eqb c "[" then parse_field (InName (name ++ "[") true) body'
          else if Ascii.eqb c ":" then parse_field (InSpec name None "" 0) body'
          else if Ascii.eqb c "!" then parse_field (AfterBang name) body'
          else parse_field (InName (name ++ String c "") false) body'
      | AfterBang name => parse_field (AfterConv name c) body'
      | AfterConv name conv =>
          if Ascii.eqb c ":" then parse_field (InSpec name (conv_of conv) "" 0) body'
          else None
      | InSpec name conv spec depth =>
          if Ascii.eqb c "{" then parse_field (InSpec name conv (spec ++ "{") (S depth)) body'
          else if Ascii.eqb c "}" then
            match depth with
            | O => None
            | S d => parse_field (InSpec name conv (spec ++ "}") d) body'
            end
          else parse_field (InSpec name conv (spec ++ String c "") depth) body'
      end
  end.

(** The name a field looks up in the keyword arguments: the name of the
    field up to the first [.] or [[]. *)
Definition field_key (body : string) : option string :=
  match parse_field (InName "" false) body with
  | Some (name, _, _) => Some (fst (split_first name))
  | None => None
  end.

(** The heap and the questions of the examples. *)
Definition sample_heap : heap :=
  {[ 0%nat := {[ "q" := VBool false; "user" := VStr "ann" ]} ]}.

(** The same with, under [t], a [TaggedValue] whose label is a number: its
    [__str__] returns the label, which [str] refuses. *)
Definition tagged_heap : heap :=
  {[ 0%nat := {[ "q" := VBool false; "user" := VStr "ann";
                 "t" := VTagged (VInt 1) (VInt 2) ]} ]}.

Definition sample_question (default validate : pyval) : Question.t :=
  Question.mk "q" (VStr "Hello {user}, {{pick}} {q}") (VFun 4) default (VBool false) validate
              0 (VBool false).

Definition sample_path (path_type exists_ : pyval) : Path.t :=
  Path.mk (Question.mk "p" (VStr "") (VList []) VNone (VBool false) (VBool true) 0 (VBool false))
          path_type exists_ (VBool false).

(** ** Calls with positional and keyword arguments

    The constructors take [**kwargs] and hand them to the constructor of the
    superclass, and the factory calls a class with the arguments it was
    given, so which call succeeds is decided by how Python binds arguments
    to parameters: positional arguments first; then the keyword arguments
    in their order, each to the parameter of its name or, failing that,
    into [**kwargs]; then the check for too many positional arguments;
    then the defaults.  The failures are [TypeError]s, with the texts of
    CPython 3.10 to 3.12.  Keyword arguments are kept in their order, as a
    dictionary keeps its items; a dictionary has no key twice. *)

Abbreviation kwargs := (list (string * pyval)).

Record signature : Type := mk_signature {
  qualname : string;
  params : list (string * option pyval);
  var_positional : bool;
  var_keyword : bool
}.

Fixpoint assoc (k : string) (l : kwargs) : option pyval :=
  match l with
  | [] => None
  | (k', v) :: l' => if String.eqb k k' then Some v else assoc k l'
  end.

Definition is_param (sig : signature) (k : string) : bool :=
  existsb (fun p => String.eqb (fst p) k) (params sig).

Fixpoint bind_positional (ps : list (string * option pyval)) (args : list pyval)
    : kwargs * list pyval :=
  match ps, args with
  | (p, _) :: ps', a :: args' =>
      let '(bound, rest) := bind_positional ps' args' in ((p, a) :: bound, rest)
  | _, _ => ([], args)
  end.

Fixpoint bind_keywords (sig : signature) (bound extra kws : kwargs)
    : outcome (kwargs * kwargs) :=
  match kws with
  | [] => Ok (bound, extra)
  | (k, v) :: kws' =>
      if is_param sig k then
        match assoc k bound with
        | Some _ =>
            Raise (TypeError (qualname sig ++ "() got multiple values for argument '"
                              ++ k ++ "'"))
        | None => bind_keywords sig (bound ++ [(k, v)]) extra kws'
        end
      else if var_keyword sig then bind_keywords sig bound (extra ++ [(k, v)]) kws'
      else Raise (TypeError (qualname sig ++ "() got an unexpected keyword argument '"
                             ++ k ++ "'"))
  end.

Definition has_value {A} (o : option A) : bool :=
  match o with
  | Some _ => true
  | None => false
  end.

Definition nat_str (n : nat) : string := int_str (Z.of_nat n).

Definition too_many_positional (sig : signature) (given : nat) : exn :=
  let total := length (params sig) in
  let required := length (List.filter (fun p => negb (has_value (snd p))) (params sig)) in
  TypeError (qualname sig ++ "() takes "
             ++ (if Nat.eqb required total then nat_str total
                 else "from " ++ nat_str required ++ " to " ++ nat_str total)
             ++ " positional argument" ++ (if Nat.eqb total 1 then "" else "s")
             ++ " but " ++ nat_str given
             ++ (if Nat.eqb given 1 then " was given" else " were given")).

Definition quoted_names (names : list string) : string :=
  match names with
  | [] => ""
  | [a] => "'" ++ a ++ "'"
  | [a; b] => "'" ++ a ++ "' and '" ++ b ++ "'"
  | a :: (_ :: _ :: _) as rest =>
      "'" ++ a ++ "', "
      ++ (fix tail (l : list string) : string :=
            match l with
            | [] => ""
            | [z] => "and '" ++ z ++ "'"
            | y :: l' => "'" ++ y ++ "', " ++ tail l'
            end) rest
  end.

Definition missing_arguments (sig : signature) (names : list string) : exn :=
  TypeError (qualname sig ++ "() missing " ++ nat_str (length names)
             ++ " required positional argument"
             ++ (if Nat.eqb (length names) 1 then "" else "s") ++ ": "
             ++ quoted_names names).

(** The parameters that are bound neither by an argument nor by a default. *)
Definition missing (sig : signature) (bound : kwargs) : list string :=
  List.map fst
    (List.filter (fun p => negb (has_value (snd p)) && negb (has_value (assoc (fst p) bound)))
                 (params sig)).

(** Every parameter with its value, in the order of the signature. *)
Definition complete (sig : signature) (bound : kwargs) : kwargs :=
  List.map (fun p => (fst p,
                      match assoc (fst p) bound, snd p with
                      | Some v, _ => v
                      | None, Some d => d
                      | None, None => VNone
                      end))
           (params sig).

(** Binding the arguments of a call: the parameters with their values, the
    positional arguments left for [*args], and [**kwargs]. *)
Definition bind (sig : signature) (args : list pyval) (kws : kwargs)
    : outcome (kwargs * list pyval * kwargs) :=
  let '(positional, rest) := bind_positional (params sig) args in
  '(bound, extra) ← bind_keywords sig positional [] kws;
  if negb (var_positional sig) && negb (Nat.eqb (length rest) 0)
  then Raise (too_many_positional sig (length args))
  else
    match missing sig bound with
    | [] => Ok (complete sig bound, rest, extra)
    | names => Raise (missing_arguments sig names)
    end.

(** The value of a parameter after binding. *)
Definition arg (bound : kwargs) (p : string) : pyval :=
  match assoc p bound with
  | Some v => v
  | None => VNone
  end.

(** ** The constructors as they are called, and the factory (lines 14-38)

    A question name is a string in this embedding ([Question.name]); a call
    that builds a question with another name is [Outside] of it. *)

Inductive embedded (A : Type) : Type :=
| Inside (r : outcome A)
| Outside.

Arguments Inside {A} r.
Arguments Outside {A}.

#[global] Instance embedded_ret : MRet embedded := fun A a => Inside (Ok a).

#[global] Instance embedded_bind : MBind embedded :=
  fun A B f m =>
    match m with
    | Inside (Ok a) => f a
    | Inside (Raise e) => Inside (Raise e)
    | Outside => Outside
    end.

Module List_.

Record t : Type := mk { base : Question.t; carousel : pyval }.

End List_.

Definition Question_signature : signature :=
  mk_signature "Question.__init__"
    [("self", None); ("name", None); ("message", Some (VStr "")); ("choices", Some VNone);
     ("default", Some VNone); ("ignore", Some (VBool false)); ("validate", Some (VBool true));
     ("show_default", Some (VBool false))]
    false false.

Definition Text_signature : signature :=
  mk_signature "Text.__init__"
    [("self", None); ("name", None); ("message", Some (VStr "")); ("default", Some VNone)]
    false true.

Definition Password_signature : signature :=
  mk_signature "Password.__init__"
    [("self", None); ("name", None); ("echo", Some (VStr "*"))]
    false true.

Definition Confirm_signature : signature :=
  mk_signature "Confirm.__init__"
    [("self", None); ("name", None); ("default", Some (VBool false))]
    false true.

Definition List_signature : signature :=
  mk_signature "List.__init__"
    [("self", None); ("name", None); ("message", Some (VStr "")); ("choices", Some VNone);
     ("default", Some VNone); ("ignore", Some (VBool false)); ("validate", Some (VBool true));
     ("carousel", Some (VBool false))]
    false false.

Definition Path_signature : signature :=
  mk_signature "Path.__init__"
    [("self", None); ("name", None); ("default", Some VNone); ("path_type", Some (VStr "any"));
     ("exists", Some VNone); ("normalize_to_absolute_path", Some (VBool false))]
    false true.

Definition question_factory_signature : signature :=
  mk_signature "question_factory" [("kind", None)] true true.

Inductive clazz : Type := CText | CEditor | CPassword | CConfirm | CList | CCheckbox | CPath.

(** The class attribute [kind]. *)
Definition kind (c : clazz) : string :=
  match c with
  | CText => "text"
  | CEditor => "editor"
  | CPassword => "password"
  | CConfirm => "confirm"
  | CList => "list"
  | CCheckbox => "checkbox"
  | CPath => "path"
  end.

(** An instance of one of the classes. *)
Inductive question : Type :=
| IsText (q : Question.t)
| IsEditor (q : Question.t)
| IsPassword (q : Password.t)
| IsConfirm (q : Question.t)
| IsList (q : List_.t)
| IsCheckbox (q : Question.t)
| IsPath (q : Path.t).

Section Calls.
Context `{Runtime}.

(** [Question.__init__] (lines 79-87) called with the positional arguments
    [args], the new object first, and the keyword arguments [kws]. *)
Definition init_Question (h : heap) (args : list pyval) (kws : kwargs)
    : embedded (Question.t * heap) :=
  match bind Question_signature args kws with
  | Raise e => Inside (Raise e)
  | Ok (b, _, _) =>
      match arg b "name" with
      | VStr name =>
          Inside (Ok (Question.__init__ h name (arg b "message") (arg b "choices")
                        (arg b "default") (arg b "ignore") (arg b "validate")
                        (arg b "show_default")))
      | _ => Outside
      end
  end.

(** [Text.__init__] (lines 131-134) called with [args] and [kws] *)
Definition init_Text (h : heap) (args : list pyval) (kws : kwargs)
    : embedded (Question.t * heap) :=
  match bind Text_signature args kws with
  | Raise e => Inside (Raise e)
  | Ok (b, _, kwargs) =>
      let default := arg b "default" in
      match (if truthy default && negb (callable default)
             then s ← py_str default; Ok (VStr s)
             else Ok default) with
      | Raise e => Inside (Raise e)
      | Ok d =>
          init_Question h [arg b "self"; arg b "name"]
            (("message", arg b "message") :: ("default", d) :: kwargs)
      end
  end.

(** [Password.__init__] (lines 140-142) called with [args] and [kws] *)
Definition init_Password (h : heap) (args : list pyval) (kws : kwargs)
    : embedded (Password.t * heap) :=
  match bind Password_signature args kws with
  | Raise e => Inside (Raise e)
  | Ok (b, _, kwargs) =>
      '(q, h') ← init_Text h [arg b "self"; arg b "name"] kwargs;
      mret (Password.mk q (arg b "echo"), h')
  end.

(** [Confirm.__init__] (lines 152-153) called with [args] and [kws] *)
Definition init_Confirm (h : heap) (args : list pyval) (kws : kwargs)
    : embedded (Question.t * heap) :=
  match bind Confirm_signature args kws with
  | Raise e => Inside (Raise e)
  | Ok (b, _, kwargs) =>
      init_Question h [arg b "self"; arg b "name"] (("default", arg b "default") :: kwargs)
  end.

(** [List.__init__] (lines 159-162) called with [args] and [kws] *)
Definition init_List (h : heap) (args : list pyval) (kws : kwargs)
    : embedded (List_.t * heap) :=
  match bind List_signature args kws with
  | Raise e => Inside (Raise e)
  | Ok (b, _, _) =>
      '(q, h') ← init_Question h
                   [arg b "self"; arg b "name"; arg b "message"; arg b "choices";
                    arg b "default"; arg b "ignore"; arg b "validate"] [];
      mret (List_.mk q (arg b "carousel"), h')
  end.

(** [Path.__init__] (lines 212-223) called with [args] and [kws] *)
Definition init_Path (h : heap) (args : list pyval) (kws : kwargs)
    : embedded (Path.t * heap) :=
  match bind Path_signature args kws with
  | Raise e => Inside (Raise e)
  | Ok (b, _, kwargs) =>
      let default := arg b "default" in
      '(q, h') ← init_Text h [arg b "self"; arg b "name"] (("default", default) :: kwargs);
      let self := Path.mk q (arg b "path_type") (arg b "exists")
                          (arg b "normalize_to_absolute_path") in
      if negb (is_None default) then
        Inside (_ ← try_except (Path.validate h' self default)
                      (fun e =>
                         if is_ValidationError e then
                           Some (s ← py_str default;
                                 Raise (ValueError ("Default value '" ++ s
                                          ++ "' is not valid based on your Path's criteria")))
                         else None);
                Ok (self, h'))
      else Inside (Ok (self, h'))
  end.

(** Calling the class with [args] and [kws]: the new object comes first in
    the arguments of [__init__]; [None] holds its place.  [Editor] and [Checkbox] define no
    constructor of their own. *)
Definition new (c : clazz) (h : heap) (args : list pyval) (kws : kwargs)
    : embedded (question * heap) :=
  let args := VNone :: args in
  match c with
  | CText => '(q, h') ← init_Text h args kws; mret (IsText q, h')
  | CEditor => '(q, h') ← init_Text h args kws; mret (IsEditor q, h')
  | CPassword => '(q, h') ← init_Password h args kws; mret (IsPassword q, h')
  | CConfirm => '(q, h') ← init_Confirm h args kws; mret (IsConfirm q, h')
  | CList => '(q, h') ← init_List h args kws; mret (IsList q, h')
  | CCheckbox => '(q, h') ← init_Question h args kws; mret (IsCheckbox q, h')
  | CPath => '(q, h') ← init_Path h args kws; mret (IsPath q, h')
  end.

(** The classes in the order of line 15. *)
Definition classes : list clazz :=
  [CText; CEditor; CPassword; CConfirm; CList; CCheckbox; CPath].

(** The loop of lines 15-18. *)
Fixpoint factory_loop (cs : list clazz) (kind_ : pyval) (h : heap) (args : list pyval)
    (kws : kwargs) : embedded (question * heap) :=
  match cs with
  | [] => Inside (Raise UnknownQuestionTypeError)
  | c :: cs' =>
      if py_eq (VStr (kind c)) kind_ then new c h args kws
      else factory_loop cs' kind_ h args kws
  end.

(** [question_factory] (lines 14-18) called with [args] and [kws] *)
Definition question_factory (h : heap) (args : list pyval) (kws : kwargs)
    : embedded (question * heap) :=
  match bind question_factory_signature args kws with
  | Raise e => Inside (Raise e)
  | Ok (b, args, kwargs) => factory_loop classes (arg b "kind") h args kwargs
  end.

(** [load_from_dict] (lines 21-28) *)
Definition load_from_dict (h : heap) (question_dict : kwargs) : embedded (question * heap) :=
  question_factory h [] question_dict.

(** [load_from_list] (lines 31-38) *)
Fixpoint load_from_list (h : heap) (question_list : list kwargs)
    : embedded (list question * heap) :=
  match question_list with
  | [] => mret ([], h)
  | q :: rest =>
      '(question, h1) ← load_from_dict h q;
      '(questions, h2) ← load_from_list h1 rest;
      mret (question :: questions, h2)
  end.

End Calls.

(** The names of the parameters that follow [self]. *)
Definition names (sig : signature) : list string :=
  List.map fst (List.tl (params sig)).

(** The keyword arguments a class can be called with: the parameters of its
    constructor and, where that takes [**kwargs], those of the constructors
    it hands them to. *)
Definition keywords (c : clazz) : list string :=
  match c with
  | CText | CEditor => names Text_signature ++ names Question_signature
  | CPassword =>
      names Password_signature ++ names Text_signature ++ names Question_signature
  | CConfirm => names Confirm_signature ++ names Question_signature
  | CList => names List_signature
  | CCheckbox => names Question_signature
  | CPath => names Path_signature ++ names Text_signature ++ names Question_signature
  end.

(** An instance seen as a [Question], as the methods of the base class see
    it. *)
Definition base_of (q : question) : Question.t :=
  match q with
  | IsText q | IsEditor q | IsConfirm q | IsCheckbox q => q
  | IsPassword p => Password.base p
  | IsList l => List_.base l
  | IsPath p => Path.base p
  end.

(** What [str], [repr] and the binding of arguments raise. *)
Definition is_TypeError (e : exn) : Prop := exists msg, e = TypeError msg.

(** * Properties *)

#[local] Arguments String.append !_ _ / : simpl nomatch.

(** ** Equality of values *)

Lemma seq_eq_flip (f g : pyval -> pyval -> option bool) (l m : list pyval) :
  (forall x y, f x y = g y x) ->
  seq_eq f l m = seq_eq g m l.
Proof.
  intros Hfg; revert m; induction l as [|x l IH]; intros [|y m]; simpl; try reflexivity.
  rewrite Hfg. destruct (g y x) as [[|]|]; auto.
Qed.

Lemma eq_fuel_sym (n : nat) (a b : pyval) : eq_fuel n a b = eq_fuel n b a.
Proof.
  revert a b; induction n as [|n IH]; intros a b; [reflexivity|].
  destruct a, b; simpl; try reflexivity; auto.
  all: try (f_equal; apply bool_decide_ext; split; congruence).
  - f_equal. apply String.eqb_sym.
  - rewrite Nat.eqb_sym. destruct (length items0 =? length items)%nat; auto.
    apply seq_eq_flip; auto.
  - rewrite Nat.eqb_sym. destruct (length items0 =? length items)%nat; auto.
    apply seq_eq_flip; auto.
  - f_equal. apply Nat.eqb_sym.
Qed.

Lemma size_pos (v : pyval) : 0 < size v.
Proof. destruct v; simpl; lia. Qed.

Lemma size_in (x : pyval) (l : list pyval) : In x l -> size x <= list_sum (List.map size l).
Proof.
  induction l as [|y l IH]; simpl; [tauto|].
  intros [->|Hin]; [lia|]. specialize (IH Hin). lia.
Qed.

Lemma seq_eq_total (f : pyval -> pyval -> option bool) (l m : list pyval) :
  (forall x y, In x l -> In y m -> is_Some (f x y)) ->
  is_Some (seq_eq f l m).
Proof.
  revert m; induction l as [|x l IH]; intros [|y m] Hf; simpl; eauto.
  destruct (Hf x y) as [[|] ->]; simpl; eauto.
  apply IH; intros; apply Hf; simpl; auto.
Qed.

(** The comparison ends within [size a + size b] nested calls. *)
Lemma eq_fuel_total (n : nat) (a b : pyval) :
  size a + size b <= n -> is_Some (eq_fuel n a b).
Proof.
  revert a b; induction n as [|n IH]; intros a b Hn.
  { pose proof (size_pos a); lia. }
  pose proof (size_pos a); pose proof (size_pos b).
  destruct a, b; simpl in *; eauto; try (apply IH; simpl; lia).
  - destruct (length items =? length items0)%nat; eauto.
    apply seq_eq_total; intros x y Hx Hy; apply IH.
    apply size_in in Hx, Hy; lia.
  - destruct (length items =? length items0)%nat; eauto.
    apply seq_eq_total; intros x y Hx Hy; apply IH.
    apply size_in in Hx, Hy; lia.
Qed.

Lemma eq_fuel_S (n : nat) (a b : pyval) (r : bool) :
  eq_fuel n a b = Some r -> eq_fuel (S n) a b = Some r.
Proof.
  revert a b r; induction n as [|n IH]; intros a b r; [discriminate|].
  assert (Hseq : forall l m r, seq_eq (eq_fuel n) l m = Some r ->
                               seq_eq (eq_fuel (S n)) l m = Some r).
  { induction l as [|x l IHl]; intros [|y m] r'; try (simpl; congruence).
    cbn [seq_eq]. destruct (eq_fuel n x y) as [[|]|] eqn:E; try discriminate.
    - rewrite (IH _ _ _ E). apply IHl.
    - rewrite (IH _ _ _ E). auto. }
  intros Hr.
  change (eq_fuel (S (S n)) a b) with
    (match a, b with
     | VTagged _ v, VTagged _ w => eq_fuel (S n) v w
     | VTagged _ v, _ => eq_fuel (S n) v b
     | _, VTagged _ w => eq_fuel (S n) w a
     | VNone, VNone => Some true
     | (VBool _ | VInt _), (VBool _ | VInt _) => Some (bool_decide (as_int a = as_int b))
     | VStr s, VStr t => Some (String.eqb s t)
     | VTuple l, VTuple m | VList l, VList m =>
         if Nat.eqb (length l) (length m) then seq_eq (eq_fuel (S n)) l m else Some false
     | VFun f, VFun g => Some (Nat.eqb f g)
     | _, _ => Some false
     end).
  cbn [eq_fuel] in Hr.
  destruct a, b; auto.
  - destruct (length items =? length items0)%nat; auto.
  - destruct (length items =? length items0)%nat; auto.
Qed.

Lemma eq_fuel_mono (n m : nat) (a b : pyval) (r : bool) :
  n <= m -> eq_fuel n a b = Some r -> eq_fuel m a b = Some r.
Proof. induction 1; auto. intros; apply eq_fuel_S; auto. Qed.

Lemma eq_fuel_enough (n : nat) (a b : pyval) :
  size a + size b <= n -> eq_fuel n a b = Some (py_eq a b).
Proof.
  intros Hn. unfold py_eq.
  destruct (eq_fuel_total (size a + size b) a b) as [r Hr]; [lia|].
  rewrite Hr. eapply eq_fuel_mono; eauto.
Qed.

Lemma py_eq_sym (a b : pyval) : py_eq a b = py_eq b a.
Proof. unfold py_eq. rewrite Nat.add_comm, eq_fuel_sym. reflexivity. Qed.

Lemma py_eq_tagged_tagged (l v l' w : pyval) :
  py_eq (VTagged l v) (VTagged l' w) = py_eq v w.
Proof.
  unfold py_eq at 1. cbn [size Nat.add eq_fuel].
  rewrite eq_fuel_enough by lia. reflexivity.
Qed.

Lemma size_untag (x : pyval) : size (untag x) <= size x.
Proof. induction x; simpl; lia. Qed.

Lemma py_eq_tagged_plain (l v b : pyval) :
  untag b = b -> py_eq (VTagged l v) b = py_eq v b.
Proof.
  intros Hb. unfold py_eq at 1. cbn [size Nat.add eq_fuel].
  pose proof (size_pos l).
  destruct b; try (rewrite eq_fuel_enough by (simpl; lia); reflexivity).
  simpl in Hb. exfalso.
  pose proof (size_untag b2) as Hsz. rewrite Hb in Hsz. simpl in Hsz. lia.
Qed.

Lemma py_eq_untag_r (a l w : pyval) : py_eq a (VTagged l w) = py_eq a w.
Proof.
  revert l w; induction a as [| | | | | |l2 _ v2 IH|]; intros l w.
  7: { rewrite py_eq_tagged_tagged.
       destruct w; try (rewrite py_eq_tagged_plain by reflexivity; reflexivity).
       rewrite py_eq_tagged_tagged. apply IH. }
  all: rewrite (py_eq_sym _ (VTagged l w)), py_eq_tagged_plain by reflexivity;
       apply py_eq_sym.
Qed.

Lemma py_eq_untag_l (l v b : pyval) : py_eq (VTagged l v) b = py_eq v b.
Proof. rewrite py_eq_sym, py_eq_untag_r. apply py_eq_sym. Qed.

(** Comparing with a string: only a string, however wrapped, can be equal. *)
Lemma py_eq_str (a : pyval) (s : string) :
  py_eq a (VStr s) = match untag a with VStr t => String.eqb t s | _ => false end.
Proof.
  induction a; try reflexivity.
  rewrite py_eq_untag_l. simpl. assumption.
Qed.

(** C8: equality of a [TaggedValue] looks at the value only, from either
    side: [TaggedValue(l, v) == x] and [x == TaggedValue(l, v)] are both
    [v == x]; two [TaggedValue]s are equal exactly when their values are,
    whatever the labels, so [TaggedValue("Yes", 1)] and
    [TaggedValue("No", 1)] are equal; and [!=] is the negation of [==]. *)
Theorem tagged_value_equality :
  (forall l v x, py_eq (VTagged l v) x = py_eq v x /\ py_eq x (VTagged l v) = py_eq v x)
  /\ (forall l v l' w, py_eq (VTagged l v) (VTagged l' w) = py_eq v w)
  /\ py_eq (VTagged (VStr "Yes") (VInt 1)) (VTagged (VStr "No") (VInt 1)) = true
  /\ py_eq (VTagged (VStr "Yes") (VInt 1)) (VInt 1) = true
  /\ py_eq (VInt 1) (VTagged (VStr "Yes") (VInt 1)) = true
  /\ py_ne (VTagged (VStr "Yes") (VInt 1)) (VTagged (VStr "No") (VInt 1)) = false
  /\ (forall a b, py_ne a b = negb (py_eq a b)).
Proof.
  repeat split; try reflexivity.
  - apply py_eq_untag_l.
  - rewrite py_eq_untag_r. apply py_eq_sym.
  - apply py_eq_tagged_tagged.
  - intros a b. destruct a, b; try reflexivity; simpl; f_equal; apply py_eq_sym.
Qed.

(** ** Resolution of properties and validation *)

Lemma deref_setitem (h : heap) (l : nat) (k : string) (v : pyval) :
  deref (setitem h l k v) l = <[k := v]> (deref h l).
Proof. unfold deref at 1, setitem. rewrite lookup_insert_eq. reflexivity. Qed.

Section Resolution.
Context `{Runtime}.

(** C1: [validate] returns when the resolved validate specification is
    truthy; a [ValidationError] raised by the resolution is raised as it is;
    a falsy result, or any other exception raised by the resolution, gives
    [ValidationError(candidate)].  The other exceptions are the instances of
    [Exception]: [except Exception] does not catch an interrupt. *)
Theorem validate_normalises (h : heap) (q : Question.t) (candidate : pyval) :
  let resolution := Question._solve h q (Question._validate q) [candidate] in
  (forall v, resolution = Ok v -> truthy v = true ->
             Question.validate h q candidate = Ok tt)
  /\ (forall v, resolution = Ok v -> truthy v = false ->
                Question.validate h q candidate = Raise (ValidationError candidate))
  /\ (forall x, resolution = Raise (ValidationError x) ->
                Question.validate h q candidate = Raise (ValidationError x))
  /\ (forall e, resolution = Raise e -> is_ValidationError e = false ->
                is_Exception e = true ->
                Question.validate h q candidate = Raise (ValidationError candidate)).
Proof.
  intros resolution; unfold Question.validate; fold resolution.
  repeat split.
  - intros v -> Hv; simpl. rewrite Hv. reflexivity.
  - intros v -> Hv; simpl. rewrite Hv. reflexivity.
  - intros x ->. reflexivity.
  - intros e -> Hv He. simpl. rewrite Hv, He. reflexivity.
Qed.

(** C2, amended: a recorded answer that is truthy is the default, whatever
    the configured default resolves to; when nothing is recorded under the
    name, or what is recorded is falsy ([None], [False], [0], an empty
    string or sequence), the default is the resolved configured default. *)
Theorem default_recorded_or_configured (h : heap) (q : Question.t) :
  let context := deref h (Question.answers q) in
  let configured := Question._solve h q (Question._default q) [] in
  (forall v, context !! Question.name q = Some v -> truthy v = true ->
             Question.default h q = Ok v)
  /\ (forall v, context !! Question.name q = Some v -> truthy v = false ->
                Question.default h q = configured)
  /\ (context !! Question.name q = None -> Question.default h q = configured).
Proof.
  intros context configured; unfold Question.default; fold context.
  repeat split.
  - intros v -> ->. reflexivity.
  - intros v -> ->. reflexivity.
  - intros ->. reflexivity.
Qed.

Lemma tag_choice_other (choice : pyval) :
  (forall label value, choice <> VTuple [label; value]) ->
  Question.tag_choice choice = choice.
Proof.
  intros Hc. destruct choice as [| | | |[|a [|b [|c l]]]| | |]; try reflexivity.
  destruct (Hc a b); reflexivity.
Qed.

(** C9: [choices] resolves the specification against the context as it is
    at the time of the access, and lists its items in order, a tuple of two
    items [(label, value)] replaced by [TaggedValue(label, value)] and any
    other item left as it is.  Nothing is kept between two accesses: after
    [answers[k] = x], a computed specification is called on the updated
    dictionary. *)
Theorem choices_materialised (h : heap) (q : Question.t) :
  (forall v items, Question._solve h q (Question._choices q) [] = Ok v ->
                   py_iter v = Ok items ->
                   Question.choices h q = Ok (List.map Question.tag_choice items))
  /\ (forall label value, Question.tag_choice (VTuple [label; value]) = VTagged label value)
  /\ (forall choice, (forall label value, choice <> VTuple [label; value]) ->
                     Question.tag_choice choice = choice)
  /\ (forall f k x items,
        Question._choices q = VFun f ->
        call f (<[k := x]> (deref h (Question.answers q))) [] = Ok (VList items) ->
        Question.choices (setitem h (Question.answers q) k x) q
        = Ok (List.map Question.tag_choice items)).
Proof.
  repeat split.
  - intros v items Hv Hi. unfold Question.choices, Question.choices_generator.
    rewrite Hv. simpl. rewrite Hi. reflexivity.
  - apply tag_choice_other.
  - intros f k x items Hf Hc. unfold Question.choices, Question.choices_generator.
    rewrite Hf. simpl. rewrite deref_setitem, Hc. reflexivity.
Qed.

End Resolution.

(** A validator that accepts, one that refuses, one that raises its own
    [ValidationError] and one that fails with a [TypeError]. *)
Lemma validate_normalises_witness :
  @Question.validate sample sample_heap (sample_question VNone (VFun 0)) (VStr "x") = Ok tt
  /\ @Question.validate sample sample_heap (sample_question VNone (VFun 0)) (VStr "")
     = Raise (ValidationError (VStr ""))
  /\ @Question.validate sample sample_heap (sample_question VNone (VFun 1)) (VStr "x")
     = Raise (ValidationError (VStr "refused"))
  /\ @Question.validate sample sample_heap (sample_question VNone (VFun 2)) (VStr "x")
     = Raise (ValidationError (VStr "x")).
Proof.
  split; [|split; [|split]].
  - apply (proj1 (@validate_normalises sample sample_heap
                    (sample_question VNone (VFun 0)) (VStr "x")) (VBool true));
      reflexivity.
  - apply (proj1 (proj2 (@validate_normalises sample sample_heap
                           (sample_question VNone (VFun 0)) (VStr ""))) (VBool false));
      reflexivity.
  - apply (proj1 (proj2 (proj2 (@validate_normalises sample sample_heap
                                  (sample_question VNone (VFun 1)) (VStr "x"))))
             (VStr "refused"));
      reflexivity.
  - apply (proj2 (proj2 (proj2 (@validate_normalises sample sample_heap
                                  (sample_question VNone (VFun 2)) (VStr "x"))))
             (TypeError "unsupported operand"));
      reflexivity.
Defined.

(** The answer [False] is recorded under the name of the question, and the
    default read is the configured [True]. *)
Lemma default_recorded_falsy_counterexample :
  deref sample_heap (Question.answers (sample_question (VBool true) (VBool true)))
    !! Question.name (sample_question (VBool true) (VBool true)) = Some (VBool false)
  /\ @Question.default sample sample_heap (sample_question (VBool true) (VBool true))
     = Ok (VBool true)
  /\ @Question.default sample sample_heap (sample_question (VBool true) (VBool true))
     <> Ok (VBool false).
Proof.
  split; [|split]; [vm_compute; reflexivity | vm_compute; reflexivity |].
  vm_compute. discriminate.
Qed.

(** A truthy recorded answer, a falsy one, and none. *)
Lemma default_recorded_or_configured_witness :
  @Question.default sample (setitem sample_heap 0 "q" (VStr "yes"))
     (sample_question (VBool true) (VBool true)) = Ok (VStr "yes")
  /\ @Question.default sample sample_heap (sample_question (VBool true) (VBool true))
     = Ok (VBool true)
  /\ @Question.default sample ∅ (sample_question (VBool true) (VBool true))
     = Ok (VBool true).
Proof.
  split; [|split].
  - apply (proj1 (@default_recorded_or_configured sample
                    (setitem sample_heap 0 "q" (VStr "yes"))
                    (sample_question (VBool true) (VBool true))) (VStr "yes"));
      vm_compute; reflexivity.
  - apply (proj1 (proj2 (@default_recorded_or_configured sample sample_heap
                           (sample_question (VBool true) (VBool true)))) (VBool false));
      vm_compute; reflexivity.
  - apply (proj2 (proj2 (@default_recorded_or_configured sample ∅
                           (sample_question (VBool true) (VBool true)))));
      vm_compute; reflexivity.
Defined.

(** The choices of the example are computed from the answer under [mode]:
    one choice before it is recorded, three after. *)
Lemma choices_materialised_witness :
  @Question.choices sample sample_heap (sample_question VNone VNone)
  = Ok [VTagged (VStr "Yes") (VInt 1)]
  /\ @Question.choices sample (setitem sample_heap 0 "mode" (VStr "full"))
       (sample_question VNone VNone)
     = Ok [VTagged (VStr "Yes") (VInt 1); VTagged (VStr "No") (VInt 0); VInt 2].
Proof.
  split.
  - apply (proj1 (@choices_materialised sample sample_heap (sample_question VNone VNone))
             (VList [VTuple [VStr "Yes"; VInt 1]]) [VTuple [VStr "Yes"; VInt 1]]);
      vm_compute; reflexivity.
  - apply (proj2 (proj2 (proj2 (@choices_materialised sample sample_heap
                                  (sample_question VNone VNone))))
             4 "mode" (VStr "full")
             [VTuple [VStr "Yes"; VInt 1]; VTuple [VStr "No"; VInt 0]; VInt 2]);
      vm_compute; reflexivity.
Defined.

(** ** Templates *)

Lemma append_assoc (a b c : string) : (a ++ b) ++ c = a ++ (b ++ c).
Proof. induction a; simpl; congruence. Qed.

Lemma append_empty_r (a : string) : a ++ "" = a.
Proof. induction a; simpl; congruence. Qed.

Lemma markup_char_false (c : ascii) :
  markup_char c = false ->
  Ascii.eqb c "{" = false /\ Ascii.eqb c "}" = false /\ Ascii.eqb c "[" = false
  /\ Ascii.eqb c "]" = false /\ Ascii.eqb c "." = false /\ Ascii.eqb c "!" = false
  /\ Ascii.eqb c ":" = false.
Proof.
  unfold markup_char; simpl. intros Hc.
  repeat (apply orb_false_elim in Hc; destruct Hc as [? Hc]). auto 10.
Qed.

Lemma split_first_plain (name : string) :
  forallb (fun c => negb (markup_char c)) (list_ascii_of_string name) = true ->
  split_first name = (name, "").
Proof.
  induction name as [|c name IH]; [reflexivity|]. simpl. intros Hp.
  apply andb_prop in Hp as [Hc Hp].
  apply negb_true_iff, markup_char_false in Hc as (E1 & E2 & E3 & E4 & E5 & E6 & E7).
  rewrite E5, E3, (IH Hp). reflexivity.
Qed.

Section TemplateResolution.
Context `{Runtime}.

(** Reading a field name up to its closing brace. *)
Lemma format_run_name (kw : gmap string pyval) (name acc rest : string) :
  forallb (fun c => negb (markup_char c)) (list_ascii_of_string name) = true ->
  format_run kw (InName acc false) (name ++ String "}" rest)
  = (out ← output_markup kw (acc ++ name) None "";
     t ← format_run kw InText rest; Ok (out ++ t)).
Proof.
  revert acc; induction name as [|c name IH]; intros acc Hp.
  - simpl. rewrite append_empty_r. reflexivity.
  - simpl in Hp. apply andb_prop in Hp as [Hc Hp].
    apply negb_true_iff, markup_char_false in Hc as (E1 & E2 & E3 & E4 & E5 & E6 & E7).
    cbn [append format_run]. rewrite E1, E3, E2, E7, E6.
    rewrite IH by assumption. rewrite append_assoc. reflexivity.
Qed.

Lemma format_run_open (kw : gmap string pyval) (c : ascii) (s : string) :
  Ascii.eqb c "{" = false ->
  format_run kw InText (String "{" (String c s))
  = format_run kw (InName "" false) (String c s).
Proof. intros E. cbn [format_run]. rewrite Ascii.eqb_refl, E. reflexivity. Qed.

Lemma output_markup_name (kw : gmap string pyval) (name : string) :
  placeholder_name name = true ->
  output_markup kw name None ""
  = match kw !! name with
    | None => Raise (KeyError name)
    | Some v => py_str v
    end.
Proof.
  unfold placeholder_name. intros Hn.
  apply andb_prop in Hn as [Hn Hi]. apply andb_prop in Hn as [He Hp].
  unfold output_markup. rewrite (split_first_plain _ Hp).
  apply negb_true_iff in He. rewrite He.
  destruct (get_integer 0 name) as [[i|]|e]; try discriminate.
  simpl. destruct (kw !! name); reflexivity.
Qed.

(** [str.format] on the text of a template is the substitution. *)
Lemma format_run_template (kw : gmap string pyval) (ps : list piece) :
  well_formed ps = true ->
  format_run kw InText (template_text ps) = substitute_spec kw ps.
Proof.
  induction ps as [|[c|name] ps IH]; intros Hw; [reflexivity| |].
  - simpl in Hw. specialize (IH Hw). cbn [template_text substitute_spec].
    unfold is_brace.
    destruct (Ascii.eqb c "{") eqn:E1; [|destruct (Ascii.eqb c "}") eqn:E2].
    + apply Ascii.eqb_eq in E1 as ->. simpl. rewrite IH. reflexivity.
    + apply Ascii.eqb_eq in E2 as ->. simpl. rewrite IH. reflexivity.
    + cbn [orb format_run]. rewrite E1, E2, IH. reflexivity.
  - simpl in Hw. apply andb_prop in Hw as [Hn Hw]. specialize (IH Hw).
    cbn [template_text substitute_spec].
    pose proof Hn as Hn'. unfold placeholder_name in Hn'.
    apply andb_prop in Hn' as [Hn' _]. apply andb_prop in Hn' as [He Hp].
    destruct name as [|c name]; [discriminate|].
    pose proof Hp as Hp'. simpl in Hp'. apply andb_prop in Hp' as [Hc _].
    apply negb_true_iff, markup_char_false in Hc as (E1 & _).
    change (format_run kw InText
              (String "{" (String c (name ++ String "}" (template_text ps))))
            = match kw !! String c name with
              | Some v => s ← py_str v; t ← substitute_spec kw ps; Ok (s ++ t)
              | None => Raise (KeyError (String c name))
              end).
    rewrite (format_run_open kw c _ E1).
    change (String c (name ++ String "}" (template_text ps)))
      with (String c name ++ String "}" (template_text ps)).
    rewrite format_run_name by assumption. cbn [append].
    rewrite output_markup_name by assumption. rewrite IH.
    destruct (kw !! String c name); reflexivity.
Qed.

(** Reading one field, from any state inside it, up to its closing brace. *)
Lemma format_run_field (kw : gmap string pyval) (body : string) :
  forall (st : fmt_state) (name : string) (conv : option ascii) (spec rest : string),
  parse_field st body = Some (name, conv, spec) ->
  format_run kw st (body ++ String "}" rest)
  = (out ← output_markup kw name conv spec;
     t ← format_run kw InText rest; Ok (out ++ t)).
Proof.
  induction body as [|c body IH]; intros st name conv spec rest Hp.
  - destruct st as [|n [|]|n|n cv|n cv sp [|d]]; simpl in Hp; try discriminate;
      injection Hp as <- <- <-; reflexivity.
  - destruct st as [|n [|]|n|n cv|n cv sp d]; cbn [parse_field] in Hp;
      cbn [append format_run].
    + discriminate.
    + apply IH, Hp.
    + destruct (Ascii.eqb c "{") eqn:E1; [discriminate|].
      destruct (Ascii.eqb c "}") eqn:E2; [discriminate|]. cbn [orb] in Hp.
      destruct (Ascii.eqb c "["); [apply IH, Hp|].
      destruct (Ascii.eqb c ":"); [apply IH, Hp|].
      destruct (Ascii.eqb c "!"); apply IH, Hp.
    + apply IH, Hp.
    + destruct (Ascii.eqb c ":") eqn:E1; [|discriminate].
      apply Ascii.eqb_eq in E1 as ->. cbn. apply IH, Hp.
    + destruct (Ascii.eqb c "{"); [apply IH, Hp|].
      destruct (Ascii.eqb c "}"); [|apply IH, Hp].
      destruct d as [|d]; [discriminate|apply IH, Hp].
Qed.

Ltac shorter := cbn [String.length] in *; lia.

(** What comes after a part of the string that formats without error is
    formatted on its own. *)
Lemma format_run_prefix (kw : gmap string pyval) (before : string) :
  forall (rest text : string),
  format_run kw InText before = Ok text ->
  format_run kw InText (before ++ rest)
  = (t ← format_run kw InText rest; Ok (text ++ t)).
Proof.
  assert (G : forall (n : nat) (before : string), String.length before < n ->
            forall (st : fmt_state) (rest text : string),
              format_run kw st before = Ok text ->
              format_run kw st (before ++ rest)
              = (t ← format_run kw InText rest; Ok (text ++ t))).
  { clear before. induction n as [|n IH]; intros before Hl st rest text Hb; [lia|].
    destruct before as [|c before].
    - destruct st; try discriminate. injection Hb as <-. cbn [append].
      destruct (format_run kw InText rest); reflexivity.
    - cbn [String.length] in Hl.
      assert (J : forall (st' : fmt_state) (out text' : string),
                 (t ← format_run kw st' before; Ok (out ++ t)) = Ok text' ->
                 (t ← format_run kw st' (before ++ rest); Ok (out ++ t))
                 = (t ← format_run kw InText rest; Ok (text' ++ t))).
      { intros st' out text' Ht.
        destruct (format_run kw st' before) as [t|e] eqn:E; [|discriminate].
        injection Ht as <-. rewrite (IH before ltac:(shorter) st' rest t E).
        destruct (format_run kw InText rest); cbn; [rewrite append_assoc|]; reflexivity. }
      destruct st as [|n0 [|]|n0|n0 cv|n0 cv sp d]; cbn [append format_run] in Hb |- *.
      + destruct (Ascii.eqb c "{").
        { destruct before as [|c' before']; [discriminate|]. cbn [append].
          destruct (Ascii.eqb c' "{").
          - destruct (format_run kw InText before') as [t|e] eqn:E; [|discriminate].
            injection Hb as <-. cbn [String.length] in Hl.
            rewrite (IH before' ltac:(shorter) InText rest t E).
            destruct (format_run kw InText rest); reflexivity.
          - apply (IH (String c' before') ltac:(shorter) _ rest text Hb). }
        destruct (Ascii.eqb c "}").
        { destruct before as [|c' before']; [discriminate|]. cbn [append].
          destruct (Ascii.eqb c' "}"); [|discriminate].
          destruct (format_run kw InText before') as [t|e] eqn:E; [|discriminate].
          injection Hb as <-. cbn [String.length] in Hl.
          rewrite (IH before' ltac:(shorter) InText rest t E).
          destruct (format_run kw InText rest); reflexivity. }
        destruct (format_run kw InText before) as [t|e] eqn:E; [|discriminate].
        injection Hb as <-. rewrite (IH before ltac:(shorter) InText rest t E).
        destruct (format_run kw InText rest); reflexivity.
      + apply (IH before ltac:(shorter) _ rest text Hb).
      + destruct (Ascii.eqb c "{"); [discriminate|].
        destruct (Ascii.eqb c "["); [apply (IH before ltac:(shorter) _ rest text Hb)|].
        destruct (Ascii.eqb c "}").
        { destruct (output_markup kw n0 None "") as [out|e]; [|discriminate].
          apply J, Hb. }
        destruct (Ascii.eqb c ":"); [apply (IH before ltac:(shorter) _ rest text Hb)|].
        destruct (Ascii.eqb c "!"); apply (IH before ltac:(shorter) _ rest text Hb).
      + apply (IH before ltac:(shorter) _ rest text Hb).
      + destruct (Ascii.eqb c "}").
        { destruct (output_markup kw n0 (conv_of cv) "") as [out|e]; [|discriminate].
          apply J, Hb. }
        destruct (Ascii.eqb c ":"); [apply (IH before ltac:(shorter) _ rest text Hb)|].
        discriminate.
      + destruct (Ascii.eqb c "{"); [apply (IH before ltac:(shorter) _ rest text Hb)|].
        destruct (Ascii.eqb c "}"); [|apply (IH before ltac:(shorter) _ rest text Hb)].
        destruct d as [|d]; [|apply (IH before ltac:(shorter) _ rest text Hb)].
        destruct (output_markup kw n0 cv sp) as [out|e]; [|discriminate].
        apply J, Hb. }
  intros rest text Hb.
  exact (G (S (String.length before)) before ltac:(shorter) InText rest text Hb).
Qed.

(** A field after a part of the string that formats without error. *)
Lemma format_run_after (kw : gmap string pyval) (before body after text name spec : string)
    (conv : option ascii) :
  format_run kw InText before = Ok text ->
  parse_field (InName "" false) body = Some (name, conv, spec) ->
  format_run kw InText (before ++ String "{" (body ++ String "}" after))
  = (out ← output_markup kw name conv spec;
     t ← format_run kw InText after; Ok (text ++ out ++ t)).
Proof.
  intros Hb Hp. rewrite (format_run_prefix kw before _ text Hb).
  assert (E : format_run kw InText (String "{" (body ++ String "}" after))
              = format_run kw (InName "" false) (body ++ String "}" after)).
  { destruct body as [|c body]; [reflexivity|].
    cbn [parse_field] in Hp. destruct (Ascii.eqb c "{") eqn:E1; [discriminate|].
    cbn [append]. apply format_run_open, E1. }
  rewrite E, (format_run_field kw body _ _ _ _ after Hp).
  destruct (output_markup kw name conv spec) as [out|e]; [|reflexivity].
  cbn. destruct (format_run kw InText after); reflexivity.
Qed.

Lemma parse_field_name (name : string) :
  forall acc : string,
  forallb (fun c => negb (markup_char c)) (list_ascii_of_string name) = true ->
  parse_field (InName acc false) name = Some (acc ++ name, None, "").
Proof.
  induction name as [|c name IH]; intros acc Hp.
  - simpl. rewrite append_empty_r. reflexivity.
  - simpl in Hp. apply andb_prop in Hp as [Hc Hp].
    apply negb_true_iff, markup_char_false in Hc as (E1 & E2 & E3 & E4 & E5 & E6 & E7).
    cbn [parse_field]. rewrite E1, E2, E3, E7, E6. cbn [orb].
    rewrite IH by assumption. rewrite append_assoc. reflexivity.
Qed.

Lemma output_markup_absent (kw : gmap string pyval) (name spec : string)
    (conv : option ascii) :
  fst (split_first name) <> "" ->
  get_integer 0 (fst (split_first name)) = Ok None ->
  kw !! fst (split_first name) = None ->
  output_markup kw name conv spec = Raise (KeyError (fst (split_first name))).
Proof.
  intros He Hi Hk. unfold output_markup.
  destruct (split_first name) as [first rest]. cbn [fst] in *.
  apply String.eqb_neq in He. rewrite He, Hi. cbn. rewrite Hk. reflexivity.
Qed.

(** C3: resolving a specification that is a string is [str.format] on the
    answers, and [_solve] catches nothing.  A template in the sense of the
    specification, literal text with named placeholders, resolves to the
    substitution that the specification describes.  In any string, a
    placeholder [{name}] before which the string formats without error is
    replaced by the string form of the value recorded under [name], and
    what follows is formatted on its own.  And in any string, a replacement
    field, with or without lookups, conversion and format specification,
    before which the string formats without error and whose name is not a
    number and not in the context makes the resolution raise [KeyError]
    with that name. *)
Theorem template_resolution (h : heap) (q : Question.t) :
  (forall ps : list piece,
     well_formed ps = true ->
     Question._solve h q (VStr (template_text ps)) []
     = (text ← substitute_spec (deref h (Question.answers q)) ps; Ok (VStr text)))
  /\ (forall (before name after text : string) (value : pyval),
        py_format before (deref h (Question.answers q)) = Ok text ->
        placeholder_name name = true ->
        deref h (Question.answers q) !! name = Some value ->
        Question._solve h q (VStr (before ++ String "{" (name ++ String "}" after))) []
        = (s ← py_str value;
           t ← py_format after (deref h (Question.answers q));
           Ok (VStr (text ++ s ++ t))))
  /\ (forall (before body after text key : string),
        py_format before (deref h (Question.answers q)) = Ok text ->
        field_key body = Some key ->
        key <> "" ->
        get_integer 0 key = Ok None ->
        deref h (Question.answers q) !! key = None ->
        Question._solve h q (VStr (before ++ String "{" (body ++ String "}" after))) []
        = Raise (KeyError key)).
Proof.
  split; [|split].
  - intros ps Hw. unfold Question._solve, py_format.
    rewrite format_run_template by assumption. reflexivity.
  - intros before name after text value Hb Hn Hv.
    unfold Question._solve, py_format in *. cbn [callable].
    pose proof Hn as Hn'. unfold placeholder_name in Hn'.
    apply andb_prop in Hn' as [Hn' _]. apply andb_prop in Hn' as [_ Hp].
    rewrite (format_run_after _ _ _ _ _ _ _ _ Hb (parse_field_name name "" Hp)).
    cbn [append]. rewrite output_markup_name by assumption. rewrite Hv.
    destruct (py_str value) as [s|e]; [|reflexivity]. cbn.
    destruct (format_run _ InText after); reflexivity.
  - intros before body after text key Hb Hk He Hi Ha.
    unfold field_key in Hk.
    destruct (parse_field (InName "" false) body) as [[[name conv] spec]|] eqn:Hp;
      [|discriminate].
    injection Hk as <-.
    unfold Question._solve, py_format in *. cbn [callable].
    rewrite (format_run_after _ _ _ _ _ _ _ _ Hb Hp).
    rewrite (output_markup_absent _ _ _ _ He Hi Ha). reflexivity.
Qed.

End TemplateResolution.

(** The message of the example; a placeholder after a part that formats
    without error; and fields of every form that name an answer that was
    not recorded. *)
Lemma template_resolution_witness :
  @Question._solve sample sample_heap (sample_question VNone VNone)
     (VStr "Hello {user}, {{pick}} {q}") [] = Ok (VStr "Hello ann, {pick} False")
  /\ @Question._solve sample sample_heap (sample_question VNone VNone)
       (VStr "{q} and {user}!") [] = Ok (VStr "False and ann!")
  /\ @Question._solve sample sample_heap (sample_question VNone VNone)
       (VStr "{user}: {missing}") [] = Raise (KeyError "missing")
  /\ @Question._solve sample sample_heap (sample_question VNone VNone)
       (VStr "{user}: {missing!r}") [] = Raise (KeyError "missing")
  /\ @Question._solve sample sample_heap (sample_question VNone VNone)
       (VStr "{{{missing.x[0]:>{width}}}}") [] = Raise (KeyError "missing").
Proof.
  split; [|split; [|split; [|split]]].
  - exact (proj1 (@template_resolution sample sample_heap (sample_question VNone VNone))
             [Lit "H"; Lit "e"; Lit "l"; Lit "l"; Lit "o"; Lit " "; Field "user"; Lit ",";
              Lit " "; Lit "{"; Lit "p"; Lit "i"; Lit "c"; Lit "k"; Lit "}"; Lit " ";
              Field "q"]%char eq_refl).
  - exact (proj1 (proj2 (@template_resolution sample sample_heap
                           (sample_question VNone VNone)))
             "{q} and " "user" "!" "False and " (VStr "ann") eq_refl eq_refl eq_refl).
  - refine (proj2 (proj2 (@template_resolution sample sample_heap
                            (sample_question VNone VNone)))
              "{user}: " "missing" "" "ann: " "missing" eq_refl eq_refl _ eq_refl eq_refl).
    discriminate.
  - refine (proj2 (proj2 (@template_resolution sample sample_heap
                            (sample_question VNone VNone)))
              "{user}: " "missing!r" "" "ann: " "missing" eq_refl eq_refl _ eq_refl eq_refl).
    discriminate.
  - refine (proj2 (proj2 (@template_resolution sample sample_heap
                            (sample_question VNone VNone)))
              "{{" "missing.x[0]:>{width}" "}}" "{" "missing" eq_refl eq_refl _ eq_refl
              eq_refl).
    discriminate.
Defined.

(** A template that references a name absent from the context does not
    always fail with the [KeyError] of that name: a value before the field
    whose [__str__] does not return a string makes [str] raise [TypeError],
    a closing brace on its own before the field makes [format] raise
    [ValueError], and so does a field that is never closed. *)
Lemma template_absent_name_counterexample :
  deref tagged_heap 0 !! "missing" = None
  /\ @Question._solve sample tagged_heap (sample_question VNone VNone)
       (VStr "{t}{missing}") []
     = Raise (TypeError "__str__ returned non-string (type int)")
  /\ @Question._solve sample tagged_heap (sample_question VNone VNone)
       (VStr "}{missing}") []
     = Raise (ValueError "Single '}' encountered in format string")
  /\ @Question._solve sample tagged_heap (sample_question VNone VNone)
       (VStr "{missing") []
     = Raise (ValueError "expected '}' before end of string").
Proof. repeat split; vm_compute; reflexivity. Qed.

(** ** Pathnames *)

Section PathnameValidity.
Context `{Runtime}.

Lemma probe_parts_decided (parts : list string) :
  (forall p e, os_lstat p = Raise e -> lstat_error e = true) ->
  try_except (probe_parts probe_root parts)
    (fun e => match e with
              | ValueError _ | TypeError _ => Some (Ok false)
              | _ => None
              end)
  = Ok (forallb (fun part => negb (probe_fault part)) parts).
Proof.
  intros Hl; induction parts as [|part parts IH]; [reflexivity|].
  cbn [probe_parts forallb]. unfold probe_fault at 1.
  destruct (os_lstat (probe_root ++ part)) as [[]|e] eqn:E; [exact IH|].
  apply Hl in E. destruct e; try discriminate; try reflexivity.
  destruct (invalid_name_error winerror errno); [reflexivity|exact IH].
Qed.



End PathnameValidity.

Lemma posix_lstat_errors funs extended home cwd files (p : string) (e : exn) :
  @os_lstat (posix funs extended home cwd files) p = Raise e -> lstat_error e = true.
Proof.
  cbn [os_lstat posix]. unfold posix_lstat.
  destruct (contains_nul p); [intros [= <-]; reflexivity|].
  destruct (existsb _ _); [intros [= <-]; reflexivity|].
  destruct (posix_lookup _ _ _); [discriminate|intros [= <-]; reflexivity].
Qed.



(** ** Text and Path questions *)

Section PathQuestions.
Context `{Runtime}.

Lemma normalize_value_str (self : Path.t) (current : pyval) (p : string) :
  Path.normalize_value self current = Ok (VStr p) -> is_None current = false.
Proof. destruct current; try discriminate; reflexivity. Qed.

(** Past the base validation, the test for [None] and the validity of the
    pathname, [validate] is decided by the branches on the path type. *)
Lemma path_validate_checked (h : heap) (self : Path.t) (current : pyval) (p : string) :
  Question.validate h (Path.base self) current = Ok tt ->
  Path.normalize_value self current = Ok (VStr p) ->
  is_pathname_valid (VStr p) = Ok true ->
  Path.validate h self current = Path.check_existence self p.
Proof.
  intros Hb Hn Hv. unfold Path.validate. rewrite Hb. cbn [mbind outcome_bind].
  rewrite (normalize_value_str _ _ _ Hn), Hn. cbn [mbind outcome_bind].
  rewrite Hv. reflexivity.
Qed.

(** C4, amended: with [exists] left at [None], for a candidate that passes
    the base validation and the test for [None] and whose normalized path
    [p] is a valid pathname: a question of type [file] raises
    [ValidationError(p)], the error carrying the normalized path, exactly
    when the last segment of [p] is empty; a question of type [directory]
    raises [ValidationError(p)] exactly when it is not empty. *)
Theorem path_final_segment_policy (h : heap) (self : Path.t) (candidate : pyval)
    (p : string) :
  Path._exists self = VNone ->
  Question.validate h (Path.base self) candidate = Ok tt ->
  Path.normalize_value self candidate = Ok (VStr p) ->
  is_pathname_valid (VStr p) = Ok true ->
  (py_eq (Path._path_type self) (VStr "file") = true ->
   Path.validate h self candidate
   = if String.eqb (os_path_basename p) "" then Raise (ValidationError (VStr p)) else Ok tt)
  /\ (py_eq (Path._path_type self) (VStr "directory") = true ->
      Path.validate h self candidate
      = if String.eqb (os_path_basename p) "" then Ok tt
        else Raise (ValidationError (VStr p))).
Proof.
  intros He Hb Hn Hv. rewrite (path_validate_checked _ _ _ _ Hb Hn Hv).
  unfold Path.check_existence. rewrite He. cbn [is_None truthy andb negb].
  split; intros Ht.
  - rewrite Ht. destruct (String.eqb (os_path_basename p) ""); reflexivity.
  - assert (Hf : py_eq (Path._path_type self) (VStr "file") = false).
    { rewrite py_eq_str in Ht |- *.
      destruct (untag (Path._path_type self)); try discriminate.
      apply String.eqb_eq in Ht as ->. reflexivity. }
    rewrite Hf, Ht. destruct (String.eqb (os_path_basename p) ""); reflexivity.
Qed.

(** C10: a path type that is neither [file] nor [directory] is not
    rejected by the constructor, and [validate] then looks at existence
    only: for a candidate that passes the base validation and the test for
    [None] and whose normalized path [p] is a valid pathname, nothing more
    is asked when [exists] is [None], [p] must exist when [exists] is
    truthy, and must not exist when [exists] is falsy and not [None]. *)
Theorem path_other_types_any_policy (path_type exists_ : pyval) :
  py_eq path_type (VStr "file") = false ->
  py_eq path_type (VStr "directory") = false ->
  (forall h name normalize_to_absolute_path message choices ignore validate_ show_default,
     exists q h',
       Path.__init__ h name VNone path_type exists_ normalize_to_absolute_path
                     message choices ignore validate_ show_default
       = Ok (Path.mk q path_type exists_ normalize_to_absolute_path, h'))
  /\ (forall h self candidate p,
        Path._path_type self = path_type ->
        Path._exists self = exists_ ->
        Question.validate h (Path.base self) candidate = Ok tt ->
        Path.normalize_value self candidate = Ok (VStr p) ->
        is_pathname_valid (VStr p) = Ok true ->
        Path.validate h self candidate
        = if is_None exists_ then Ok tt
          else if Bool.eqb (truthy exists_) (os_path_exists p) then Ok tt
               else Raise (ValidationError (VStr p))).
Proof.
  intros Hf Hd. split.
  - intros. unfold Path.__init__, Text.__init__. cbn. eauto.
  - intros h self candidate p Ht He Hb Hn Hv.
    rewrite (path_validate_checked _ _ _ _ Hb Hn Hv).
    unfold Path.check_existence. rewrite Ht, He, Hf, Hd.
    destruct (is_None exists_) eqn:En.
    + destruct exists_; try discriminate. reflexivity.
    + destruct (truthy exists_), (os_path_exists p); reflexivity.
Qed.

(** What [Text.__init__] stores, and the dictionary it allocates. *)
Lemma text_init_default (h : heap) (name : string)
    (message default choices ignore validate show_default : pyval)
    (q : Question.t) (h' : heap) :
  Text.__init__ h name message default choices ignore validate show_default = Ok (q, h') ->
  h' = <[Question.answers q := ∅]> h
  /\ if truthy default && negb (callable default)
     then py_str default = Ok (match Question._default q with VStr s => s | _ => "" end)
          /\ exists s, Question._default q = VStr s
     else Question._default q = default.
Proof.
  unfold Text.__init__.
  destruct (truthy default && negb (callable default)).
  - destruct (py_str default) as [s|e]; [|discriminate].
    intros [= <- <-]. cbn. eauto.
  - intros [= <- <-]. cbn. eauto.
Qed.

(** C7, amended: a question of class [Text], [Editor], [Password] or
    [Path] stores the string form of its default when the default is truthy
    and not callable; a default that is falsy ([None], but also [0],
    [False], an empty string or sequence) or callable is stored as it
    is. *)
Theorem text_default_coercion (h : heap) (name : string)
    (message default choices ignore validate show_default : pyval) :
  (forall q h',
     Text.__init__ h name message default choices ignore validate show_default = Ok (q, h') ->
     if truthy default && negb (callable default)
     then exists s, py_str default = Ok s /\ Question._default q = VStr s
     else Question._default q = default)
  /\ (forall q h',
     Editor.__init__ h name message default choices ignore validate show_default
       = Ok (q, h') ->
     if truthy default && negb (callable default)
     then exists s, py_str default = Ok s /\ Question._default q = VStr s
     else Question._default q = default)
  /\ (forall echo q h',
     Password.__init__ h name echo message default choices ignore validate show_default
       = Ok (q, h') ->
     if truthy default && negb (callable default)
     then exists s, py_str default = Ok s /\ Question._default (Password.base q) = VStr s
     else Question._default (Password.base q) = default)
  /\ (forall path_type exists_ normalize_to_absolute_path q h',
     Path.__init__ h name default path_type exists_ normalize_to_absolute_path
                   message choices ignore validate show_default = Ok (q, h') ->
     if truthy default && negb (callable default)
     then exists s, py_str default = Ok s /\ Question._default (Path.base q) = VStr s
     else Question._default (Path.base q) = default).
Proof.
  assert (HT : forall q h',
     Text.__init__ h name message default choices ignore validate show_default = Ok (q, h') ->
     if truthy default && negb (callable default)
     then exists s, py_str default = Ok s /\ Question._default q = VStr s
     else Question._default q = default).
  { intros q h' Hi. apply text_init_default in Hi as [_ Hi].
    destruct (truthy default && negb (callable default)); [|exact Hi].
    destruct Hi as [Hs [s Hq]]. exists s. rewrite Hq in Hs. auto. }
  split; [exact HT|]. split; [exact HT|]. split.
  - intros echo q h'. unfold Password.__init__.
    destruct (Text.__init__ _ _ _ _ _ _ _ _) as [[q0 h0]|e]; [|discriminate].
    intros [= <- <-]. exact (HT _ _ eq_refl).
  - intros path_type exists_ norm q h'. unfold Path.__init__.
    destruct (Text.__init__ _ _ _ _ _ _ _ _) as [[q0 h0]|e]; [|discriminate].
    cbn [mbind outcome_bind].
    destruct (negb (is_None default)).
    + destruct (try_except _ _); [|discriminate]. intros [= <- <-].
      exact (HT _ _ eq_refl).
    + intros [= <- <-]. exact (HT _ _ eq_refl).
Qed.

(** A default that [Text.__init__] accepted has a string form. *)
Lemma py_str_after_text_init (h : heap) (name : string)
    (message default choices ignore validate show_default : pyval)
    (q : Question.t) (h' : heap) :
  Text.__init__ h name message default choices ignore validate show_default = Ok (q, h') ->
  exists s, py_str default = Ok s.
Proof.
  intros Hi. apply text_init_default in Hi as [_ Hi].
  destruct (truthy default && negb (callable default)) eqn:E.
  - destruct Hi as [Hs _]; eauto.
  - destruct default as [|[]| | |[|]|[|]| |]; try discriminate; cbn; eauto.
Qed.

(** C6: once [Text.__init__] has built the question, the constructor of
    [Path] validates a default that is not [None] with the [validate] of
    the question being built: if that raises, the constructor raises, a
    [ValueError] in place of a [ValidationError] and the same exception
    otherwise; if the default passes, or is [None], the constructor
    returns the question. *)
Theorem path_default_validated (h : heap) (name : string)
    (default path_type exists_ normalize_to_absolute_path : pyval)
    (message choices ignore validate_ show_default : pyval)
    (q : Question.t) (h' : heap) :
  Text.__init__ h name message default choices ignore validate_ show_default = Ok (q, h') ->
  let self := Path.mk q path_type exists_ normalize_to_absolute_path in
  let construction :=
    Path.__init__ h name default path_type exists_ normalize_to_absolute_path
                  message choices ignore validate_ show_default in
  (is_None default = true -> construction = Ok (self, h'))
  /\ (is_None default = false -> Path.validate h' self default = Ok tt ->
      construction = Ok (self, h'))
  /\ (is_None default = false ->
      forall e, Path.validate h' self default = Raise e ->
      exists e', construction = Raise e'
                 /\ (is_ValidationError e = true -> exists msg, e' = ValueError msg)
                 /\ (is_ValidationError e = false -> e' = e)).
Proof.
  intros Hi self construction. subst construction. unfold Path.__init__. rewrite Hi.
  cbn [mbind outcome_bind]. fold self.
  destruct (py_str_after_text_init _ _ _ _ _ _ _ _ _ _ Hi) as [s Hs].
  split; [|split].
  - intros ->. reflexivity.
  - intros -> ->. reflexivity.
  - intros -> e ->. cbn [negb try_except].
    destruct (is_ValidationError e) eqn:Ev.
    + rewrite Hs. cbn [mbind outcome_bind]. eexists; split; [reflexivity|].
      split; [eauto|discriminate].
    + eexists; split; [reflexivity|]. split; [discriminate|reflexivity].
Qed.

End PathQuestions.

(** In a question of type [directory] the path [a/b/] passes and [a/b] does
    not; in a question of type [file] it is the other way round. *)
Lemma path_final_segment_policy_witness :
  @Path.validate sample sample_heap (sample_path (VStr "directory") VNone) (VStr "a/b/")
  = Ok tt
  /\ @Path.validate sample sample_heap (sample_path (VStr "directory") VNone) (VStr "a/b")
     = Raise (ValidationError (VStr "a/b"))
  /\ @Path.validate sample sample_heap (sample_path (VStr "file") VNone) (VStr "a/b")
     = Ok tt
  /\ @Path.validate sample sample_heap (sample_path (VStr "file") VNone) (VStr "a/b/")
     = Raise (ValidationError (VStr "a/b/")).
Proof.
  split; [|split; [|split]].
  - apply (proj2 (@path_final_segment_policy sample sample_heap
                    (sample_path (VStr "directory") VNone) (VStr "a/b/") "a/b/"
                    eq_refl eq_refl eq_refl eq_refl)); reflexivity.
  - apply (proj2 (@path_final_segment_policy sample sample_heap
                    (sample_path (VStr "directory") VNone) (VStr "a/b") "a/b"
                    eq_refl eq_refl eq_refl eq_refl)); reflexivity.
  - apply (proj1 (@path_final_segment_policy sample sample_heap
                    (sample_path (VStr "file") VNone) (VStr "a/b") "a/b"
                    eq_refl eq_refl eq_refl eq_refl)); reflexivity.
  - apply (proj1 (@path_final_segment_policy sample sample_heap
                    (sample_path (VStr "file") VNone) (VStr "a/b/") "a/b/"
                    eq_refl eq_refl eq_refl eq_refl)); reflexivity.
Defined.

(** The candidate [~/] passes the base validation, is not [None], and its
    normalized path [/home/u/] is a valid pathname with an empty last
    segment; the error raised carries the normalized path, not the
    candidate. *)
Lemma path_error_value_counterexample :
  @Question.validate sample sample_heap
     (Path.base (sample_path (VStr "file") VNone)) (VStr "~/") = Ok tt
  /\ is_None (VStr "~/") = false
  /\ @Path.normalize_value sample (sample_path (VStr "file") VNone) (VStr "~/")
     = Ok (VStr "/home/u/")
  /\ @is_pathname_valid sample (VStr "/home/u/") = Ok true
  /\ @os_path_basename sample "/home/u/" = ""
  /\ @Path.validate sample sample_heap (sample_path (VStr "file") VNone) (VStr "~/")
     = Raise (ValidationError (VStr "/home/u/"))
  /\ @Path.validate sample sample_heap (sample_path (VStr "file") VNone) (VStr "~/")
     <> Raise (ValidationError (VStr "~/")).
Proof.
  repeat split; try (vm_compute; reflexivity).
  vm_compute. discriminate.
Qed.

(** A path type the module does not name: with [exists=True] the existing
    [~/notes.txt] passes and the missing [nope] does not. *)
Lemma path_other_types_any_policy_witness :
  @Path.validate sample sample_heap (sample_path (VStr "folder") (VBool true))
     (VStr "~/notes.txt") = Ok tt
  /\ @Path.validate sample sample_heap (sample_path (VStr "folder") (VBool true))
       (VStr "nope") = Raise (ValidationError (VStr "nope"))
  /\ @Path.validate sample sample_heap (sample_path (VStr "folder") (VBool false))
       (VStr "nope") = Ok tt
  /\ @Path.validate sample sample_heap (sample_path (VStr "folder") VNone)
       (VStr "nope") = Ok tt.
Proof.
  split; [|split; [|split]].
  - exact (proj2 (@path_other_types_any_policy sample (VStr "folder") (VBool true)
                    eq_refl eq_refl)
             sample_heap (sample_path (VStr "folder") (VBool true)) (VStr "~/notes.txt")
             "/home/u/notes.txt" eq_refl eq_refl eq_refl eq_refl eq_refl).
  - exact (proj2 (@path_other_types_any_policy sample (VStr "folder") (VBool true)
                    eq_refl eq_refl)
             sample_heap (sample_path (VStr "folder") (VBool true)) (VStr "nope")
             "nope" eq_refl eq_refl eq_refl eq_refl eq_refl).
  - exact (proj2 (@path_other_types_any_policy sample (VStr "folder") (VBool false)
                    eq_refl eq_refl)
             sample_heap (sample_path (VStr "folder") (VBool false)) (VStr "nope")
             "nope" eq_refl eq_refl eq_refl eq_refl eq_refl).
  - exact (proj2 (@path_other_types_any_policy sample (VStr "folder") VNone
                    eq_refl eq_refl)
             sample_heap (sample_path (VStr "folder") VNone) (VStr "nope")
             "nope" eq_refl eq_refl eq_refl eq_refl eq_refl).
Defined.

(** The default [0] is neither [None] nor callable and its string form is
    ["0"]; the question stores the number. *)
Lemma text_default_falsy_counterexample :
  callable (VInt 0) = false
  /\ is_None (VInt 0) = false
  /\ @py_str sample (VInt 0) = Ok "0"
  /\ exists q h',
       @Text.__init__ sample ∅ "q" (VStr "") (VInt 0) VNone (VBool false) (VBool true)
          (VBool false) = Ok (q, h')
       /\ Question._default q = VInt 0
       /\ Question._default q <> VStr "0".
Proof.
  repeat split. eexists _, _. split; [reflexivity|]. split; [reflexivity|discriminate].
Qed.

(** The default [5] is stored as ["5"], by [Text] and by [Password]; the
    default [0] and a function are stored as they are. *)
Lemma text_default_coercion_witness :
  (exists s, @py_str sample (VInt 5) = Ok s
             /\ Question._default
                  (fst (Question.__init__ ∅ "q" (VStr "") VNone (VStr "5") (VBool false)
                          (VBool true) (VBool false))) = VStr s)
  /\ Question._default
       (fst (Question.__init__ ∅ "q" (VStr "") VNone (VInt 0) (VBool false)
               (VBool true) (VBool false))) = VInt 0
  /\ Question._default
       (fst (Question.__init__ ∅ "q" (VStr "") VNone (VFun 0) (VBool false)
               (VBool true) (VBool false))) = VFun 0
  /\ (exists s, @py_str sample (VInt 5) = Ok s
             /\ Question._default
                  (Password.base
                     (Password.mk
                        (fst (Question.__init__ ∅ "q" (VStr "") VNone (VStr "5") (VBool false)
                                (VBool true) (VBool false))) (VStr "*"))) = VStr s).
Proof.
  split; [|split; [|split]].
  - exact (proj1 (@text_default_coercion sample ∅ "q" (VStr "") (VInt 5) VNone
                    (VBool false) (VBool true) (VBool false)) _ _ eq_refl).
  - exact (proj1 (@text_default_coercion sample ∅ "q" (VStr "") (VInt 0) VNone
                    (VBool false) (VBool true) (VBool false)) _ _ eq_refl).
  - exact (proj1 (@text_default_coercion sample ∅ "q" (VStr "") (VFun 0) VNone
                    (VBool false) (VBool true) (VBool false)) _ _ eq_refl).
  - exact (proj1 (proj2 (proj2 (@text_default_coercion sample ∅ "q" (VStr "") (VInt 5) VNone
                    (VBool false) (VBool true) (VBool false))))
             (VStr "*") (Password.mk _ _) _ eq_refl).
Defined.

(** With [exists=True] the constructor refuses the default
    [/does/not/exist] and accepts [~/notes.txt]; it accepts the absence of
    a default. *)
Lemma path_default_validated_witness :
  (exists msg,
     @Path.__init__ sample ∅ "p" (VStr "/does/not/exist") (VStr "any") (VBool true)
        (VBool false) (VStr "") VNone (VBool false) (VBool true) (VBool false)
     = Raise (ValueError msg))
  /\ (exists self h',
     @Path.__init__ sample ∅ "p" (VStr "~/notes.txt") (VStr "file") (VBool true)
        (VBool false) (VStr "") VNone (VBool false) (VBool true) (VBool false)
     = Ok (self, h'))
  /\ (exists self h',
     @Path.__init__ sample ∅ "p" VNone (VStr "file") (VBool true)
        (VBool false) (VStr "") VNone (VBool false) (VBool true) (VBool false)
     = Ok (self, h')).
Proof.
  split; [|split].
  - destruct (proj2 (proj2 (@path_default_validated sample ∅ "p" (VStr "/does/not/exist")
                              (VStr "any") (VBool true) (VBool false) (VStr "") VNone
                              (VBool false) (VBool true) (VBool false) _ _ eq_refl))
                eq_refl (ValidationError (VStr "/does/not/exist")))
      as (e' & Hc & Hv & _); [vm_compute; reflexivity|].
    destruct (Hv eq_refl) as [msg ->]. exists msg. exact Hc.
  - eexists _, _.
    apply (proj1 (proj2 (@path_default_validated sample ∅ "p" (VStr "~/notes.txt")
                           (VStr "file") (VBool true) (VBool false) (VStr "") VNone
                           (VBool false) (VBool true) (VBool false) _ _ eq_refl)));
      [reflexivity|vm_compute; reflexivity].
  - eexists _, _.
    apply (proj1 (@path_default_validated sample ∅ "p" VNone
                    (VStr "file") (VBool true) (VBool false) (VStr "") VNone
                    (VBool false) (VBool true) (VBool false) _ _ eq_refl));
      reflexivity.
Defined.

(** * Further properties of the module *)

(** ** Further properties of equality *)

Lemma py_eq_untag_left (a b : pyval) : py_eq a b = py_eq (untag a) b.
Proof.
  induction a; try reflexivity. rewrite py_eq_untag_l. simpl. assumption.
Qed.

(** X1: [==] is symmetric on the values of the embedding, [TaggedValue]s
    included, and a [TaggedValue], however nested and on either side,
    compares as the value it finally holds. *)
Theorem equality_through_tags (a b : pyval) :
  py_eq a b = py_eq b a
  /\ py_eq a b = py_eq (untag a) (untag b).
Proof.
  split.
  - apply py_eq_sym.
  - rewrite py_eq_untag_left, py_eq_sym, py_eq_untag_left. apply py_eq_sym.
Qed.

Section MoreValidation.
Context `{Runtime}.

(** X2: whatever [Question.validate] raises is a [ValidationError], or an
    exception outside [Exception] that the resolution of the validate
    specification raised itself; no other exception leaves [validate]. *)
Theorem validate_raises_validation_error (h : heap) (q : Question.t)
    (candidate : pyval) (e : exn) :
  Question.validate h q candidate = Raise e ->
  (exists value, e = ValidationError value)
  \/ (is_Exception e = false
      /\ Question._solve h q (Question._validate q) [candidate] = Raise e).
Proof.
  unfold Question.validate.
  destruct (Question._solve h q (Question._validate q) [candidate]) as [v|e0]; simpl.
  - destruct (truthy v); [discriminate|]. intros [= <-]. eauto.
  - destruct (is_ValidationError e0) eqn:Ev.
    + simpl. intros [= <-]. destruct e0; try discriminate. eauto.
    + destruct (is_Exception e0) eqn:Ee; simpl.
      * intros [= <-]. eauto.
      * intros [= <-]. auto.
Qed.

(** X3: when [Path.validate] returns, the candidate is not [None] and
    passed the validation of the base class, [normalize_value] made a
    string of it, that string is a valid pathname, and the branches on the
    path type accepted it. *)
Theorem path_validate_accepts (h : heap) (self : Path.t) (candidate : pyval) :
  Path.validate h self candidate = Ok tt ->
  is_None candidate = false
  /\ Question.validate h (Path.base self) candidate = Ok tt
  /\ exists p,
       Path.normalize_value self candidate = Ok (VStr p)
       /\ is_pathname_valid (VStr p) = Ok true
       /\ Path.check_existence self p = Ok tt.
Proof.
  unfold Path.validate.
  destruct (Question.validate h (Path.base self) candidate) as [[]|e]; [|discriminate].
  cbn [mbind outcome_bind].
  destruct (is_None candidate); [discriminate|].
  destruct (Path.normalize_value self candidate) as [v|e]; [|discriminate].
  cbn [mbind outcome_bind].
  destruct (is_pathname_valid v) as [[|]|e] eqn:Ev; try discriminate.
  cbn [mbind outcome_bind negb]. intros Hc.
  destruct v as [| | |p| | | |]; try (vm_compute in Ev; discriminate).
  split; [reflexivity|]. split; [reflexivity|]. exists p. auto.
Qed.

(** X4: with [exists] set (not [None]), for a candidate that passes the
    base validation and whose normalized path [p] is a valid pathname: a
    question of type [file] accepts it exactly when the truth value of
    [exists] is that of [os.path.isfile(p)], one of type [directory] exactly
    when it is that of [os.path.isdir(p)]; the error carries [p]. *)
Theorem path_existence_policy (h : heap) (self : Path.t) (candidate : pyval) (p : string) :
  is_None (Path._exists self) = false ->
  Question.validate h (Path.base self) candidate = Ok tt ->
  Path.normalize_value self candidate = Ok (VStr p) ->
  is_pathname_valid (VStr p) = Ok true ->
  (py_eq (Path._path_type self) (VStr "file") = true ->
   Path.validate h self candidate
   = if Bool.eqb (truthy (Path._exists self)) (os_path_isfile p) then Ok tt
     else Raise (ValidationError (VStr p)))
  /\ (py_eq (Path._path_type self) (VStr "directory") = true ->
      Path.validate h self candidate
      = if Bool.eqb (truthy (Path._exists self)) (os_path_isdir p) then Ok tt
        else Raise (ValidationError (VStr p))).
Proof.
  intros He Hb Hn Hv. rewrite (path_validate_checked _ _ _ _ Hb Hn Hv).
  unfold Path.check_existence. rewrite He. cbn [andb negb].
  split; intros Ht.
  - rewrite Ht. destruct (truthy (Path._exists self)), (os_path_isfile p); reflexivity.
  - assert (Hf : py_eq (Path._path_type self) (VStr "file") = false).
    { rewrite py_eq_str in Ht |- *.
      destruct (untag (Path._path_type self)); try discriminate.
      apply String.eqb_eq in Ht as ->. reflexivity. }
    rewrite Hf, Ht. destruct (truthy (Path._exists self)), (os_path_isdir p); reflexivity.
Qed.

Lemma path_validate_other (h : heap) (self : Path.t) (candidate : pyval) :
  Question.validate h (Path.base self) candidate = Ok tt ->
  not_a_path candidate = true ->
  Path.validate h self candidate
  = if is_None candidate then Raise (ValidationError VNone)
    else Raise (TypeError ("expected str, bytes or os.PathLike object, not "
                           ++ type_name candidate)).
Proof.
  intros Hb Hs. unfold Path.validate. rewrite Hb. cbn [mbind outcome_bind].
  destruct candidate; try reflexivity. discriminate.
Qed.

(** X5: when the base validation accepts a candidate that is [None], a
    [bool], an [int], a [tuple], a [list], a [TaggedValue] or a function,
    [Path.validate] raises [ValidationError(None)] for [None] and, for the
    others, the [TypeError] of [os.path.expanduser], not a
    [ValidationError].  (Values of other types, of which [os.path] accepts
    [bytes] and the implementations of [os.PathLike], are not among the
    values of the embedding.) *)
Theorem path_validate_not_a_path (h : heap) (self : Path.t) (candidate : pyval) :
  Question.validate h (Path.base self) candidate = Ok tt ->
  not_a_path candidate = true ->
  Path.validate h self candidate
  = if is_None candidate then Raise (ValidationError VNone)
    else Raise (TypeError ("expected str, bytes or os.PathLike object, not "
                           ++ type_name candidate)).
Proof. apply path_validate_other. Qed.

(** X6: a default that is a [bool], an [int], a [tuple], a [list], a
    [TaggedValue] or a function, and that the base validation accepts,
    makes the constructor of [Path] raise the [TypeError] of
    [os.path.expanduser]: the handler of the constructor turns
    [ValidationError] only into [ValueError]. *)
Theorem path_init_default_not_a_path (h : heap) (name : string)
    (default path_type exists_ normalize_to_absolute_path : pyval)
    (message choices ignore validate_ show_default : pyval)
    (q : Question.t) (h' : heap) :
  Text.__init__ h name message default choices ignore validate_ show_default = Ok (q, h') ->
  Question.validate h' q default = Ok tt ->
  is_None default = false ->
  not_a_path default = true ->
  Path.__init__ h name default path_type exists_ normalize_to_absolute_path
                message choices ignore validate_ show_default
  = Raise (TypeError ("expected str, bytes or os.PathLike object, not "
                      ++ type_name default)).
Proof.
  intros Hi Hb Hn Hs. unfold Path.__init__. rewrite Hi. cbn [mbind outcome_bind].
  rewrite Hn. cbn [negb].
  rewrite (path_validate_other h' (Path.mk q path_type exists_ normalize_to_absolute_path)
             default Hb Hs).
  rewrite Hn. reflexivity.
Qed.

End MoreValidation.

Lemma question_init_fresh (h : heap) (name : string)
    (message choices default ignore validate show_default : pyval) :
  h !! Question.answers (fst (Question.__init__ h name message choices default ignore
                                 validate show_default)) = None.
Proof.
  cbn. apply (not_elem_of_dom (D := gset nat)). apply is_fresh.
Qed.

Section MoreResolution.
Context `{Runtime}.

(** X7: [Question.__init__] gives the question a new, empty answers
    dictionary and leaves every dictionary that existed as it was; the
    default of the new question is the configured one. *)
Theorem question_init_own_answers (h : heap) (name : string)
    (message choices default ignore validate show_default : pyval) :
  let q := fst (Question.__init__ h name message choices default ignore validate
                  show_default) in
  let h' := snd (Question.__init__ h name message choices default ignore validate
                   show_default) in
  h !! Question.answers q = None
  /\ h' !! Question.answers q = Some ∅
  /\ (forall l, l <> Question.answers q -> h' !! l = h !! l)
  /\ Question.default h' q = Question._solve h' q default [].
Proof.
  intros q h'. pose proof (question_init_fresh h name message choices default ignore
                             validate show_default) as Hf. fold q in Hf.
  assert (Hn : h' !! Question.answers q = Some ∅) by apply lookup_insert_eq.
  split; [exact Hf|]. split; [exact Hn|]. split.
  - intros l Hl. apply lookup_insert_ne. auto.
  - unfold Question.default, deref. rewrite Hn. cbn.
    rewrite lookup_empty. reflexivity.
Qed.

(** X8: two questions built one after the other have different answers
    dictionaries: an answer recorded in the dictionary of the first is not
    in the dictionary of the second. *)
Theorem questions_do_not_share (h : heap) (n1 n2 : string)
    (m1 c1 d1 i1 v1 s1 m2 c2 d2 i2 v2 s2 : pyval) (k : string) (x : pyval) :
  let '(q1, h1) := Question.__init__ h n1 m1 c1 d1 i1 v1 s1 in
  let '(q2, h2) := Question.__init__ h1 n2 m2 c2 d2 i2 v2 s2 in
  Question.answers q1 <> Question.answers q2
  /\ deref (setitem h2 (Question.answers q1) k x) (Question.answers q2) = ∅.
Proof.
  cbn. set (l1 := fresh (dom h)). set (l2 := fresh (dom (<[l1 := ∅]> h))).
  assert (Hne : l1 <> l2).
  { intros E. pose proof (is_fresh (dom (<[l1 := ∅]> h))) as Hf. fold l2 in Hf.
    apply Hf. rewrite <- E. rewrite dom_insert. set_solver. }
  split; [exact Hne|].
  unfold deref, setitem. rewrite lookup_insert_ne by exact Hne.
  rewrite lookup_insert_eq. reflexivity.
Qed.

Lemma tag_choice_not_pair (choice : pyval) :
  forall label value, Question.tag_choice choice <> VTuple [label; value].
Proof.
  intros label value.
  destruct choice as [| | | |[|a [|b [|c l]]]| | |]; cbn; discriminate.
Qed.

(** X9: when [choices] returns, the list has as many items as the resolved
    specification yields, and none of them is a tuple of two items. *)
Theorem choices_shape (h : heap) (q : Question.t) (cs : list pyval) :
  Question.choices h q = Ok cs ->
  (exists v items,
     Question._solve h q (Question._choices q) [] = Ok v
     /\ py_iter v = Ok items
     /\ length cs = length items)
  /\ Forall (fun c => forall label value, c <> VTuple [label; value]) cs.
Proof.
  unfold Question.choices, Question.choices_generator.
  destruct (Question._solve h q (Question._choices q) []) as [v|e]; [|discriminate].
  cbn [mbind outcome_bind].
  destruct (py_iter v) as [items|e] eqn:Ei; [|discriminate].
  cbn [mbind outcome_bind]. intros [= <-]. split.
  - exists v, items. repeat split; [exact Ei|apply List.length_map].
  - apply List.Forall_forall. intros c Hc. apply in_map_iff in Hc as (x & <- & _).
    apply tag_choice_not_pair.
Qed.

(** Text free of braces is formatted to itself. *)
Lemma format_run_plain (kw : gmap string pyval) (s : string) :
  forallb (fun c => negb (is_brace c)) (list_ascii_of_string s) = true ->
  format_run kw InText s = Ok s.
Proof.
  induction s as [|c s IH]; [reflexivity|]. simpl.
  intros Hs. apply andb_prop in Hs as [Hc Hs]. apply negb_true_iff in Hc.
  unfold is_brace in Hc. apply orb_false_elim in Hc as [E1 E2].
  rewrite E1, E2, (IH Hs). reflexivity.
Qed.

(** X10: a string without braces resolves to itself whatever the answers
    are; as a message it is returned unchanged, and as [ignore] it counts as
    true exactly when it is not empty. *)
Theorem plain_string_resolves_to_itself (h : heap) (q : Question.t) (s : string) :
  forallb (fun c => negb (is_brace c)) (list_ascii_of_string s) = true ->
  (forall args, Question._solve h q (VStr s) args = Ok (VStr s))
  /\ (Question._message q = VStr s -> Question.message h q = Ok (VStr s))
  /\ (Question._ignore q = VStr s -> Question.ignore h q = Ok (negb (String.eqb s ""))).
Proof.
  intros Hs.
  assert (E : forall args, Question._solve h q (VStr s) args = Ok (VStr s)).
  { intros args. unfold Question._solve, py_format. rewrite format_run_plain by exact Hs.
    reflexivity. }
  split; [exact E|]. split.
  - unfold Question.message. intros ->. apply E.
  - unfold Question.ignore. intros ->. rewrite E. reflexivity.
Qed.

(** X11: a placeholder whose recorded value is a [TaggedValue] with a
    string label is replaced by the label ([TaggedValue.__str__]), not by
    the value. *)
Theorem placeholder_renders_label (h : heap) (q : Question.t) (name label : string)
    (value : pyval) :
  placeholder_name name = true ->
  deref h (Question.answers q) !! name = Some (VTagged (VStr label) value) ->
  Question._solve h q (VStr (String "{" (name ++ "}"))) [] = Ok (VStr label).
Proof.
  intros Hn Hl. unfold Question._solve, py_format.
  change (String "{" (name ++ "}")) with (template_text [Field name]).
  rewrite format_run_template by (simpl; rewrite Hn; reflexivity).
  simpl. rewrite Hl. simpl. rewrite append_empty_r. reflexivity.
Qed.

Lemma split_not_nil (c : ascii) (s : string) : split c s <> [].
Proof.
  induction s as [|x s IH]; simpl; [discriminate|].
  destruct (Ascii.eqb x c); [discriminate|].
  destruct (split c s); [contradiction|discriminate].
Qed.

Lemma split_app (c : ascii) (a b : string) :
  split c (a ++ String c b) = (split c a ++ split c b)%list.
Proof.
  induction a as [|x a IH]; simpl.
  - rewrite Ascii.eqb_refl. reflexivity.
  - destruct (Ascii.eqb x c); [rewrite IH; reflexivity|].
    rewrite IH. pose proof (split_not_nil c a). destruct (split c a); [contradiction|reflexivity].
Qed.

End MoreResolution.

(** ** Binding of arguments *)


Lemma assoc_app (k : string) (l m : kwargs) :
  assoc k (l ++ m) = match assoc k l with Some v => Some v | None => assoc k m end.
Proof.
  induction l as [|[k' v] l IH]; [reflexivity|]. simpl.
  destruct (String.eqb k k'); auto.
Qed.

Lemma assoc_none (k : string) (l : kwargs) :
  assoc k l = None <-> ~ In k (List.map fst l).
Proof.
  induction l as [|[k' v] l IH]; simpl; [tauto|].
  destruct (String.eqb k k') eqn:E.
  - apply String.eqb_eq in E. split; [discriminate|]. intros Hn; destruct Hn; auto.
  - apply String.eqb_neq in E. rewrite IH. split; [intros Hn [?|?]; auto; congruence|tauto].
Qed.

Lemma assoc_filter (P : string -> bool) (k : string) (l : kwargs) :
  assoc k (List.filter (fun e => P (fst e)) l) = if P k then assoc k l else None.
Proof.
  induction l as [|[k' v] l IH]; simpl; [destruct (P k); reflexivity|].
  destruct (P k') eqn:Ek'; simpl; destruct (String.eqb k k') eqn:E; auto.
  - apply String.eqb_eq in E as ->. rewrite Ek'. reflexivity.
  - apply String.eqb_eq in E as ->. rewrite Ek' in IH |- *. exact IH.
Qed.

Lemma NoDup_filter_keys (P : string * pyval -> bool) (l : kwargs) :
  List.NoDup (List.map fst l) -> List.NoDup (List.map fst (List.filter P l)).
Proof.
  induction l as [|e l IH]; simpl; [auto|]. intros Hn. inversion Hn as [|? ? Hx Hl]; subst.
  destruct (P e); simpl; auto. constructor; auto.
  intros Hi. apply Hx. apply in_map_iff in Hi as (y & <- & Hy).
  apply filter_In in Hy as [Hy _]. apply in_map. exact Hy.
Qed.

(** With keys that are all different, none bound beforehand, and each one a
    parameter unless the function takes [**kwargs], the keywords are split
    between the parameters and [**kwargs] in their order. *)
Lemma bind_keywords_split (sig : signature) (bound extra kws : kwargs) :
  List.NoDup (List.map fst kws) ->
  (forall k, In k (List.map fst kws) ->
             if is_param sig k then assoc k bound = None else var_keyword sig = true) ->
  bind_keywords sig bound extra kws
  = Ok ((bound ++ List.filter (fun e => is_param sig (fst e)) kws)%list,
        (extra ++ List.filter (fun e => negb (is_param sig (fst e))) kws)%list).
Proof.
  revert bound extra; induction kws as [|[k v] kws IH]; intros bound extra Hn Hk.
  - simpl. rewrite !app_nil_r. reflexivity.
  - simpl in Hn. inversion Hn as [|? ? Hx Hl]; subst.
    pose proof (Hk k (or_introl eq_refl)) as Hk0.
    cbn [bind_keywords List.filter fst]. destruct (is_param sig k) eqn:Ep.
    + rewrite Hk0. rewrite IH; [cbn [negb]; rewrite <- app_assoc; reflexivity|exact Hl|].
      intros k' Hk'. specialize (Hk k' (or_intror Hk')).
      destruct (is_param sig k'); [|exact Hk].
      rewrite assoc_app, Hk. simpl.
      destruct (String.eqb k' k) eqn:E; [|reflexivity].
      apply String.eqb_eq in E as ->. contradiction.
    + rewrite Hk0. rewrite IH; [cbn [negb]; rewrite <- app_assoc; reflexivity|exact Hl|].
      intros k' Hk'. exact (Hk k' (or_intror Hk')).
Qed.

Lemma bind_keywords_raises (sig : signature) (bound extra kws : kwargs) (e : exn) :
  bind_keywords sig bound extra kws = Raise e -> is_TypeError e.
Proof.
  revert bound extra; induction kws as [|[k v] kws IH]; intros bound extra; [discriminate|].
  cbn [bind_keywords]. destruct (is_param sig k).
  - destruct (assoc k bound); [intros [= <-]; eexists; reflexivity|apply IH].
  - destruct (var_keyword sig); [apply IH|intros [= <-]; eexists; reflexivity].
Qed.

Lemma bind_raises (sig : signature) (args : list pyval) (kws : kwargs) (e : exn) :
  bind sig args kws = Raise e -> is_TypeError e.
Proof.
  unfold bind. destruct (bind_positional (params sig) args) as [positional rest].
  destruct (bind_keywords sig positional [] kws) as [[bound extra]|e0] eqn:E.
  - cbn [mbind outcome_bind].
    destruct (negb (var_positional sig) && negb (Nat.eqb (length rest) 0)).
    + intros [= <-]. eexists; reflexivity.
    + destruct (missing sig bound); [discriminate|]. intros [= <-]. eexists; reflexivity.
  - cbn [mbind outcome_bind]. intros [= <-]. eapply bind_keywords_raises; eauto.
Qed.

(** What binding the keywords has done when it succeeds. *)
Lemma bind_keywords_ok (sig : signature) (bound extra kws b x : kwargs) :
  bind_keywords sig bound extra kws = Ok (b, x) ->
  (forall k, In k (List.map fst extra) -> In k (List.map fst x))
  /\ (forall k, In k (List.map fst kws) ->
        if is_param sig k then assoc k bound = None
        else var_keyword sig = true /\ In k (List.map fst x)).
Proof.
  revert bound extra; induction kws as [|[k v] kws IH]; intros bound extra.
  - intros [= <- <-]. split; [auto|]. intros k [].
  - cbn [bind_keywords]. destruct (is_param sig k) eqn:Ep.
    + destruct (assoc k bound) eqn:Ea; [discriminate|]. intros Hb.
      apply IH in Hb as [H1 H2]. split; [exact H1|].
      intros k' [E|Hk']; [simpl in E; subst k'; rewrite Ep; exact Ea|].
      specialize (H2 k' Hk'). destruct (is_param sig k'); [|exact H2].
      rewrite assoc_app in H2. destruct (assoc k' bound); [discriminate|reflexivity].
    + destruct (var_keyword sig) eqn:Ev; [|discriminate]. intros Hb.
      apply IH in Hb as [H1 H2]. split.
      * intros k' Hk'. apply H1. rewrite map_app, in_app_iff. auto.
      * intros k' [E|Hk']; [simpl in E; subst k'|exact (H2 k' Hk')].
        rewrite Ep. split; [reflexivity|]. apply H1. rewrite map_app, in_app_iff.
        right. left. reflexivity.
Qed.

Lemma bind_positional_keys (ps : list (string * option pyval)) (args : list pyval) :
  forall k, In k (List.map fst (fst (bind_positional ps args))) ->
            In k (List.map fst ps).
Proof.
  revert args; induction ps as [|[p d] ps IH]; intros [|a args] k; simpl; try tauto.
  specialize (IH args). destruct (bind_positional ps args) as [bound rest]. simpl.
  intros [<-|Hk]; auto.
Qed.

(** What a successful binding has done with the keywords. *)
Lemma bind_ok (sig : signature) (args : list pyval) (kws b x : kwargs) (rest : list pyval) :
  bind sig args kws = Ok (b, rest, x) ->
  forall k, In k (List.map fst kws) ->
    if is_param sig k
    then assoc k (fst (bind_positional (params sig) args)) = None
    else var_keyword sig = true /\ In k (List.map fst x).
Proof.
  unfold bind. destruct (bind_positional (params sig) args) as [positional rest0].
  destruct (bind_keywords sig positional [] kws) as [[bound extra]|e0] eqn:E;
    [|discriminate].
  cbn [mbind outcome_bind].
  destruct (negb (var_positional sig) && negb (Nat.eqb (length rest0) 0)); [discriminate|].
  destruct (missing sig bound); [|discriminate]. intros [= <- <- <-].
  apply bind_keywords_ok in E as [_ E]. exact E.
Qed.

(** ** The factory *)

Lemma factory_keywords (bound extra kws : kwargs) :
  assoc "kind" kws = None ->
  bind_keywords question_factory_signature bound extra kws
  = Ok (bound, (extra ++ kws)%list).
Proof.
  revert extra; induction kws as [|[key v] kws IH]; intros extra.
  - intros _. rewrite app_nil_r. reflexivity.
  - cbn [assoc bind_keywords is_param question_factory_signature params existsb fst
         var_keyword orb].
    destruct (String.eqb "kind" key); [discriminate|]. cbn [orb]. intros Hk.
    rewrite IH by exact Hk. rewrite <- app_assoc. reflexivity.
Qed.

Section Factory.
Context `{Runtime}.

Lemma factory_positional (h : heap) (k : pyval) (args : list pyval) (kws : kwargs) :
  assoc "kind" kws = None ->
  question_factory h (k :: args) kws = factory_loop classes k h args kws.
Proof.
  intros Hk. unfold question_factory, bind.
  cbn [bind_positional question_factory_signature params].
  rewrite (factory_keywords [("kind", k)] [] kws Hk). reflexivity.
Qed.

Lemma factory_loop_kind (c : clazz) (h : heap) (args : list pyval) (kws : kwargs) :
  factory_loop classes (VStr (kind c)) h args kws = new c h args kws.
Proof. destruct c; reflexivity. Qed.

Lemma factory_loop_unknown (k : pyval) (h : heap) (args : list pyval) (kws : kwargs) :
  (forall c, py_eq (VStr (kind c)) k = false) ->
  factory_loop classes k h args kws = Inside (Raise UnknownQuestionTypeError).
Proof.
  intros Hk. unfold classes. cbn [factory_loop]. rewrite !Hk. reflexivity.
Qed.

(** X12: called with a kind given positionally, [question_factory] calls
    the class whose [kind] it is with the remaining arguments, for each of
    the seven classes; a kind that equals none of the seven raises
    [UnknownQuestionTypeError], whatever the other arguments are. *)
Theorem question_factory_dispatch (h : heap) (args : list pyval) (kws : kwargs) :
  assoc "kind" kws = None ->
  (forall c, question_factory h (VStr (kind c) :: args) kws = new c h args kws)
  /\ (forall k, (forall c, py_eq (VStr (kind c)) k = false) ->
                question_factory h (k :: args) kws
                = Inside (Raise UnknownQuestionTypeError)).
Proof.
  intros Hk. split.
  - intros c. rewrite factory_positional by exact Hk. apply factory_loop_kind.
  - intros k Hu. rewrite factory_positional by exact Hk.
    apply factory_loop_unknown, Hu.
Qed.

Lemma factory_from_dict (h : heap) (d : kwargs) (k : pyval) :
  List.NoDup (List.map fst d) ->
  assoc "kind" d = Some k ->
  load_from_dict h d
  = factory_loop classes k h []
      (List.filter (fun e => negb (String.eqb (fst e) "kind")) d).
Proof.
  intros Hn Hk. unfold load_from_dict, question_factory, bind.
  change (bind_positional (params question_factory_signature) [])
    with (@nil (string * pyval), @nil pyval).
  cbv beta iota.
  rewrite bind_keywords_split; [|exact Hn|].
  2:{ intros key _. destruct (is_param _ key); reflexivity. }
  cbn [mbind outcome_bind app].
  pose proof (assoc_filter (is_param question_factory_signature) "kind" d) as Hb.
  change (is_param question_factory_signature "kind") with true in Hb.
  cbv beta iota in Hb. rewrite Hk in Hb.
  set (b := List.filter (fun e => is_param question_factory_signature (fst e)) d) in *.
  change (var_positional question_factory_signature) with true. cbn [negb andb].
  unfold missing. change (params question_factory_signature) with [("kind", @None pyval)].
  cbn [List.filter fst snd has_value negb andb]. rewrite Hb.
  cbn [has_value negb andb List.map]. unfold arg, complete.
  change (params question_factory_signature) with [("kind", @None pyval)].
  cbn [List.map fst snd assoc]. rewrite Hb, String.eqb_refl.
  f_equal. apply filter_ext. intros [key v]. cbn [fst].
  change (is_param question_factory_signature key) with (String.eqb "kind" key || false).
  rewrite String.eqb_sym. destruct (String.eqb key "kind"); reflexivity.
Qed.

Lemma factory_from_dict_no_kind (h : heap) (d : kwargs) :
  assoc "kind" d = None ->
  load_from_dict h d
  = Inside (Raise (TypeError
      "question_factory() missing 1 required positional argument: 'kind'")).
Proof.
  intros Hk. unfold load_from_dict, question_factory, bind.
  cbn [bind_positional question_factory_signature params].
  rewrite (factory_keywords [] [] d Hk). reflexivity.
Qed.

End Factory.

(** ** Keywords that no constructor takes *)

Lemma is_param_In (sig : signature) (k : string) :
  is_param sig k = true -> In k (List.map fst (params sig)).
Proof.
  unfold is_param. intros Hk. apply existsb_exists in Hk as (p & Hp & E).
  apply String.eqb_eq in E as <-. apply in_map. exact Hp.
Qed.

Section Raises.
Context `{Runtime}.

Lemma py_repr_items (l : list pyval) (e : exn) (wrap : list string -> string) :
  (ss ← (fix reprs (l : list pyval) : outcome (list string) :=
           match l with
           | [] => Ok []
           | x :: l' => s ← py_repr x; ss ← reprs l'; Ok (s :: ss)
           end) l; Ok (wrap ss)) = Raise e ->
  exists x, In x l /\ py_repr x = Raise e.
Proof.
  revert wrap; induction l as [|x l IH]; intros wrap; [discriminate|].
  destruct (py_repr x) as [s|e0] eqn:E.
  - cbn [mbind outcome_bind]. intros Hr.
    destruct (IH (fun ss => wrap (s :: ss))) as (y & Hy & Ey).
    + revert Hr.
      match goal with |- mbind _ (mbind _ ?r) = _ -> _ => destruct r as [ss|e1] end.
      * discriminate.
      * intros Hr; exact Hr.
    + exists y. split; [right; exact Hy|exact Ey].
  - cbn [mbind outcome_bind]. intros [= <-]. exists x. split; [left; reflexivity|exact E].
Qed.

Lemma py_repr_raises_within (n : nat) (v : pyval) (e : exn) :
  size v <= n -> py_repr v = Raise e -> is_TypeError e.
Proof.
  revert v e; induction n as [|n IH]; intros v e Hn.
  { pose proof (size_pos v); lia. }
  destruct v as [| | | |l|l|label value|]; try discriminate.
  - destruct l as [|x [|y l]]; [discriminate| |].
    + cbn [py_repr]. destruct (py_repr x) as [s|e0] eqn:E; [discriminate|].
      intros [= <-]. apply (IH x); [simpl in Hn; lia|exact E].
    + intros Hr.
      destruct (py_repr_items (x :: y :: l) e
                  (fun ss => "(" ++ String.concat ", " ss ++ ")") Hr) as (z & Hz & Ez).
      apply (IH z); [|exact Ez]. apply size_in in Hz. simpl in Hn, Hz |- *. lia.
  - intros Hr.
    destruct (py_repr_items l e (fun ss => "[" ++ String.concat ", " ss ++ "]") Hr)
      as (z & Hz & Ez).
    apply (IH z); [|exact Ez]. apply size_in in Hz. simpl in Hn. lia.
  - cbn [py_repr]. destruct value; try discriminate; intros [= <-]; eexists; reflexivity.
Qed.

(** [str] and [repr] fail with a [TypeError] only. *)
Lemma py_str_raises (v : pyval) (e : exn) : py_str v = Raise e -> is_TypeError e.
Proof.
  destruct v as [| | | |l|l|label value|]; try discriminate;
    try (apply (py_repr_raises_within _ _ _ (Nat.le_refl _))).
  cbn [py_str]. destruct label; try discriminate; intros [= <-]; eexists; reflexivity.
Qed.

End Raises.

(** A keyword that is not the name of a parameter after [self] is bound by
    no parameter: when the binding succeeds, it is in [**kwargs]. *)
Lemma bind_passes_on (sig : signature) (a : pyval) (args rest : list pyval)
    (kws b x : kwargs) (k : string) :
  List.hd_error (List.map fst (params sig)) = Some "self" ->
  bind sig (a :: args) kws = Ok (b, rest, x) ->
  In k (List.map fst kws) ->
  ~ In k (names sig) ->
  var_keyword sig = true /\ In k (List.map fst x).
Proof.
  intros Hs Hb Hk Hn. pose proof (bind_ok _ _ _ _ _ _ Hb k Hk) as Hok.
  destruct (is_param sig k) eqn:Ep; [exfalso|exact Hok].
  apply is_param_In in Ep. unfold names in Hn.
  destruct (params sig) as [|[p d] ps]; [discriminate|].
  simpl in Hs. injection Hs as ->. simpl in Ep, Hn, Hok.
  destruct Ep as [<-|Ep]; [|contradiction].
  destruct (bind_positional ps args). simpl in Hok. discriminate.
Qed.

Section Unexpected.
Context `{Runtime}.

Lemma init_Question_unexpected (h : heap) (a : pyval) (args : list pyval) (kws : kwargs)
    (k : string) :
  In k (List.map fst kws) -> ~ In k (names Question_signature) ->
  exists msg, init_Question h (a :: args) kws = Inside (Raise (TypeError msg)).
Proof.
  intros Hk Hn. unfold init_Question.
  destruct (bind Question_signature (a :: args) kws) as [[[b rest] x]|e] eqn:E.
  - destruct (bind_passes_on Question_signature _ _ _ _ _ _ _ eq_refl E Hk Hn) as [Hv _]. discriminate.
  - destruct (bind_raises _ _ _ _ E) as [msg ->]. eauto.
Qed.

Lemma init_Text_unexpected (h : heap) (a : pyval) (args : list pyval) (kws : kwargs)
    (k : string) :
  In k (List.map fst kws) ->
  ~ In k (names Text_signature ++ names Question_signature) ->
  exists msg, init_Text h (a :: args) kws = Inside (Raise (TypeError msg)).
Proof.
  intros Hk Hn. rewrite in_app_iff in Hn. unfold init_Text.
  destruct (bind Text_signature (a :: args) kws) as [[[b rest] x]|e] eqn:E.
  - destruct (bind_passes_on Text_signature _ _ _ _ _ _ _ eq_refl E Hk) as [_ Hx]; [tauto|].
    match goal with |- context [match ?c with Ok _ => _ | Raise _ => _ end] =>
      destruct c as [d|e] eqn:Ec
    end.
    + apply init_Question_unexpected with (k := k); [|tauto].
      right. right. exact Hx.
    + destruct (truthy (arg b "default") && negb (callable (arg b "default")));
        [|discriminate].
      destruct (py_str (arg b "default")) as [s|e0] eqn:Es; [discriminate|].
      injection Ec as <-. destruct (py_str_raises _ _ Es) as [msg ->]. eauto.
  - destruct (bind_raises _ _ _ _ E) as [msg ->]. eauto.
Qed.

(** X13: calling a class with a keyword argument that is not a parameter
    of its constructor nor of the constructors its [**kwargs] reach raises
    [TypeError], whatever the other arguments are. *)
Theorem unexpected_keyword (c : clazz) (h : heap) (args : list pyval) (kws : kwargs)
    (k : string) :
  In k (List.map fst kws) ->
  ~ In k (keywords c) ->
  exists msg, new c h args kws = Inside (Raise (TypeError msg)).
Proof.
  intros Hk Hn. destruct c; unfold new, keywords in *.
  - destruct (init_Text_unexpected h VNone args kws k Hk Hn) as [msg ->]. eauto.
  - destruct (init_Text_unexpected h VNone args kws k Hk Hn) as [msg ->]. eauto.
  - rewrite in_app_iff in Hn. unfold init_Password.
    destruct (bind Password_signature (VNone :: args) kws) as [[[b rest] x]|e] eqn:E.
    + destruct (bind_passes_on Password_signature _ _ _ _ _ _ _ eq_refl E Hk) as [_ Hx]; [tauto|].
      destruct (init_Text_unexpected h (arg b "self") [arg b "name"] x k Hx) as [msg ->];
        [tauto|]. eauto.
    + destruct (bind_raises _ _ _ _ E) as [msg ->]. eauto.
  - rewrite in_app_iff in Hn. unfold init_Confirm.
    destruct (bind Confirm_signature (VNone :: args) kws) as [[[b rest] x]|e] eqn:E.
    + destruct (bind_passes_on Confirm_signature _ _ _ _ _ _ _ eq_refl E Hk) as [_ Hx]; [tauto|].
      destruct (init_Question_unexpected h (arg b "self") [arg b "name"]
                  (("default", arg b "default") :: x) k) as [msg ->];
        [right; exact Hx|tauto|]. eauto.
    + destruct (bind_raises _ _ _ _ E) as [msg ->]. eauto.
  - unfold init_List.
    destruct (bind List_signature (VNone :: args) kws) as [[[b rest] x]|e] eqn:E.
    + destruct (bind_passes_on List_signature _ _ _ _ _ _ _ eq_refl E Hk Hn) as [Hv _]. discriminate.
    + destruct (bind_raises _ _ _ _ E) as [msg ->]. eauto.
  - destruct (init_Question_unexpected h VNone args kws k Hk Hn) as [msg ->]. eauto.
  - rewrite in_app_iff in Hn. unfold init_Path.
    destruct (bind Path_signature (VNone :: args) kws) as [[[b rest] x]|e] eqn:E.
    + destruct (bind_passes_on Path_signature _ _ _ _ _ _ _ eq_refl E Hk) as [_ Hx]; [tauto|].
      destruct (init_Text_unexpected h (arg b "self") [arg b "name"]
                  (("default", arg b "default") :: x) k) as [msg ->];
        [right; exact Hx|tauto|]. eauto.
    + destruct (bind_raises _ _ _ _ E) as [msg ->]. eauto.
Qed.

End Unexpected.

(** ** Calls that succeed *)

Lemma bind_positional_short (ps : list (string * option pyval)) (args : list pyval) :
  length args <= length ps -> snd (bind_positional ps args) = [].
Proof.
  revert args; induction ps as [|[p d] ps IH]; intros [|a args] Hl; simpl in *;
    try reflexivity; try lia.
  specialize (IH args ltac:(lia)). destruct (bind_positional ps args). exact IH.
Qed.

(** A call whose keywords are all different and all accepted, with no
    positional argument too many and no parameter left without a value. *)
Lemma bind_exact (sig : signature) (args : list pyval) (kws : kwargs) :
  let positional := fst (bind_positional (params sig) args) in
  let bound := (positional ++ List.filter (fun e => is_param sig (fst e)) kws)%list in
  length args <= length (params sig) ->
  List.NoDup (List.map fst kws) ->
  (forall k, In k (List.map fst kws) ->
             if is_param sig k then assoc k positional = None else var_keyword sig = true) ->
  missing sig bound = [] ->
  bind sig args kws
  = Ok (complete sig bound, [], List.filter (fun e => negb (is_param sig (fst e))) kws).
Proof.
  intros positional bound Hl Hn Hk Hm. unfold bind.
  pose proof (bind_positional_short _ _ Hl) as Hr. subst positional bound.
  destruct (bind_positional (params sig) args) as [positional rest]. simpl in *. subst rest.
  rewrite bind_keywords_split by assumption. cbn [mbind outcome_bind app length Nat.eqb].
  rewrite andb_false_r, Hm. reflexivity.
Qed.

Lemma assoc_complete (sig : signature) (bound : kwargs) (p : string) :
  assoc p (complete sig bound)
  = match List.find (fun q => String.eqb p (fst q)) (params sig) with
    | Some q => Some match assoc p bound, snd q with
                     | Some v, _ => v
                     | None, Some d => d
                     | None, None => VNone
                     end
    | None => None
    end.
Proof.
  unfold complete. induction (params sig) as [|[q d] ps IH]; [reflexivity|].
  cbn [List.map List.find assoc fst snd]. destruct (String.eqb p q) eqn:E; [|exact IH].
  apply String.eqb_eq in E as <-. reflexivity.
Qed.

(** The value a parameter gets: the argument bound to it, or its default. *)
Lemma arg_complete (sig : signature) (bound : kwargs) (p : string) (d : option pyval) :
  List.find (fun q => String.eqb p (fst q)) (params sig) = Some (p, d) ->
  arg (complete sig bound) p
  = match assoc p bound, d with
    | Some v, _ => v
    | None, Some d => d
    | None, None => VNone
    end.
Proof. intros Hf. unfold arg. rewrite assoc_complete, Hf. reflexivity. Qed.

Lemma missing_nil (sig : signature) (bound : kwargs) :
  (forall p, In (p, None) (params sig) -> assoc p bound <> None) ->
  missing sig bound = [].
Proof.
  unfold missing. induction (params sig) as [|[q d] ps IH]; intros Hp; [reflexivity|].
  cbn [List.filter fst snd].
  destruct d as [d|]; cbn [has_value negb andb].
  - apply IH. intros p' Hin. apply Hp. right. exact Hin.
  - destruct (assoc q bound) eqn:E.
    + cbn [has_value negb]. apply IH. intros p' Hin. apply Hp. right. exact Hin.
    + destruct (Hp q (or_introl eq_refl) E).
Qed.

Lemma assoc_bound (sig : signature) (positional kws : kwargs) (p : string) :
  assoc p (positional ++ List.filter (fun e => is_param sig (fst e)) kws)
  = match assoc p positional with
    | Some v => Some v
    | None => if is_param sig p then assoc p kws else None
    end.
Proof. rewrite assoc_app, (assoc_filter (is_param sig)). reflexivity. Qed.

Lemma assoc_extra (sig : signature) (kws : kwargs) (p : string) :
  assoc p (List.filter (fun e => negb (is_param sig (fst e))) kws)
  = if is_param sig p then None else assoc p kws.
Proof.
  rewrite (assoc_filter (fun k => negb (is_param sig k))).
  destruct (is_param sig p); reflexivity.
Qed.

Lemma in_filter_keys (P : string -> bool) (l : kwargs) (k : string) :
  In k (List.map fst (List.filter (fun e => P (fst e)) l)) <->
  In k (List.map fst l) /\ P k = true.
Proof.
  rewrite !in_map_iff. split.
  - intros ([k' v] & <- & Hf). apply filter_In in Hf as [Hi Hp]. split; [|exact Hp].
    exists (k', v). auto.
  - intros [([k' v] & <- & Hi) Hp]. exists (k', v). split; [reflexivity|].
    apply filter_In. auto.
Qed.

(** Rewrites the value of a parameter of a signature that is known. *)
Ltac arg_value :=
  match goal with
  | |- context [arg (complete ?sig ?b) ?p] =>
      let d := eval vm_compute in
                 (match List.find (fun q => String.eqb p (fst q)) (params sig) with
                  | Some q => snd q
                  | None => None
                  end) in
      rewrite (arg_complete sig b p d eq_refl)
  end.

Ltac keys_cases H :=
  repeat (destruct H as [H|H]; [subst|]); try contradiction.

Section Builds.
Context `{Runtime}.

Lemma init_Question_builds (h : heap) (self : pyval) (n : string) (kws : kwargs) :
  List.NoDup (List.map fst kws) ->
  (forall k, In k (List.map fst kws) ->
             In k ["message"; "choices"; "default"; "ignore"; "validate"; "show_default"]) ->
  init_Question h [self; VStr n] kws
  = Inside (Ok (Question.__init__ h n
                  (default (VStr "") (assoc "message" kws))
                  (default VNone (assoc "choices" kws))
                  (default VNone (assoc "default" kws))
                  (default (VBool false) (assoc "ignore" kws))
                  (default (VBool true) (assoc "validate" kws))
                  (default (VBool false) (assoc "show_default" kws)))).
Proof.
  intros Hn Hk. unfold init_Question.
  rewrite bind_exact; [|simpl; lia|exact Hn| |].
  - repeat arg_value. rewrite !assoc_bound.
    cbn [bind_positional params Question_signature fst assoc String.eqb Ascii.eqb Bool.eqb].
    change (is_param Question_signature "message") with true.
    change (is_param Question_signature "choices") with true.
    change (is_param Question_signature "default") with true.
    change (is_param Question_signature "ignore") with true.
    change (is_param Question_signature "validate") with true.
    change (is_param Question_signature "show_default") with true.
    cbv beta iota.
    destruct (assoc "message" kws), (assoc "choices" kws), (assoc "default" kws),
      (assoc "ignore" kws), (assoc "validate" kws), (assoc "show_default" kws);
      reflexivity.
  - intros k Hin. specialize (Hk k Hin). simpl in Hk. keys_cases Hk; reflexivity.
  - apply missing_nil. intros p Hp. simpl in Hp. keys_cases Hp; try discriminate.
    + injection Hp as <-. rewrite assoc_bound. discriminate.
    + injection Hp as <-. rewrite assoc_bound. discriminate.
Qed.

(** The keywords that [Text.__init__] hands on to [Question.__init__]. *)
Lemma text_kwargs (kws : kwargs) :
  List.NoDup (List.map fst kws) ->
  (forall k, In k (List.map fst kws) ->
             In k ["name"; "message"; "default"; "choices"; "ignore"; "validate";
                   "show_default"]) ->
  let x := List.filter (fun e => negb (is_param Text_signature (fst e))) kws in
  List.NoDup (List.map fst x)
  /\ (forall k, In k (List.map fst x) ->
                In k ["choices"; "ignore"; "validate"; "show_default"])
  /\ assoc "choices" x = assoc "choices" kws
  /\ assoc "ignore" x = assoc "ignore" kws
  /\ assoc "validate" x = assoc "validate" kws
  /\ assoc "show_default" x = assoc "show_default" kws.
Proof.
  intros Hn Hk x. split; [apply NoDup_filter_keys, Hn|]. split.
  - intros k Hin. apply (in_filter_keys (fun k => negb (is_param Text_signature k))) in Hin
      as [Hin Hp].
    specialize (Hk k Hin). simpl in Hk. keys_cases Hk; try discriminate; simpl; auto.
  - subst x. rewrite !assoc_extra. repeat split.
Qed.

Lemma init_Text_builds (h : heap) (self : pyval) (pos : list pyval) (n : string)
    (kws : kwargs) :
  (pos = [VStr n] /\ assoc "name" kws = None)
  \/ (pos = [] /\ assoc "name" kws = Some (VStr n)) ->
  List.NoDup (List.map fst kws) ->
  (forall k, In k (List.map fst kws) ->
             In k ["name"; "message"; "default"; "choices"; "ignore"; "validate";
                   "show_default"]) ->
  init_Text h (self :: pos) kws
  = Inside (Text.__init__ h n
              (default (VStr "") (assoc "message" kws))
              (default VNone (assoc "default" kws))
              (default VNone (assoc "choices" kws))
              (default (VBool false) (assoc "ignore" kws))
              (default (VBool true) (assoc "validate" kws))
              (default (VBool false) (assoc "show_default" kws))).
Proof.
  intros Hname Hn Hk. unfold init_Text.
  destruct (text_kwargs kws Hn Hk) as (Hxn & Hxk & Ec & Ei & Ev & Es).
  set (x := List.filter (fun e => negb (is_param Text_signature (fst e))) kws) in *.
  assert (Hpos : length (self :: pos) <= length (params Text_signature)).
  { destruct Hname as [[-> _]|[-> _]]; simpl; lia. }
  assert (Hname' : assoc "name"
            (fst (bind_positional (params Text_signature) (self :: pos))
             ++ List.filter (fun e => is_param Text_signature (fst e)) kws)
          = Some (VStr n)).
  { rewrite assoc_bound. destruct Hname as [[-> _]|[-> E]]; [reflexivity|exact E]. }
  assert (Hother : forall p, p <> "self" -> p <> "name" ->
            assoc p (fst (bind_positional (params Text_signature) (self :: pos))) = None).
  { intros p H1 H2. apply String.eqb_neq in H1, H2.
    destruct Hname as [[-> _]|[-> _]]; simpl; rewrite ?H1, ?H2; reflexivity. }
  rewrite bind_exact; [|exact Hpos|exact Hn| |].
  - repeat arg_value. rewrite Hname'.
    rewrite !assoc_bound.
    rewrite !(Hother "message"), !(Hother "default") by discriminate.
    change (is_param Text_signature "message") with true.
    change (is_param Text_signature "default") with true.
    cbv beta iota. fold x.
    replace (match assoc "default" kws with Some v => v | None => VNone end)
      with (default VNone (assoc "default" kws))
      by (destruct (assoc "default" kws); reflexivity).
    unfold Text.__init__.
    destruct (if truthy (default VNone (assoc "default" kws))
                 && negb (callable (default VNone (assoc "default" kws)))
              then s ← py_str (default VNone (assoc "default" kws)); Ok (VStr s)
              else Ok (default VNone (assoc "default" kws))) as [dv|e]; [|reflexivity].
    rewrite init_Question_builds.
    + cbn [assoc String.eqb Ascii.eqb Bool.eqb mbind outcome_bind].
      rewrite Ec, Ei, Ev, Es.
      destruct (assoc "message" kws); reflexivity.
    + cbn [List.map fst]. constructor; [|constructor; [|exact Hxn]].
      * intros [E|Hin]; [discriminate|]. apply Hxk in Hin. simpl in Hin.
        keys_cases Hin; discriminate.
      * intros Hin. apply Hxk in Hin. simpl in Hin. keys_cases Hin; discriminate.
    + cbn [List.map fst]. intros k [<-|[<-|Hin]]; simpl; auto.
      apply Hxk in Hin. simpl in Hin. keys_cases Hin; simpl; auto 10.
  - intros k Hin. pose proof (Hk k Hin) as Hk'. simpl in Hk'.
    keys_cases Hk'; try reflexivity;
      try (change (assoc "message"
                     (fst (bind_positional (params Text_signature) (self :: pos))) = None);
           apply Hother; discriminate);
      try (change (assoc "default"
                     (fst (bind_positional (params Text_signature) (self :: pos))) = None);
           apply Hother; discriminate).
    change (is_param Text_signature "name") with true. cbv beta iota.
    destruct Hname as [[-> E]|[-> _]]; [|reflexivity].
    apply assoc_none in E. contradiction.
  - apply missing_nil. intros p Hp. simpl in Hp. keys_cases Hp; try discriminate.
    + injection Hp as <-. rewrite assoc_bound.
      destruct Hname as [[-> _]|[-> _]]; discriminate.
    + injection Hp as <-. rewrite Hname'. discriminate.
Qed.

End Builds.

Section Loading.
Context `{Runtime}.

(** The dictionary without its entry [kind]. *)
Lemma without_kind (d : kwargs) (allowed : list string) :
  List.NoDup (List.map fst d) ->
  (forall k, In k (List.map fst d) -> In k ("kind" :: allowed)) ->
  let d' := List.filter (fun e => negb (String.eqb (fst e) "kind")) d in
  List.NoDup (List.map fst d')
  /\ (forall k, In k (List.map fst d') -> In k allowed)
  /\ (forall p, p <> "kind" -> assoc p d' = assoc p d).
Proof.
  intros Hn Hk d'. split; [apply NoDup_filter_keys, Hn|]. split.
  - intros k Hin.
    apply (in_filter_keys (fun k => negb (String.eqb k "kind"))) in Hin as [Hin Hp].
    destruct (Hk k Hin) as [<-|Ha]; [discriminate|exact Ha].
  - intros p Hp. subst d'. rewrite (assoc_filter (fun k => negb (String.eqb k "kind"))).
    apply String.eqb_neq in Hp. rewrite Hp. reflexivity.
Qed.

(** X14: [load_from_dict] on a dictionary of kind [text] or [editor],
    with a string name and no key that [Text] does not take, is
    [Text.__init__] applied to the entries of the dictionary, in whatever
    order they come, a missing entry replaced by the default of its
    parameter. *)
Theorem load_text_from_dict (h : heap) (d : kwargs) (n : string) :
  List.NoDup (List.map fst d) ->
  (forall k, In k (List.map fst d) -> In k ("kind" :: keywords CText)) ->
  assoc "name" d = Some (VStr n) ->
  let built :=
    Text.__init__ h n
      (default (VStr "") (assoc "message" d)) (default VNone (assoc "default" d))
      (default VNone (assoc "choices" d)) (default (VBool false) (assoc "ignore" d))
      (default (VBool true) (assoc "validate" d))
      (default (VBool false) (assoc "show_default" d)) in
  (assoc "kind" d = Some (VStr "text") ->
   load_from_dict h d = ('(q, h') ← Inside built; mret (IsText q, h')))
  /\ (assoc "kind" d = Some (VStr "editor") ->
      load_from_dict h d = ('(q, h') ← Inside built; mret (IsEditor q, h'))).
Proof.
  intros Hn Hk Hname built.
  destruct (without_kind d (keywords CText) Hn Hk) as (Hn' & Hk' & Ea).
  set (d' := List.filter (fun e => negb (String.eqb (fst e) "kind")) d) in *.
  assert (Hi : init_Text h [VNone] d' = Inside built).
  { rewrite (init_Text_builds h VNone [] n d').
    - rewrite !Ea by discriminate. reflexivity.
    - right. split; [reflexivity|]. rewrite Ea by discriminate. exact Hname.
    - exact Hn'.
    - intros k Hin. apply Hk' in Hin. simpl in Hin. keys_cases Hin; simpl; auto 10. }
  split; intros Hkind; rewrite (factory_from_dict h d _ Hn Hkind); fold d'.
  - change (VStr "text") with (VStr (kind CText)). rewrite factory_loop_kind.
    unfold new. rewrite Hi. reflexivity.
  - change (VStr "editor") with (VStr (kind CEditor)). rewrite factory_loop_kind.
    unfold new. rewrite Hi. reflexivity.
Qed.

(** The keywords that [Path.__init__] hands on to [Text.__init__]. *)
Lemma path_kwargs (kws : kwargs) :
  List.NoDup (List.map fst kws) ->
  (forall k, In k (List.map fst kws) -> In k (keywords CPath)) ->
  let x := List.filter (fun e => negb (is_param Path_signature (fst e))) kws in
  List.NoDup (List.map fst x)
  /\ (forall k, In k (List.map fst x) ->
                In k ["message"; "choices"; "ignore"; "validate"; "show_default"])
  /\ assoc "message" x = assoc "message" kws
  /\ assoc "choices" x = assoc "choices" kws
  /\ assoc "ignore" x = assoc "ignore" kws
  /\ assoc "validate" x = assoc "validate" kws
  /\ assoc "show_default" x = assoc "show_default" kws.
Proof.
  intros Hn Hk x. split; [apply NoDup_filter_keys, Hn|]. split.
  - intros k Hin. apply (in_filter_keys (fun k => negb (is_param Path_signature k))) in Hin
      as [Hin Hp].
    specialize (Hk k Hin). simpl in Hk. keys_cases Hk; try discriminate; simpl; auto 10.
  - subst x. rewrite !assoc_extra. repeat split.
Qed.

Lemma init_Path_builds (h : heap) (self : pyval) (n : string) (kws : kwargs) :
  List.NoDup (List.map fst kws) ->
  (forall k, In k (List.map fst kws) -> In k (keywords CPath)) ->
  assoc "name" kws = Some (VStr n) ->
  init_Path h [self] kws
  = Inside (Path.__init__ h n
              (default VNone (assoc "default" kws))
              (default (VStr "any") (assoc "path_type" kws))
              (default VNone (assoc "exists" kws))
              (default (VBool false) (assoc "normalize_to_absolute_path" kws))
              (default (VStr "") (assoc "message" kws))
              (default VNone (assoc "choices" kws))
              (default (VBool false) (assoc "ignore" kws))
              (default (VBool true) (assoc "validate" kws))
              (default (VBool false) (assoc "show_default" kws))).
Proof.
  intros Hn Hk Hname. unfold init_Path.
  destruct (path_kwargs kws Hn Hk) as (Hxn & Hxk & Em & Ec & Ei & Ev & Es).
  set (x := List.filter (fun e => negb (is_param Path_signature (fst e))) kws) in *.
  rewrite bind_exact; [|simpl; lia|exact Hn| |].
  - repeat arg_value. rewrite !assoc_bound.
    cbn [bind_positional params Path_signature fst assoc String.eqb Ascii.eqb Bool.eqb].
    change (is_param Path_signature "name") with true.
    change (is_param Path_signature "default") with true.
    change (is_param Path_signature "path_type") with true.
    change (is_param Path_signature "exists") with true.
    change (is_param Path_signature "normalize_to_absolute_path") with true.
    cbv beta iota. fold x. rewrite Hname.
    replace (match assoc "default" kws with Some v => v | None => VNone end)
      with (default VNone (assoc "default" kws))
      by (destruct (assoc "default" kws); reflexivity).
    replace (match assoc "path_type" kws with Some v => v | None => VStr "any" end)
      with (default (VStr "any") (assoc "path_type" kws))
      by (destruct (assoc "path_type" kws); reflexivity).
    replace (match assoc "exists" kws with Some v => v | None => VNone end)
      with (default VNone (assoc "exists" kws))
      by (destruct (assoc "exists" kws); reflexivity).
    replace (match assoc "normalize_to_absolute_path" kws with
             | Some v => v
             | None => VBool false
             end)
      with (default (VBool false) (assoc "normalize_to_absolute_path" kws))
      by (destruct (assoc "normalize_to_absolute_path" kws); reflexivity).
    rewrite (init_Text_builds h self [VStr n] n).
    + cbn [assoc String.eqb Ascii.eqb Bool.eqb]. rewrite Em, Ec, Ei, Ev, Es.
      unfold Path.__init__. cbn [default].
      destruct (Text.__init__ _ _ _ _ _ _ _ _) as [[q h']|e]; [|reflexivity].
      cbn [mbind embedded_bind outcome_bind].
      destruct (negb (is_None _)); reflexivity.
    + left. split; [reflexivity|]. cbn [assoc String.eqb Ascii.eqb Bool.eqb].
      subst x. rewrite assoc_extra. reflexivity.
    + cbn [List.map fst]. constructor; [|exact Hxn].
      intros Hin. apply Hxk in Hin. simpl in Hin. keys_cases Hin; discriminate.
    + cbn [List.map fst]. intros k [<-|Hin]; simpl; auto.
      apply Hxk in Hin. simpl in Hin. keys_cases Hin; simpl; auto 10.
  - intros k Hin. specialize (Hk k Hin). simpl in Hk. keys_cases Hk; reflexivity.
  - apply missing_nil. intros p Hp. simpl in Hp. keys_cases Hp; try discriminate.
    + injection Hp as <-. rewrite assoc_bound. discriminate.
    + injection Hp as <-. rewrite assoc_bound.
      change (is_param Path_signature "name") with true. cbv beta iota.
      cbn [bind_positional params Path_signature fst assoc String.eqb Ascii.eqb Bool.eqb].
      rewrite Hname. discriminate.
Qed.

(** X15: [load_from_dict] on a dictionary of kind [path], with a string
    name and no key that [Path] does not take, is [Path.__init__] applied to
    the entries of the dictionary, a missing entry replaced by the default
    of its parameter; so the default is validated when the dictionary is
    loaded. *)
Theorem load_path_from_dict (h : heap) (d : kwargs) (n : string) :
  List.NoDup (List.map fst d) ->
  (forall k, In k (List.map fst d) -> In k ("kind" :: keywords CPath)) ->
  assoc "kind" d = Some (VStr "path") ->
  assoc "name" d = Some (VStr n) ->
  load_from_dict h d
  = ('(q, h') ← Inside (Path.__init__ h n
                          (default VNone (assoc "default" d))
                          (default (VStr "any") (assoc "path_type" d))
                          (default VNone (assoc "exists" d))
                          (default (VBool false) (assoc "normalize_to_absolute_path" d))
                          (default (VStr "") (assoc "message" d))
                          (default VNone (assoc "choices" d))
                          (default (VBool false) (assoc "ignore" d))
                          (default (VBool true) (assoc "validate" d))
                          (default (VBool false) (assoc "show_default" d)));
     mret (IsPath q, h')).
Proof.
  intros Hn Hk Hkind Hname.
  destruct (without_kind d (keywords CPath) Hn Hk) as (Hn' & Hk' & Ea).
  rewrite (factory_from_dict h d _ Hn Hkind).
  set (d' := List.filter (fun e => negb (String.eqb (fst e) "kind")) d) in *.
  change (VStr "path") with (VStr (kind CPath)). rewrite factory_loop_kind.
  unfold new. rewrite (init_Path_builds h VNone n d' Hn' Hk').
  - rewrite !Ea by discriminate. reflexivity.
  - rewrite Ea by discriminate. exact Hname.
Qed.

End Loading.

(** ** Lists of questions *)

Section Lists.
Context `{Runtime}.

Lemma init_Question_alloc (h : heap) (args : list pyval) (kws : kwargs)
    (q : Question.t) (h' : heap) :
  init_Question h args kws = Inside (Ok (q, h')) ->
  h !! Question.answers q = None /\ h' = <[Question.answers q := ∅]> h.
Proof.
  unfold init_Question. destruct (bind _ _ _) as [[[b rest] x]|e]; [|discriminate].
  destruct (arg b "name"); try discriminate. intros [= <- <-].
  split; [apply question_init_fresh|reflexivity].
Qed.

Lemma init_Text_alloc (h : heap) (args : list pyval) (kws : kwargs)
    (q : Question.t) (h' : heap) :
  init_Text h args kws = Inside (Ok (q, h')) ->
  h !! Question.answers q = None /\ h' = <[Question.answers q := ∅]> h.
Proof.
  unfold init_Text. destruct (bind _ _ _) as [[[b rest] x]|e]; [|discriminate].
  match goal with |- context [match ?c with Ok _ => _ | Raise _ => _ end] =>
    destruct c as [d|e]; [|discriminate]
  end.
  apply init_Question_alloc.
Qed.

Lemma new_alloc (c : clazz) (h : heap) (args : list pyval) (kws : kwargs)
    (q : question) (h' : heap) :
  new c h args kws = Inside (Ok (q, h')) ->
  h !! Question.answers (base_of q) = None
  /\ h' = <[Question.answers (base_of q) := ∅]> h.
Proof.
  destruct c; unfold new.
  - destruct (init_Text _ _ _) as [[[q0 h0]|e]|] eqn:E; try discriminate.
    intros [= <- <-]. exact (init_Text_alloc _ _ _ _ _ E).
  - destruct (init_Text _ _ _) as [[[q0 h0]|e]|] eqn:E; try discriminate.
    intros [= <- <-]. exact (init_Text_alloc _ _ _ _ _ E).
  - unfold init_Password. destruct (bind _ _ _) as [[[b rest] x]|e]; [|discriminate].
    destruct (init_Text _ _ _) as [[[q0 h0]|e]|] eqn:E; try discriminate.
    intros [= <- <-]. exact (init_Text_alloc _ _ _ _ _ E).
  - unfold init_Confirm. destruct (bind _ _ _) as [[[b rest] x]|e]; [|discriminate].
    destruct (init_Question _ _ _) as [[[q0 h0]|e]|] eqn:E; try discriminate.
    intros [= <- <-]. exact (init_Question_alloc _ _ _ _ _ E).
  - unfold init_List. destruct (bind _ _ _) as [[[b rest] x]|e]; [|discriminate].
    destruct (init_Question _ _ _) as [[[q0 h0]|e]|] eqn:E; try discriminate.
    intros [= <- <-]. exact (init_Question_alloc _ _ _ _ _ E).
  - destruct (init_Question _ _ _) as [[[q0 h0]|e]|] eqn:E; try discriminate.
    intros [= <- <-]. exact (init_Question_alloc _ _ _ _ _ E).
  - unfold init_Path. destruct (bind _ _ _) as [[[b rest] x]|e]; [|discriminate].
    destruct (init_Text _ _ _) as [[[q0 h0]|e]|] eqn:E; try discriminate.
    cbn [mbind embedded_bind].
    destruct (negb (is_None (arg b "default"))).
    + destruct (try_except _ _); [|discriminate]. cbn [mbind outcome_bind embedded_bind].
      intros [= <- <-]. exact (init_Text_alloc _ _ _ _ _ E).
    + cbn [mbind embedded_bind]. intros [= <- <-]. exact (init_Text_alloc _ _ _ _ _ E).
Qed.

Lemma factory_loop_alloc (cs : list clazz) (k : pyval) (h : heap) (args : list pyval)
    (kws : kwargs) (q : question) (h' : heap) :
  factory_loop cs k h args kws = Inside (Ok (q, h')) ->
  h !! Question.answers (base_of q) = None
  /\ h' = <[Question.answers (base_of q) := ∅]> h.
Proof.
  induction cs as [|c cs IH]; [discriminate|]. cbn [factory_loop].
  destruct (py_eq (VStr (kind c)) k); [apply new_alloc|exact IH].
Qed.

Lemma load_from_dict_alloc (h : heap) (d : kwargs) (q : question) (h' : heap) :
  load_from_dict h d = Inside (Ok (q, h')) ->
  h !! Question.answers (base_of q) = None
  /\ h' = <[Question.answers (base_of q) := ∅]> h.
Proof.
  unfold load_from_dict, question_factory.
  destruct (bind _ _ _) as [[[b rest] x]|e]; [|discriminate]. apply factory_loop_alloc.
Qed.

(** X16: loading a list that is two lists one after the other is loading
    the first, then the second in the heap the first has left; a failure in
    either is the failure of the whole. *)
Theorem load_from_list_app (h : heap) (l1 l2 : list kwargs) :
  load_from_list h (l1 ++ l2)
  = ('(qs1, h1) ← load_from_list h l1;
     '(qs2, h2) ← load_from_list h1 l2;
     mret ((qs1 ++ qs2)%list, h2)).
Proof.
  revert h; induction l1 as [|d l1 IH]; intros h.
  - cbn [app load_from_list mbind mret embedded_bind embedded_ret].
    destruct (load_from_list h l2) as [[[qs2 h2]|e]|]; reflexivity.
  - cbn [app load_from_list].
    destruct (load_from_dict h d) as [[[q h1]|e]|]; try reflexivity.
    cbn [mbind embedded_bind]. rewrite IH.
    destruct (load_from_list h1 l1) as [[[qs1 h1']|e]|]; try reflexivity.
    cbn [mbind mret embedded_bind embedded_ret].
    destruct (load_from_list h1' l2) as [[[qs2 h2]|e]|]; reflexivity.
Qed.

(** X17: when [load_from_list] returns, there is one question for each
    dictionary, no two of them share their answers dictionary, each
    dictionary of answers is new and empty, and the dictionaries that
    existed are as they were. *)
Theorem loaded_questions_own_answers (h : heap) (ds : list kwargs)
    (qs : list question) (h' : heap) :
  load_from_list h ds = Inside (Ok (qs, h')) ->
  length qs = length ds
  /\ List.NoDup (List.map (fun q => Question.answers (base_of q)) qs)
  /\ (forall q, In q qs ->
        h !! Question.answers (base_of q) = None
        /\ h' !! Question.answers (base_of q) = Some ∅)
  /\ (forall l, h !! l <> None -> h' !! l = h !! l).
Proof.
  revert h qs h'; induction ds as [|d ds IH]; intros h qs h'.
  - intros [= <- <-]. split; [reflexivity|]. split; [constructor|].
    split; [intros q []|auto].
  - cbn [load_from_list].
    destruct (load_from_dict h d) as [[[q h1]|e]|] eqn:E; try discriminate.
    cbn [mbind embedded_bind].
    destruct (load_from_list h1 ds) as [[[qs' h2]|e]|] eqn:E'; try discriminate.
    cbn [mbind mret embedded_bind embedded_ret]. intros [= <- <-].
    apply load_from_dict_alloc in E as [Hf ->].
    destruct (IH _ _ _ E') as (Hl & Hn & Hq & Hk).
    set (a := Question.answers (base_of q)) in *.
    assert (Ha : h2 !! a = Some ∅).
    { rewrite Hk; rewrite lookup_insert_eq; [reflexivity|discriminate]. }
    split; [simpl; congruence|]. split; [|split].
    + cbn [List.map]. constructor; [|exact Hn]. intros Hin.
      apply in_map_iff in Hin as (q' & Eq & Hin). destruct (Hq q' Hin) as [Hq' _].
      rewrite Eq in Hq'. rewrite lookup_insert_eq in Hq'. discriminate.
    + intros q' [<-|Hin]; [split; [exact Hf|exact Ha]|].
      destruct (Hq q' Hin) as [H1 H2]. split; [|exact H2].
      destruct (decide (Question.answers (base_of q') = a)) as [Eq|Ne].
      * rewrite Eq in H1. rewrite lookup_insert_eq in H1. discriminate.
      * rewrite lookup_insert_ne in H1 by auto. exact H1.
    + intros l Hl'. assert (Hne : a <> l) by (intros <-; contradiction).
      rewrite Hk; rewrite lookup_insert_ne by exact Hne; [reflexivity|exact Hl'].
Qed.

End Lists.

Section KindAndValidity.
Context `{Runtime}.

(** X18: [load_from_dict] needs the key [kind]: without it the call raises
    the [TypeError] of a missing argument; with the kind of a class it calls
    that class with the other entries as keyword arguments; with a kind
    that equals none of the seven it raises [UnknownQuestionTypeError]. *)
Theorem load_from_dict_kind (h : heap) (d : kwargs) :
  List.NoDup (List.map fst d) ->
  let others := List.filter (fun e => negb (String.eqb (fst e) "kind")) d in
  (assoc "kind" d = None ->
   load_from_dict h d
   = Inside (Raise (TypeError
       "question_factory() missing 1 required positional argument: 'kind'")))
  /\ (forall c, assoc "kind" d = Some (VStr (kind c)) ->
                load_from_dict h d = new c h [] others)
  /\ (forall k, assoc "kind" d = Some k ->
                (forall c, py_eq (VStr (kind c)) k = false) ->
                load_from_dict h d = Inside (Raise UnknownQuestionTypeError)).
Proof.
  intros Hn others. split; [|split].
  - apply factory_from_dict_no_kind.
  - intros c Hk. rewrite (factory_from_dict h d _ Hn Hk). apply factory_loop_kind.
  - intros k Hk Hu. rewrite (factory_from_dict h d _ Hn Hk).
    apply factory_loop_unknown, Hu.
Qed.

Lemma is_pathname_valid_str (s : string) :
  os_path_isdir platform_root = true ->
  (forall p e, os_lstat p = Raise e -> lstat_error e = true) ->
  (forall p, os_path_splitdrive p = ("", p)) ->
  is_pathname_valid (VStr s)
  = Ok (negb (String.eqb s "")
        && forallb (fun part => negb (probe_fault part)) (split os_path_sep s)).
Proof.
  intros Hroot Hl Hd. unfold is_pathname_valid. cbn [truthy].
  destruct (String.eqb s ""); [reflexivity|].
  cbn [negb andb]. rewrite Hd, Hroot. cbn [negb]. apply probe_parts_decided, Hl.
Qed.

(** X19: where pathnames have no drive, the root directory exists and
    [os.lstat] fails only with [OSError], [ValueError] or [TypeError], two
    non-empty pathnames joined by the separator are valid exactly when both
    are, in either order: each part is probed on its own under the root. *)
Theorem pathname_validity_composes (a b : string) :
  os_path_isdir platform_root = true ->
  (forall p e, os_lstat p = Raise e -> lstat_error e = true) ->
  (forall p, os_path_splitdrive p = ("", p)) ->
  a <> "" -> b <> "" ->
  exists va vb,
    is_pathname_valid (VStr a) = Ok va
    /\ is_pathname_valid (VStr b) = Ok vb
    /\ is_pathname_valid (VStr (a ++ String os_path_sep b)) = Ok (va && vb)
    /\ is_pathname_valid (VStr (b ++ String os_path_sep a)) = Ok (va && vb).
Proof.
  intros Hroot Hl Hd Ha Hb.
  rewrite !is_pathname_valid_str by assumption.
  apply String.eqb_neq in Ha, Hb. rewrite Ha, Hb. cbn [negb andb].
  assert (Hab : forall x y, x <> "" -> String.eqb (x ++ String os_path_sep y) "" = false).
  { intros x y Hx. destruct x; [contradiction|reflexivity]. }
  apply String.eqb_neq in Ha, Hb.
  rewrite !Hab by assumption. cbn [negb andb].
  rewrite !split_app, !forallb_app.
  eexists _, _. repeat split. f_equal. apply andb_comm.
Qed.

End KindAndValidity.

Section OtherKinds.
Context `{Runtime}.

(** [Question.__init__] called with the name given by keyword. *)
Lemma init_Question_builds_keyword (h : heap) (self : pyval) (n : string) (kws : kwargs) :
  List.NoDup (List.map fst kws) ->
  (forall k, In k (List.map fst kws) -> In k (names Question_signature)) ->
  assoc "name" kws = Some (VStr n) ->
  init_Question h [self] kws
  = Inside (Ok (Question.__init__ h n
                  (default (VStr "") (assoc "message" kws))
                  (default VNone (assoc "choices" kws))
                  (default VNone (assoc "default" kws))
                  (default (VBool false) (assoc "ignore" kws))
                  (default (VBool true) (assoc "validate" kws))
                  (default (VBool false) (assoc "show_default" kws)))).
Proof.
  intros Hn Hk Hname. unfold init_Question.
  rewrite bind_exact; [|simpl; lia|exact Hn| |].
  - repeat arg_value. rewrite !assoc_bound.
    cbn [bind_positional params Question_signature fst assoc String.eqb Ascii.eqb Bool.eqb].
    change (is_param Question_signature "name") with true.
    change (is_param Question_signature "message") with true.
    change (is_param Question_signature "choices") with true.
    change (is_param Question_signature "default") with true.
    change (is_param Question_signature "ignore") with true.
    change (is_param Question_signature "validate") with true.
    change (is_param Question_signature "show_default") with true.
    cbv beta iota. rewrite Hname.
    destruct (assoc "message" kws), (assoc "choices" kws), (assoc "default" kws),
      (assoc "ignore" kws), (assoc "validate" kws), (assoc "show_default" kws);
      reflexivity.
  - intros k Hin. specialize (Hk k Hin). simpl in Hk. keys_cases Hk; reflexivity.
  - apply missing_nil. intros p Hp. simpl in Hp. keys_cases Hp; try discriminate.
    + injection Hp as <-. rewrite assoc_bound. discriminate.
    + injection Hp as <-. rewrite assoc_bound.
      change (is_param Question_signature "name") with true. cbv beta iota.
      cbn [bind_positional params Question_signature fst assoc String.eqb Ascii.eqb
           Bool.eqb].
      rewrite Hname. discriminate.
Qed.

Lemma init_Confirm_builds (h : heap) (self : pyval) (n : string) (kws : kwargs) :
  List.NoDup (List.map fst kws) ->
  (forall k, In k (List.map fst kws) -> In k (keywords CConfirm)) ->
  assoc "name" kws = Some (VStr n) ->
  init_Confirm h [self] kws
  = Inside (Ok (Question.__init__ h n
                  (default (VStr "") (assoc "message" kws))
                  (default VNone (assoc "choices" kws))
                  (default (VBool false) (assoc "default" kws))
                  (default (VBool false) (assoc "ignore" kws))
                  (default (VBool true) (assoc "validate" kws))
                  (default (VBool false) (assoc "show_default" kws)))).
Proof.
  intros Hn Hk Hname. unfold init_Confirm.
  set (x := List.filter (fun e => negb (is_param Confirm_signature (fst e))) kws).
  assert (Hxn : List.NoDup (List.map fst x)) by apply NoDup_filter_keys, Hn.
  assert (Hxk : forall k, In k (List.map fst x) ->
                  In k ["message"; "choices"; "ignore"; "validate"; "show_default"]).
  { intros k Hin.
    apply (in_filter_keys (fun k => negb (is_param Confirm_signature k))) in Hin
      as [Hin Hp].
    specialize (Hk k Hin). simpl in Hk. keys_cases Hk; try discriminate; simpl; auto 10. }
  rewrite bind_exact; [|simpl; lia|exact Hn| |].
  - repeat arg_value. rewrite !assoc_bound.
    cbn [bind_positional params Confirm_signature fst assoc String.eqb Ascii.eqb Bool.eqb].
    change (is_param Confirm_signature "name") with true.
    change (is_param Confirm_signature "default") with true.
    cbv beta iota. fold x. rewrite Hname.
    rewrite init_Question_builds.
    + cbn [assoc String.eqb Ascii.eqb Bool.eqb]. subst x. rewrite !assoc_extra.
      change (is_param Confirm_signature "message") with false.
      change (is_param Confirm_signature "choices") with false.
      change (is_param Confirm_signature "ignore") with false.
      change (is_param Confirm_signature "validate") with false.
      change (is_param Confirm_signature "show_default") with false.
      cbv beta iota. destruct (assoc "default" kws); reflexivity.
    + cbn [List.map fst]. constructor; [|exact Hxn].
      intros Hin. apply Hxk in Hin. simpl in Hin. keys_cases Hin; discriminate.
    + cbn [List.map fst]. intros k [<-|Hin]; simpl; auto.
      apply Hxk in Hin. simpl in Hin. keys_cases Hin; simpl; auto 10.
  - intros k Hin. specialize (Hk k Hin). simpl in Hk. keys_cases Hk; reflexivity.
  - apply missing_nil. intros p Hp. simpl in Hp. keys_cases Hp; try discriminate.
    + injection Hp as <-. rewrite assoc_bound. discriminate.
    + injection Hp as <-. rewrite assoc_bound.
      change (is_param Confirm_signature "name") with true. cbv beta iota.
      cbn [bind_positional params Confirm_signature fst assoc String.eqb Ascii.eqb
           Bool.eqb].
      rewrite Hname. discriminate.
Qed.

Lemma init_List_builds (h : heap) (self : pyval) (n : string) (kws : kwargs) :
  List.NoDup (List.map fst kws) ->
  (forall k, In k (List.map fst kws) -> In k (keywords CList)) ->
  assoc "name" kws = Some (VStr n) ->
  init_List h [self] kws
  = Inside (Ok (List_.mk
                  (fst (Question.__init__ h n
                          (default (VStr "") (assoc "message" kws))
                          (default VNone (assoc "choices" kws))
                          (default VNone (assoc "default" kws))
                          (default (VBool false) (assoc "ignore" kws))
                          (default (VBool true) (assoc "validate" kws))
                          (VBool false)))
                  (default (VBool false) (assoc "carousel" kws)),
                snd (Question.__init__ h n
                       (default (VStr "") (assoc "message" kws))
                       (default VNone (assoc "choices" kws))
                       (default VNone (assoc "default" kws))
                       (default (VBool false) (assoc "ignore" kws))
                       (default (VBool true) (assoc "validate" kws))
                       (VBool false)))).
Proof.
  intros Hn Hk Hname. unfold init_List.
  rewrite bind_exact; [|simpl; lia|exact Hn| |].
  - repeat arg_value. rewrite !assoc_bound.
    cbn [bind_positional params List_signature fst assoc String.eqb Ascii.eqb Bool.eqb].
    change (is_param List_signature "name") with true.
    change (is_param List_signature "message") with true.
    change (is_param List_signature "choices") with true.
    change (is_param List_signature "default") with true.
    change (is_param List_signature "ignore") with true.
    change (is_param List_signature "validate") with true.
    change (is_param List_signature "carousel") with true.
    cbv beta iota. rewrite Hname.
    destruct (assoc "message" kws), (assoc "choices" kws), (assoc "default" kws),
      (assoc "ignore" kws), (assoc "validate" kws), (assoc "carousel" kws);
      reflexivity.
  - intros k Hin. specialize (Hk k Hin). simpl in Hk. keys_cases Hk; reflexivity.
  - apply missing_nil. intros p Hp. simpl in Hp. keys_cases Hp; try discriminate.
    + injection Hp as <-. rewrite assoc_bound. discriminate.
    + injection Hp as <-. rewrite assoc_bound.
      change (is_param List_signature "name") with true. cbv beta iota.
      cbn [bind_positional params List_signature fst assoc String.eqb Ascii.eqb Bool.eqb].
      rewrite Hname. discriminate.
Qed.

Lemma init_Password_builds (h : heap) (self : pyval) (n : string) (kws : kwargs) :
  List.NoDup (List.map fst kws) ->
  (forall k, In k (List.map fst kws) -> In k (keywords CPassword)) ->
  assoc "name" kws = Some (VStr n) ->
  init_Password h [self] kws
  = Inside (Password.__init__ h n
              (default (VStr "*") (assoc "echo" kws))
              (default (VStr "") (assoc "message" kws))
              (default VNone (assoc "default" kws))
              (default VNone (assoc "choices" kws))
              (default (VBool false) (assoc "ignore" kws))
              (default (VBool true) (assoc "validate" kws))
              (default (VBool false) (assoc "show_default" kws))).
Proof.
  intros Hn Hk Hname. unfold init_Password.
  set (x := List.filter (fun e => negb (is_param Password_signature (fst e))) kws).
  assert (Hxn : List.NoDup (List.map fst x)) by apply NoDup_filter_keys, Hn.
  assert (Hxk : forall k, In k (List.map fst x) ->
                  In k ["message"; "default"; "choices"; "ignore"; "validate";
                        "show_default"]).
  { intros k Hin.
    apply (in_filter_keys (fun k => negb (is_param Password_signature k))) in Hin
      as [Hin Hp].
    specialize (Hk k Hin). simpl in Hk. keys_cases Hk; try discriminate; simpl; auto 10. }
  rewrite bind_exact; [|simpl; lia|exact Hn| |].
  - repeat arg_value. rewrite !assoc_bound.
    cbn [bind_positional params Password_signature fst assoc String.eqb Ascii.eqb
         Bool.eqb].
    change (is_param Password_signature "name") with true.
    change (is_param Password_signature "echo") with true.
    cbv beta iota. fold x. rewrite Hname.
    rewrite (init_Text_builds h self [VStr n] n).
    + subst x. rewrite !assoc_extra.
      change (is_param Password_signature "message") with false.
      change (is_param Password_signature "default") with false.
      change (is_param Password_signature "choices") with false.
      change (is_param Password_signature "ignore") with false.
      change (is_param Password_signature "validate") with false.
      change (is_param Password_signature "show_default") with false.
      cbv beta iota. unfold Password.__init__.
      destruct (Text.__init__ _ _ _ _ _ _ _ _) as [[q h']|e]; [|reflexivity].
      cbn [mbind mret embedded_bind embedded_ret outcome_bind].
      destruct (assoc "echo" kws); reflexivity.
    + left. split; [reflexivity|]. subst x. rewrite assoc_extra. reflexivity.
    + exact Hxn.
    + intros k Hin. apply Hxk in Hin. simpl in Hin. keys_cases Hin; simpl; auto 10.
  - intros k Hin. specialize (Hk k Hin). simpl in Hk. keys_cases Hk; reflexivity.
  - apply missing_nil. intros p Hp. simpl in Hp. keys_cases Hp; try discriminate.
    + injection Hp as <-. rewrite assoc_bound. discriminate.
    + injection Hp as <-. rewrite assoc_bound.
      change (is_param Password_signature "name") with true. cbv beta iota.
      cbn [bind_positional params Password_signature fst assoc String.eqb Ascii.eqb
           Bool.eqb].
      rewrite Hname. discriminate.
Qed.

(** What [load_from_dict] builds, class by class. *)
Lemma load_by_class (h : heap) (d : kwargs) (n : string) (c : clazz) :
  List.NoDup (List.map fst d) ->
  (forall k, In k (List.map fst d) -> In k ("kind" :: keywords c)) ->
  assoc "kind" d = Some (VStr (kind c)) ->
  assoc "name" d = Some (VStr n) ->
  let question (given shown : pyval) :=
    Question.__init__ h n
      (default (VStr "") (assoc "message" d)) (default VNone (assoc "choices" d))
      given (default (VBool false) (assoc "ignore" d))
      (default (VBool true) (assoc "validate" d)) shown in
  match c with
  | CConfirm =>
      load_from_dict h d
      = (let '(q, h') := question (default (VBool false) (assoc "default" d))
                           (default (VBool false) (assoc "show_default" d)) in
         Inside (Ok (IsConfirm q, h')))
  | CCheckbox =>
      load_from_dict h d
      = (let '(q, h') := question (default VNone (assoc "default" d))
                           (default (VBool false) (assoc "show_default" d)) in
         Inside (Ok (IsCheckbox q, h')))
  | CList =>
      load_from_dict h d
      = (let '(q, h') := question (default VNone (assoc "default" d)) (VBool false) in
         Inside (Ok (IsList (List_.mk q (default (VBool false) (assoc "carousel" d))), h')))
  | CPassword =>
      load_from_dict h d
      = ('(q, h') ← Inside (Password.__init__ h n
                              (default (VStr "*") (assoc "echo" d))
                              (default (VStr "") (assoc "message" d))
                              (default VNone (assoc "default" d))
                              (default VNone (assoc "choices" d))
                              (default (VBool false) (assoc "ignore" d))
                              (default (VBool true) (assoc "validate" d))
                              (default (VBool false) (assoc "show_default" d)));
         mret (IsPassword q, h'))
  | _ => True
  end.
Proof.
  intros Hn Hk Hkind Hname question.
  destruct (without_kind d (keywords c) Hn Hk) as (Hn' & Hk' & Ea).
  pose proof (factory_from_dict h d _ Hn Hkind) as Hf.
  rewrite factory_loop_kind in Hf.
  set (d' := List.filter (fun e => negb (String.eqb (fst e) "kind")) d) in *.
  assert (Hname' : assoc "name" d' = Some (VStr n)) by (rewrite Ea by discriminate; auto).
  destruct c; try exact I; rewrite Hf; unfold new, question.
  - rewrite (init_Password_builds h VNone n d' Hn' Hk' Hname').
    rewrite !Ea by discriminate. reflexivity.
  - rewrite (init_Confirm_builds h VNone n d' Hn' Hk' Hname').
    rewrite !Ea by discriminate. reflexivity.
  - rewrite (init_List_builds h VNone n d' Hn' Hk' Hname').
    rewrite !Ea by discriminate. reflexivity.
  - rewrite (init_Question_builds_keyword h VNone n d' Hn' Hk' Hname').
    rewrite !Ea by discriminate. reflexivity.
Qed.

(** X20: [load_from_dict] on a dictionary with a string name and only
    keys its class takes builds the question from the entries, a missing
    entry replaced by the default of its parameter: for [confirm] the
    default is [False]; for [checkbox] it is [None]; for [list] there is a
    [carousel], [False] by default, and [show_default] stays [False]; for
    [password] the question is that of [Password.__init__] with [echo]
    ["*"] by default. *)
Theorem load_question_from_dict (h : heap) (d : kwargs) (n : string) :
  List.NoDup (List.map fst d) ->
  assoc "name" d = Some (VStr n) ->
  let question (given shown : pyval) :=
    Question.__init__ h n
      (default (VStr "") (assoc "message" d)) (default VNone (assoc "choices" d))
      given (default (VBool false) (assoc "ignore" d))
      (default (VBool true) (assoc "validate" d)) shown in
  (assoc "kind" d = Some (VStr "confirm") ->
   (forall k, In k (List.map fst d) -> In k ("kind" :: keywords CConfirm)) ->
   load_from_dict h d
   = (let '(q, h') := question (default (VBool false) (assoc "default" d))
                        (default (VBool false) (assoc "show_default" d)) in
      Inside (Ok (IsConfirm q, h'))))
  /\ (assoc "kind" d = Some (VStr "checkbox") ->
      (forall k, In k (List.map fst d) -> In k ("kind" :: keywords CCheckbox)) ->
      load_from_dict h d
      = (let '(q, h') := question (default VNone (assoc "default" d))
                           (default (VBool false) (assoc "show_default" d)) in
         Inside (Ok (IsCheckbox q, h'))))
  /\ (assoc "kind" d = Some (VStr "list") ->
      (forall k, In k (List.map fst d) -> In k ("kind" :: keywords CList)) ->
      load_from_dict h d
      = (let '(q, h') := question (default VNone (assoc "default" d)) (VBool false) in
         Inside (Ok (IsList (List_.mk q (default (VBool false) (assoc "carousel" d))),
                     h'))))
  /\ (assoc "kind" d = Some (VStr "password") ->
      (forall k, In k (List.map fst d) -> In k ("kind" :: keywords CPassword)) ->
      load_from_dict h d
      = ('(q, h') ← Inside (Password.__init__ h n
                              (default (VStr "*") (assoc "echo" d))
                              (default (VStr "") (assoc "message" d))
                              (default VNone (assoc "default" d))
                              (default VNone (assoc "choices" d))
                              (default (VBool false) (assoc "ignore" d))
                              (default (VBool true) (assoc "validate" d))
                              (default (VBool false) (assoc "show_default" d)));
         mret (IsPassword q, h'))).
Proof.
  intros Hn Hname question. repeat split; intros Hkind Hk.
  - exact (load_by_class h d n CConfirm Hn Hk Hkind Hname).
  - exact (load_by_class h d n CCheckbox Hn Hk Hkind Hname).
  - exact (load_by_class h d n CList Hn Hk Hkind Hname).
  - exact (load_by_class h d n CPassword Hn Hk Hkind Hname).
Qed.

End OtherKinds.

(** *** Examples for the properties above *)

Lemma validate_raises_validation_error_witness :
  (exists value, NonException "KeyboardInterrupt" = ValidationError value)
  \/ (is_Exception (NonException "KeyboardInterrupt") = false
      /\ @Question._solve sample sample_heap (sample_question VNone (VFun 3))
           (Question._validate (sample_question VNone (VFun 3))) [VStr "x"]
         = Raise (NonException "KeyboardInterrupt")).
Proof.
  exact (@validate_raises_validation_error sample sample_heap
           (sample_question VNone (VFun 3)) (VStr "x") _ eq_refl).
Defined.

Lemma path_validate_accepts_witness :
  is_None (VStr "~/notes.txt") = false
  /\ @Question.validate sample sample_heap
       (Path.base (sample_path (VStr "file") (VBool true))) (VStr "~/notes.txt") = Ok tt
  /\ exists p,
       @Path.normalize_value sample (sample_path (VStr "file") (VBool true))
         (VStr "~/notes.txt") = Ok (VStr p)
       /\ @is_pathname_valid sample (VStr p) = Ok true
       /\ @Path.check_existence sample (sample_path (VStr "file") (VBool true)) p = Ok tt.
Proof.
  exact (@path_validate_accepts sample sample_heap (sample_path (VStr "file") (VBool true))
           (VStr "~/notes.txt") eq_refl).
Defined.

Lemma path_existence_policy_witness :
  @Path.validate sample sample_heap (sample_path (VStr "file") (VBool true))
     (VStr "~/notes.txt") = Ok tt
  /\ @Path.validate sample sample_heap (sample_path (VStr "file") (VBool false))
       (VStr "~/notes.txt") = Raise (ValidationError (VStr "/home/u/notes.txt"))
  /\ @Path.validate sample sample_heap (sample_path (VStr "directory") (VBool true))
       (VStr "~/notes.txt") = Raise (ValidationError (VStr "/home/u/notes.txt"))
  /\ @Path.validate sample sample_heap (sample_path (VStr "directory") (VBool false))
       (VStr "~/notes.txt") = Ok tt.
Proof.
  split; [|split; [|split]].
  - exact (proj1 (@path_existence_policy sample sample_heap
                    (sample_path (VStr "file") (VBool true)) (VStr "~/notes.txt")
                    "/home/u/notes.txt" eq_refl eq_refl eq_refl eq_refl) eq_refl).
  - exact (proj1 (@path_existence_policy sample sample_heap
                    (sample_path (VStr "file") (VBool false)) (VStr "~/notes.txt")
                    "/home/u/notes.txt" eq_refl eq_refl eq_refl eq_refl) eq_refl).
  - exact (proj2 (@path_existence_policy sample sample_heap
                    (sample_path (VStr "directory") (VBool true)) (VStr "~/notes.txt")
                    "/home/u/notes.txt" eq_refl eq_refl eq_refl eq_refl) eq_refl).
  - exact (proj2 (@path_existence_policy sample sample_heap
                    (sample_path (VStr "directory") (VBool false)) (VStr "~/notes.txt")
                    "/home/u/notes.txt" eq_refl eq_refl eq_refl eq_refl) eq_refl).
Defined.

Lemma path_validate_not_a_path_witness :
  @Path.validate sample sample_heap (sample_path (VStr "any") VNone) (VInt 5)
  = Raise (TypeError "expected str, bytes or os.PathLike object, not int")
  /\ @Path.validate sample sample_heap (sample_path (VStr "any") VNone)
       (VTagged (VStr "a") (VStr "b"))
     = Raise (TypeError "expected str, bytes or os.PathLike object, not TaggedValue")
  /\ @Path.validate sample sample_heap (sample_path (VStr "any") VNone) VNone
     = Raise (ValidationError VNone).
Proof.
  split; [|split].
  - apply (@path_validate_not_a_path sample sample_heap (sample_path (VStr "any") VNone)
             (VInt 5)); reflexivity.
  - apply (@path_validate_not_a_path sample sample_heap (sample_path (VStr "any") VNone)
             (VTagged (VStr "a") (VStr "b"))); reflexivity.
  - apply (@path_validate_not_a_path sample sample_heap (sample_path (VStr "any") VNone)
             VNone); reflexivity.
Defined.

Lemma path_init_default_not_a_path_witness :
  @Path.__init__ sample ∅ "p" (VInt 0) (VStr "any") VNone (VBool false) (VStr "") VNone
     (VBool false) (VBool true) (VBool false)
  = Raise (TypeError "expected str, bytes or os.PathLike object, not int").
Proof.
  apply (@path_init_default_not_a_path sample ∅ "p" (VInt 0) (VStr "any") VNone (VBool false)
           (VStr "") VNone (VBool false) (VBool true) (VBool false) _ _ eq_refl);
    reflexivity.
Defined.

Lemma choices_shape_witness :
  (exists v items,
     @Question._solve sample (setitem sample_heap 0 "mode" (VStr "full"))
        (sample_question VNone VNone) (VFun 4) [] = Ok v
     /\ py_iter v = Ok items
     /\ length [VTagged (VStr "Yes") (VInt 1); VTagged (VStr "No") (VInt 0); VInt 2]
        = length items)
  /\ Forall (fun c => forall label value, c <> VTuple [label; value])
       [VTagged (VStr "Yes") (VInt 1); VTagged (VStr "No") (VInt 0); VInt 2].
Proof.
  apply (@choices_shape sample (setitem sample_heap 0 "mode" (VStr "full"))
           (sample_question VNone VNone)).
  vm_compute. reflexivity.
Defined.

Lemma plain_string_resolves_to_itself_witness :
  @Question.message sample sample_heap
     (Question.mk "q" (VStr "Are you sure?") (VList []) VNone (VStr "no") (VBool true) 0
                  (VBool false))
  = Ok (VStr "Are you sure?")
  /\ @Question.ignore sample sample_heap
       (Question.mk "q" (VStr "Are you sure?") (VList []) VNone (VStr "no") (VBool true) 0
                    (VBool false))
     = Ok true.
Proof.
  split.
  - apply (proj1 (proj2 (@plain_string_resolves_to_itself sample sample_heap
                           (Question.mk "q" (VStr "Are you sure?") (VList []) VNone
                                        (VStr "no") (VBool true) 0 (VBool false))
                           "Are you sure?" eq_refl))).
    reflexivity.
  - apply (proj2 (proj2 (@plain_string_resolves_to_itself sample sample_heap
                           (Question.mk "q" (VStr "Are you sure?") (VList []) VNone
                                        (VStr "no") (VBool true) 0 (VBool false))
                           "no" eq_refl))).
    reflexivity.
Defined.

Lemma placeholder_renders_label_witness :
  @Question._solve sample
     (setitem sample_heap 0 "pick" (VTagged (VStr "Yes") (VInt 1)))
     (sample_question VNone VNone) (VStr "{pick}") [] = Ok (VStr "Yes").
Proof.
  apply (@placeholder_renders_label sample
           (setitem sample_heap 0 "pick" (VTagged (VStr "Yes") (VInt 1)))
           (sample_question VNone VNone) "pick" "Yes" (VInt 1));
    vm_compute; reflexivity.
Defined.

Lemma pathname_validity_composes_witness :
  exists va vb,
    @is_pathname_valid sample (VStr "a") = Ok va
    /\ @is_pathname_valid sample (VStr (String Ascii.zero "b")) = Ok vb
    /\ @is_pathname_valid sample (VStr ("a" ++ String (@os_path_sep sample)
                                                (String Ascii.zero "b")))
       = Ok (va && vb)
    /\ @is_pathname_valid sample (VStr (String Ascii.zero "b"
                                         ++ String (@os_path_sep sample) "a"))
       = Ok (va && vb).
Proof.
  apply (@pathname_validity_composes sample "a" (String Ascii.zero "b")).
  - reflexivity.
  - apply posix_lstat_errors.
  - reflexivity.
  - discriminate.
  - discriminate.
Defined.

Lemma question_factory_dispatch_witness :
  (forall c, @question_factory sample ∅ [VStr (kind c); VStr "n"] [("message", VStr "m")]
             = @new sample c ∅ [VStr "n"] [("message", VStr "m")])
  /\ (forall k, (forall c, py_eq (VStr (kind c)) k = false) ->
                @question_factory sample ∅ [k; VStr "n"] [("message", VStr "m")]
                = Inside (Raise UnknownQuestionTypeError)).
Proof.
  exact (@question_factory_dispatch sample ∅ [VStr "n"] [("message", VStr "m")] eq_refl).
Defined.

Lemma load_from_dict_kind_witness :
  @load_from_dict sample ∅ [("name", VStr "n"); ("kind", VStr "slider")]
  = Inside (Raise UnknownQuestionTypeError).
Proof.
  apply (proj2 (proj2 (@load_from_dict_kind sample ∅
                         [("name", VStr "n"); ("kind", VStr "slider")]
                         ltac:(repeat constructor; simpl; intuition discriminate)))
           (VStr "slider")).
  - reflexivity.
  - intros c; destruct c; reflexivity.
Defined.

Lemma unexpected_keyword_witness :
  exists msg,
    @new sample CList ∅ [VStr "n"] [("show_default", VBool true)]
    = Inside (Raise (TypeError msg)).
Proof.
  apply (@unexpected_keyword sample CList ∅ [VStr "n"] [("show_default", VBool true)]
           "show_default").
  - simpl. auto.
  - simpl. intuition discriminate.
Defined.

Lemma load_text_from_dict_witness :
  @load_from_dict sample ∅
     [("kind", VStr "text"); ("default", VInt 5); ("name", VStr "n")]
  = ('(q, h') ← Inside (@Text.__init__ sample ∅ "n" (VStr "") (VInt 5) VNone (VBool false)
                          (VBool true) (VBool false));
     mret (IsText q, h')).
Proof.
  apply (proj1 (@load_text_from_dict sample ∅
                  [("kind", VStr "text"); ("default", VInt 5); ("name", VStr "n")] "n"
                  ltac:(repeat constructor; simpl; intuition discriminate)
                  ltac:(simpl; intuition (subst; auto 20))
                  eq_refl)).
  reflexivity.
Defined.

Lemma load_path_from_dict_witness :
  @load_from_dict sample ∅
     [("kind", VStr "path"); ("name", VStr "p"); ("exists", VBool true);
      ("default", VStr "/does/not/exist")]
  = ('(q, h') ← Inside (@Path.__init__ sample ∅ "p" (VStr "/does/not/exist") (VStr "any")
                          (VBool true) (VBool false) (VStr "") VNone (VBool false)
                          (VBool true) (VBool false));
     mret (IsPath q, h')).
Proof.
  apply (@load_path_from_dict sample ∅
           [("kind", VStr "path"); ("name", VStr "p"); ("exists", VBool true);
            ("default", VStr "/does/not/exist")] "p").
  - repeat constructor; simpl; intuition discriminate.
  - simpl; intuition (subst; auto 20).
  - reflexivity.
  - reflexivity.
Defined.

Lemma loaded_questions_own_answers_witness :
  match @load_from_list sample ∅
          [[("kind", VStr "text"); ("name", VStr "a")];
           [("kind", VStr "confirm"); ("name", VStr "b")]] with
  | Inside (Ok (qs, _)) =>
      length qs = 2
      /\ List.NoDup (List.map (fun q => Question.answers (base_of q)) qs)
  | _ => False
  end.
Proof.
  destruct (@load_from_list sample ∅
              [[("kind", VStr "text"); ("name", VStr "a")];
               [("kind", VStr "confirm"); ("name", VStr "b")]])
    as [[[qs h']|e]|] eqn:E; [|vm_compute in E; discriminate..].
  destruct (@loaded_questions_own_answers sample _ _ _ _ E) as (Hl & Hn & _).
  split; [exact Hl|exact Hn].
Defined.

Lemma load_question_from_dict_witness :
  @load_from_dict sample ∅ [("name", VStr "sure"); ("kind", VStr "confirm")]
  = (let '(q, h') := Question.__init__ ∅ "sure" (VStr "") VNone (VBool false) (VBool false)
                       (VBool true) (VBool false) in
     Inside (Ok (IsConfirm q, h')))
  /\ @load_from_dict sample ∅
       [("kind", VStr "list"); ("choices", VList [VInt 1; VInt 2]); ("name", VStr "pick")]
     = (let '(q, h') := Question.__init__ ∅ "pick" (VStr "") (VList [VInt 1; VInt 2]) VNone
                          (VBool false) (VBool true) (VBool false) in
        Inside (Ok (IsList (List_.mk q (VBool false)), h'))).
Proof.
  split.
  - apply (proj1 (@load_question_from_dict sample ∅
                    [("name", VStr "sure"); ("kind", VStr "confirm")] "sure"
                    ltac:(repeat constructor; simpl; intuition discriminate) eq_refl)).
    + reflexivity.
    + simpl; intuition (subst; auto 20).
  - apply (proj1 (proj2 (proj2 (@load_question_from_dict sample ∅
                    [("kind", VStr "list"); ("choices", VList [VInt 1; VInt 2]);
                     ("name", VStr "pick")] "pick"
                    ltac:(repeat constructor; simpl; intuition discriminate) eq_refl)))).
    + reflexivity.
    + simpl; intuition (subst; auto 20).
Defined.
